(** * Audit log service: shallow embedding and verified properties

    The development follows the Go packages of the repository:
    - [GoStrings], [GoNet], [GoTime], [GoUUID]: the library functions the
      service calls ([strings.ToUpper], [strings.Contains], [strings.Join],
      [net.ParseIP], [time.Time], [uuid.UUID.String]);
    - [AuditLog], [CreateAuditLogRequest], [AuditLogFilter],
      [PaginatedResponse], [UpdateStatusRequest]: [internal/models];
    - [AuditConfig] ... [Config]: [internal/config];
    - [Validate]: the struct tags of [models.CreateAuditLogRequest] as the
      go-playground validator evaluates them;
    - [SQL], [AuditRepository]: [internal/repositories] over the table
      [audit_logs];
    - [NotificationService]: [internal/services/notification.go];
    - [AuditService], [AuditServiceByID]: [internal/services/audit.go];
    - [AuditHandler]: [internal/handlers/audit.go];
    - [AuthMiddleware]: the authentication of [internal/middleware].

    Functions that touch the database, the clock, the logger or the
    senders are computations over an explicit [World]. *)

From Stdlib Require Import ZArith List String Ascii Bool Lia Arith.
Import ListNotations.
Open Scope string_scope.
Open Scope nat_scope.

(* ================================================================== *)
(** ** Go strings                                                      *)
(* ================================================================== *)

Module GoStrings.

(** [strings.ToUpper] on one byte of an ASCII string: the letters
    [a]..[z] move to [A]..[Z].  Bytes from 0x80 on belong to multi-byte
    runes; their Unicode mapping is outside this model and they are kept. *)
Definition upper_byte (c : ascii) : ascii :=
  let n := nat_of_ascii c in
  if (97 <=? n) && (n <=? 122) then ascii_of_nat (n - 32) else c.

Fixpoint ToUpper (s : string) : string :=
  match s with
  | EmptyString => EmptyString
  | String c s' => String (upper_byte c) (ToUpper s')
  end.

(** [strings.HasPrefix s p]. *)
Fixpoint HasPrefix (s p : string) {struct p} : bool :=
  match p, s with
  | EmptyString, _ => true
  | String _ _, EmptyString => false
  | String b p', String a s' => Ascii.eqb a b && HasPrefix s' p'
  end.

(** [strings.Contains s substr]: some suffix of [s] starts with [substr]. *)
Fixpoint Contains (s substr : string) : bool :=
  HasPrefix s substr ||
  match s with
  | EmptyString => false
  | String _ s' => Contains s' substr
  end.

(** [strings.Join elems sep]. *)
Fixpoint Join (elems : list string) (sep : string) : string :=
  match elems with
  | [] => ""
  | [x] => x
  | x :: rest => x ++ sep ++ Join rest sep
  end.

(** Membership in a slice of strings, as the [for ... range] loops that
    compare with [==] compute it. *)
Definition mem (x : string) (l : list string) : bool :=
  existsb (String.eqb x) l.

Fixpoint drop (n : nat) (s : string) : string :=
  match n, s with
  | O, _ => s
  | S _, EmptyString => EmptyString
  | S n', String _ s' => drop n' s'
  end.

End GoStrings.

(* ================================================================== *)
(** ** net.ParseIP                                                     *)
(* ================================================================== *)

Module GoNet.
Import GoStrings.

Definition isDigit (c : ascii) : bool :=
  let n := nat_of_ascii c in (48 <=? n) && (n <=? 57).

Definition isHexDigit (c : ascii) : bool :=
  let n := nat_of_ascii c in
  ((48 <=? n) && (n <=? 57)) || ((97 <=? n) && (n <=? 102)) ||
  ((65 <=? n) && (n <=? 70)).

(** The loop of [netip.parseIPv4Fields]: [first] tells that the byte read
    is the first one, [prevDot] that the byte before it was a dot, [val]
    and [digLen] describe the octet being read and [pos] counts the octets
    already closed.  An octet has no leading zero and is at most 255; a dot
    is neither first, last nor doubled; there are exactly four octets. *)
Fixpoint parseIPv4Fields (s : string) (first prevDot : bool)
    (val pos digLen : nat) : bool :=
  match s with
  | EmptyString => 3 <=? pos
  | String c rest =>
      if isDigit c then
        if (digLen =? 1) && (val =? 0) then false
        else
          let val' := val * 10 + (nat_of_ascii c - 48) in
          if 255 <? val' then false
          else parseIPv4Fields rest false false val' pos (S digLen)
      else if Ascii.eqb c "." then
        if first || prevDot ||
           match rest with EmptyString => true | _ => false end
        then false
        else if pos =? 3 then false
        else parseIPv4Fields rest false true 0 (S pos) 0
      else false
  end.

Definition parseIPv4 (s : string) : bool :=
  parseIPv4Fields s true false 0 0 0.

(** Number of hexadecimal digits [s] starts with. *)
Fixpoint hexRun (s : string) : nat :=
  match s with
  | String c rest => if isHexDigit c then S (hexRun rest) else 0
  | EmptyString => 0
  end.

(** What [netip.parseIPv6] checks after its loop: the whole string was
    used, and the [::] stands for at least one group exactly when fewer
    than 16 bytes were read. *)
Definition ipv6_final (s : string) (i : nat) (ellipsis : bool) : bool :=
  match s with
  | EmptyString => if i <? 16 then ellipsis else negb ellipsis
  | _ => false
  end.

(** The loop of [netip.parseIPv6]: [i] is the number of address bytes
    filled so far and [ellipsis] tells whether a [::] was seen.  Every
    round reads a group of one to four hexadecimal digits, or a trailing
    dotted quad, and [i] grows by two, so eight rounds are enough. *)
Fixpoint parseIPv6_loop (fuel : nat) (s : string) (i : nat)
    (ellipsis : bool) : bool :=
  match fuel with
  | O => ipv6_final s i ellipsis
  | S fuel' =>
      if 16 <=? i then ipv6_final s i ellipsis
      else
        let off := hexRun s in
        if (4 <? off) || (off =? 0) then false
        else
          match drop off s with
          | EmptyString => ipv6_final "" (i + 2) ellipsis
          | String c rest1 =>
              if Ascii.eqb c "." then
                if negb ellipsis && negb (i =? 12) then false
                else if 16 <? i + 4 then false
                else parseIPv4 s && ipv6_final "" (i + 4) ellipsis
              else if negb (Ascii.eqb c ":") then false
              else
                match rest1 with
                | EmptyString => false
                | String c2 rest2 =>
                    if Ascii.eqb c2 ":" then
                      if ellipsis then false
                      else
                        match rest2 with
                        | EmptyString => ipv6_final "" (i + 2) true
                        | _ => parseIPv6_loop fuel' rest2 (i + 2) true
                        end
                    else parseIPv6_loop fuel' rest1 (i + 2) ellipsis
                end
          end
  end.

Definition parseIPv6 (s : string) : bool :=
  match s with
  | String ":" (String ":" rest) =>
      match rest with
      | EmptyString => true
      | _ => parseIPv6_loop 9 rest 0 true
      end
  | _ => parseIPv6_loop 9 s 0 false
  end.

(** [netip.ParseAddr] looks for the first of [.], [:] and [%] to choose the
    syntax; a string with none of them is not an address. *)
Fixpoint dispatchAddr (whole s : string) : bool :=
  match s with
  | EmptyString => false
  | String c rest =>
      if Ascii.eqb c "." then parseIPv4 whole
      else if Ascii.eqb c ":" then parseIPv6 whole
      else if Ascii.eqb c "%" then false
      else dispatchAddr whole rest
  end.

(** [net.ParseIP s != nil].  [net.ParseIP] refuses an address with a zone,
    so a string with a [%] is never accepted. *)
Definition ParseIP (s : string) : bool :=
  negb (Contains s "%") && dispatchAddr s s.

End GoNet.

(* ================================================================== *)
(** ** time.Time and uuid.UUID                                         *)
(* ================================================================== *)

(** An instant, counted in nanoseconds from the zero value of
    [time.Time]; [IsZero] holds of the zero value only. *)
Definition Time := Z.

Module GoTime.
Definition IsZero (t : Time) : bool := Z.eqb t 0.
(** [t.After(u)]. *)
Definition After (t u : Time) : bool := Z.ltb u t.
End GoTime.

Module GoUUID.

(** A UUID is sixteen bytes, here the number they spell in base 256. *)
Definition UUID := N.

Definition hexDigit (d : N) : ascii :=
  if N.ltb d 10 then ascii_of_N (48 + d) else ascii_of_N (87 + d).

(** The two lowercase hexadecimal digits of byte [i] (byte 0 first). *)
Definition hexByte (u : UUID) (i : nat) : string :=
  let b := N.modulo (N.div u (N.pow 256 (N.of_nat (15 - i)))) 256 in
  String (hexDigit (N.div b 16)) (String (hexDigit (N.modulo b 16)) "").

(** [UUID.String]: the form xxxxxxxx-xxxx-xxxx-xxxx-xxxxxxxxxxxx. *)
Definition String_ (u : UUID) : string :=
  hexByte u 0 ++ hexByte u 1 ++ hexByte u 2 ++ hexByte u 3 ++ "-" ++
  hexByte u 4 ++ hexByte u 5 ++ "-" ++
  hexByte u 6 ++ hexByte u 7 ++ "-" ++
  hexByte u 8 ++ hexByte u 9 ++ "-" ++
  hexByte u 10 ++ hexByte u 11 ++ hexByte u 12 ++ hexByte u 13 ++
  hexByte u 14 ++ hexByte u 15.

End GoUUID.

(* ================================================================== *)
(** ** internal/models                                                 *)
(* ================================================================== *)

(** A decoded JSON value ([interface{}] after [json.Unmarshal]); a number
    keeps its literal. *)
#[local] Unset Elimination Schemes.
Inductive JSON : Type :=
| JNull
| JBool (b : bool)
| JNumber (literal : string)
| JString (s : string)
| JArray (items : list JSON)
| JObject (fields : list (string * JSON)).
#[local] Set Elimination Schemes.

(** [map[string]interface{}]; [None] is the nil map. *)
Definition JSONMap := option (list (string * JSON)).

(** [json.RawMessage]; [None] is the nil slice. *)
Definition RawMessage := option string.

Module AuditLog.
Record t : Type := mk {
  ID : string;
  TenantID : string;
  UserID : string;
  Resource : string;
  Event : string;
  Method : string;
  IP : string;
  Status : string;
  Data : RawMessage;
  Environment : string;
  Meta : JSONMap;
  Timestamp : Time;
  CreatedAt : Time;
  UpdatedAt : Time
}.
End AuditLog.

Module CreateAuditLogRequest.
Record t : Type := mk {
  TenantID : string;
  UserID : string;
  Resource : string;
  Event : string;
  Method : string;
  IP : string;
  Status : string;
  Data : RawMessage;
  Environment : string;
  Meta : JSONMap
}.
End CreateAuditLogRequest.

Module AuditLogFilter.
Record t : Type := mk {
  TenantID : string;
  UserID : string;
  Resource : string;
  Event : string;
  Method : string;
  Status : string;
  Environment : string;
  StartDate : Time;
  EndDate : Time;
  Limit : Z;
  Offset : Z
}.

Definition with_Limit (f : t) (l : Z) : t :=
  mk (TenantID f) (UserID f) (Resource f) (Event f) (Method f) (Status f)
     (Environment f) (StartDate f) (EndDate f) l (Offset f).

Definition with_Offset (f : t) (o : Z) : t :=
  mk (TenantID f) (UserID f) (Resource f) (Event f) (Method f) (Status f)
     (Environment f) (StartDate f) (EndDate f) (Limit f) o.
End AuditLogFilter.

Module PaginatedResponse.
Record t : Type := mk {
  Data : list AuditLog.t;
  Total : Z;
  Limit : Z;
  Offset : Z;
  HasMore : bool
}.
End PaginatedResponse.

Module UpdateStatusRequest.
Record t : Type := mk {
  Status : string;
  Data : RawMessage;
  Meta : JSONMap
}.
End UpdateStatusRequest.

(* ================================================================== *)
(** ** internal/config                                                 *)
(* ================================================================== *)

Module AuditConfig.
Record t : Type := mk {
  Enabled : bool;
  DefaultStatus : string;
  StatusValues : list string;
  ErrorStatus : string
}.

(** [IsValidStatus]: any status when the vocabulary is disabled, otherwise
    one of [StatusValues]. *)
Definition IsValidStatus (c : t) (status : string) : bool :=
  if negb (Enabled c) then true
  else GoStrings.mem status (StatusValues c).
End AuditConfig.

Module EmailConfig.
Record t : Type := mk {
  Enabled : bool;
  SMTPHost : string;
  SMTPPort : Z;
  Username : string;
  Password : string;
  From : string;
  To : list string
}.
End EmailConfig.

Module SlackConfig.
Record t : Type := mk {
  Enabled : bool;
  WebhookURL : string;
  Channel : string;
  Username : string
}.
End SlackConfig.

Module WebhookConfig.
Record t : Type := mk {
  Enabled : bool;
  URLs : list string;
  Timeout : Z
}.
End WebhookConfig.

Module NotificationConfig.
Record t : Type := mk {
  Email : EmailConfig.t;
  Slack : SlackConfig.t;
  Webhook : WebhookConfig.t
}.
End NotificationConfig.

(** The sections of [Config] the services read. *)
Module Config.
Record t : Type := mk {
  Audit : AuditConfig.t;
  Notification : NotificationConfig.t
}.
End Config.

(* ================================================================== *)
(** ** Struct validation                                               *)
(* ================================================================== *)

Module Validate.

(** The validation tags that occur in [models.CreateAuditLogRequest]. *)
Inductive Tag : Type :=
| required
| oneof (values : list string)
| ip.

Definition tag_name (t : Tag) : string :=
  match t with
  | required => "required"
  | oneof _ => "oneof"
  | ip => "ip"
  end.

(** What each tag accepts on a string field: [required] a value other
    than the zero value, [oneof] one of the listed words compared byte for
    byte, [ip] what [net.ParseIP] parses. *)
Definition check (t : Tag) (v : string) : bool :=
  match t with
  | required => negb (String.eqb v "")
  | oneof values => GoStrings.mem v values
  | ip => GoNet.ParseIP v
  end.

(** One entry of [validator.ValidationErrors]. *)
Record FieldError : Type := mkFieldError {
  Field : string;
  FailedTag : string
}.

(** A field's tags are tried in order; the first one that fails is
    reported and the rest of that field's tags are skipped. *)
Fixpoint validate_field (name : string) (tags : list Tag) (v : string)
    : list FieldError :=
  match tags with
  | [] => []
  | t :: rest =>
      if check t v then validate_field name rest v
      else [mkFieldError name (tag_name t)]
  end.

Definition methods : list string := ["GET"; "POST"; "PUT"; "DELETE"; "PATCH"].
Definition environments : list string :=
  ["development"; "staging"; "production"].

(** [validator.Struct] on a [CreateAuditLogRequest]: the fields in
    declaration order, each with the tags of its [validate] key; [Status],
    [Data] and [Meta] have none.  The request is valid iff no error is
    collected. *)
Definition Struct (req : CreateAuditLogRequest.t) : list FieldError :=
  (validate_field "TenantID" [required] (CreateAuditLogRequest.TenantID req) ++
   validate_field "UserID" [required] (CreateAuditLogRequest.UserID req) ++
   validate_field "Resource" [required] (CreateAuditLogRequest.Resource req) ++
   validate_field "Event" [required] (CreateAuditLogRequest.Event req) ++
   validate_field "Method" [required; oneof methods]
     (CreateAuditLogRequest.Method req) ++
   validate_field "IP" [required; ip] (CreateAuditLogRequest.IP req) ++
   validate_field "Environment" [required; oneof environments]
     (CreateAuditLogRequest.Environment req))%list.

End Validate.

(* ================================================================== *)
(** ** Errors                                                          *)
(* ================================================================== *)

(** A Go [error]: the validator's list of field errors, a message made by
    [fmt.Errorf] without a cause, or a message that wraps a cause with
    [%w]. *)
Inductive error : Type :=
| ValidationErrors (errs : list Validate.FieldError)
| New (msg : string)
| Wrap (msg : string) (cause : error).

Module Err.

(** [FieldError.Error] of the validator, for a field of
    [CreateAuditLogRequest]. *)
Definition field_message (fe : Validate.FieldError) : string :=
  "Key: 'CreateAuditLogRequest." ++ Validate.Field fe ++
  "' Error:Field validation for '" ++ Validate.Field fe ++
  "' failed on the '" ++ Validate.FailedTag fe ++ "' tag".

(** [err.Error()]. *)
Fixpoint Error_ (e : error) : string :=
  match e with
  | ValidationErrors errs =>
      GoStrings.Join (map field_message errs) (String "010"%char "")
  | New msg => msg
  | Wrap msg cause => msg ++ ": " ++ Error_ cause
  end.

End Err.

(* ================================================================== *)
(** ** The world the service runs in                                   *)
(* ================================================================== *)

(** Columns of the table [audit_logs]. *)
Inductive Column : Type :=
| c_id | c_tenant_id | c_user_id | c_resource | c_event | c_method | c_ip
| c_status | c_data | c_environment | c_meta | c_timestamp | c_created_at
| c_updated_at.

(** A statement parameter or a column value.  The JSON text that
    [json.Marshal] makes of a metadata map stands for the map. *)
Inductive Value : Type :=
| VText (s : string)
| VRaw (d : RawMessage)
| VMeta (m : JSONMap)
| VTime (t : Time)
| VInt (z : Z).

Inductive Cmp : Type := EQ | GE | LE.

(** One condition [column cmp $arg] of a WHERE clause. *)
Record Cond : Type := mkCond { cond_col : Column; cond_cmp : Cmp; cond_arg : nat }.

(** The right-hand side of a SET part: a positional parameter or [NOW()]. *)
Inductive Expr : Type := Param (n : nat) | NOW.

(** The statements the repository sends, by shape:
    [INSERT INTO audit_logs (14 columns) VALUES ($1..$14)],
    [SELECT COUNT( * ) FROM audit_logs WHERE ...],
    [SELECT ... WHERE ... ORDER BY timestamp DESC LIMIT $l OFFSET $o] and
    [UPDATE audit_logs SET ... WHERE id = $n]. *)
Inductive Stmt : Type :=
| Insert (args : list Value)
| Count (conds : list Cond) (args : list Value)
| SelectPage (conds : list Cond) (limitArg offsetArg : nat) (args : list Value)
| Update (setParts : list (Column * Expr)) (idArg : nat) (args : list Value).

Inductive Channel : Type := Email | Slack | Webhook.

(** A [go] statement that was executed: the notification of a new record
    started by [CreateAuditLog], or one channel started by
    [SendNotification]. *)
Inductive Goroutine : Type :=
| GoSendNotification (auditLog : AuditLog.t)
| GoChannel (ch : Channel) (auditLog : AuditLog.t).

Inductive PayloadValue : Type :=
| PString (s : string)
| PRaw (d : RawMessage)
| PMap (m : JSONMap)
| PTime (t : Time).

(** The text a notification carries.  The multi-line bodies print the
    record's fields, among them the formatted timestamp; they are kept as
    the record they are made from. *)
Inductive Body : Type :=
| EmailBody (auditLog : AuditLog.t)
| SlackBody (auditLog : AuditLog.t).

(** A call of a sender's [Send]. *)
Inductive Delivery : Type :=
| EmailTo (recipient subject : string) (body : Body)
| SlackTo (channel : string) (body : Body)
| WebhookTo (url : string) (payload : list (string * PayloadValue)).

Inductive Level : Type := InfoLevel | ErrorLevel.

Record LogEntry : Type := mkLog {
  log_level : Level;
  log_msg : string;
  log_err : option error
}.

(** The database behind the pool: the rows of [audit_logs], the statements
    received so far, and for each coming statement whether the driver
    reports a failure (lost connection, violated constraint, ...). *)
Record DB : Type := mkDB {
  rows : list AuditLog.t;
  stmts : list Stmt;
  faults : list (option string)
}.

(** What the process reads from outside: the successive answers of
    [time.Now] (and of the database's [NOW()]) and of [uuid.New]. *)
Record Env : Type := mkEnv {
  clock : nat -> Time;
  tick : nat;
  ids : nat -> GoUUID.UUID;
  drawn : nat
}.

Record World : Type := mkWorld {
  db : DB;
  env : Env;
  logs : list LogEntry;
  started : list Goroutine;
  sent : list Delivery
}.

Definition with_db (w : World) (d : DB) : World :=
  mkWorld d (env w) (logs w) (started w) (sent w).
Definition with_env (w : World) (e : Env) : World :=
  mkWorld (db w) e (logs w) (started w) (sent w).
Definition with_logs (w : World) (l : list LogEntry) : World :=
  mkWorld (db w) (env w) l (started w) (sent w).
Definition with_started (w : World) (g : list Goroutine) : World :=
  mkWorld (db w) (env w) (logs w) g (sent w).
Definition with_sent (w : World) (s : list Delivery) : World :=
  mkWorld (db w) (env w) (logs w) (started w) s.

(** Computations that read and change the world and may return an error:
    a Go function with result [(A, error)]. *)
Inductive Result (A : Type) : Type :=
| Ok (a : A)
| Fail (e : error).
Arguments Ok {A} a.
Arguments Fail {A} e.

Definition M (A : Type) : Type := World -> Result A * World.

Definition ret {A} (a : A) : M A := fun w => (Ok a, w).
Definition fail {A} (e : error) : M A := fun w => (Fail e, w).
Definition bind {A B} (m : M A) (k : A -> M B) : M B :=
  fun w => match m w with
           | (Ok a, w') => k a w'
           | (Fail e, w') => (Fail e, w')
           end.

(** [try m] hands the outcome of [m] over as a value, as [err := f()]
    does before the caller inspects [err]. *)
Definition try {A} (m : M A) : M (Result A) :=
  fun w => let (r, w') := m w in (Ok r, w').

Declare Scope go_scope.
Delimit Scope go_scope with go.
Notation "x <- m ;; k" := (bind m (fun x => k))
  (at level 100, m at next level, right associativity) : go_scope.
Notation "m ;;; k" := (bind m (fun _ => k))
  (at level 100, right associativity) : go_scope.
Open Scope go_scope.

Module Sys.

(** [time.Now()]. *)
Definition now : M Time := fun w =>
  let e := env w in
  (Ok (clock e (tick e)),
   with_env w (mkEnv (clock e) (S (tick e)) (ids e) (drawn e))).

(** [uuid.New()]. *)
Definition newUUID : M GoUUID.UUID := fun w =>
  let e := env w in
  (Ok (ids e (drawn e)),
   with_env w (mkEnv (clock e) (tick e) (ids e) (S (drawn e)))).

(** [logger.WithError(err).Error(msg)] and [logger.Info(msg)]. *)
Definition logError (msg : string) (e : error) : M unit := fun w =>
  (Ok tt, with_logs w (logs w ++ [mkLog ErrorLevel msg (Some e)])%list).
Definition logErrorf (msg : string) : M unit := fun w =>
  (Ok tt, with_logs w (logs w ++ [mkLog ErrorLevel msg None])%list).
Definition logInfo (msg : string) : M unit := fun w =>
  (Ok tt, with_logs w (logs w ++ [mkLog InfoLevel msg None])%list).

(** [go f()]. *)
Definition go (g : Goroutine) : M unit := fun w =>
  (Ok tt, with_started w (started w ++ [g])%list).

(** A sender's [Send] was called. *)
Definition deliver (d : Delivery) : M unit := fun w =>
  (Ok tt, with_sent w (sent w ++ [d])%list).

End Sys.

(* ================================================================== *)
(** ** The table [audit_logs] and its statements                       *)
(* ================================================================== *)

Module SQL.

Definition get (c : Column) (r : AuditLog.t) : Value :=
  match c with
  | c_id => VText (AuditLog.ID r)
  | c_tenant_id => VText (AuditLog.TenantID r)
  | c_user_id => VText (AuditLog.UserID r)
  | c_resource => VText (AuditLog.Resource r)
  | c_event => VText (AuditLog.Event r)
  | c_method => VText (AuditLog.Method r)
  | c_ip => VText (AuditLog.IP r)
  | c_status => VText (AuditLog.Status r)
  | c_data => VRaw (AuditLog.Data r)
  | c_environment => VText (AuditLog.Environment r)
  | c_meta => VMeta (AuditLog.Meta r)
  | c_timestamp => VTime (AuditLog.Timestamp r)
  | c_created_at => VTime (AuditLog.CreatedAt r)
  | c_updated_at => VTime (AuditLog.UpdatedAt r)
  end.

(** The columns an UPDATE of the repository assigns. *)
Definition set (c : Column) (v : Value) (r : AuditLog.t) : option AuditLog.t :=
  let '(AuditLog.mk i te us re ev me ip st da en mt ts ca ua) := r in
  match c, v with
  | c_status, VText s =>
      Some (AuditLog.mk i te us re ev me ip s da en mt ts ca ua)
  | c_data, VRaw d =>
      Some (AuditLog.mk i te us re ev me ip st d en mt ts ca ua)
  | c_meta, VMeta m =>
      Some (AuditLog.mk i te us re ev me ip st da en m ts ca ua)
  | c_updated_at, VTime t =>
      Some (AuditLog.mk i te us re ev me ip st da en mt ts ca t)
  | _, _ => None
  end.

(** The value of [$n]; parameters are numbered from 1. *)
Definition param (args : list Value) (n : nat) : option Value :=
  match n with
  | O => None
  | S k => nth_error args k
  end.

Definition compare (c : Cmp) (x y : Value) : bool :=
  match c, x, y with
  | EQ, VText a, VText b => String.eqb a b
  | GE, VTime a, VTime b => Z.leb b a
  | LE, VTime a, VTime b => Z.leb a b
  | _, _, _ => false
  end.

Definition holds (args : list Value) (r : AuditLog.t) (c : Cond) : bool :=
  match param args (cond_arg c) with
  | Some v => compare (cond_cmp c) (get (cond_col c) r) v
  | None => false
  end.

(** A row satisfies the conjunction of the conditions; with no condition
    there is no WHERE clause and every row is selected. *)
Definition selected (conds : list Cond) (args : list Value) (r : AuditLog.t)
    : bool :=
  forallb (holds args r) conds.

(** ORDER BY timestamp DESC, rows of equal timestamp in table order. *)
Fixpoint insert_desc (r : AuditLog.t) (l : list AuditLog.t) : list AuditLog.t :=
  match l with
  | [] => [r]
  | x :: rest =>
      if Z.ltb (AuditLog.Timestamp x) (AuditLog.Timestamp r)
      then r :: l else x :: insert_desc r rest
  end.

Definition order_desc (l : list AuditLog.t) : list AuditLog.t :=
  fold_right insert_desc [] l.

Definition row_of_values (args : list Value) : option AuditLog.t :=
  match args with
  | [VText i; VText te; VText us; VText re; VText ev; VText me; VText ip;
     VText st; VRaw da; VText en; VMeta mt; VTime ts; VTime ca; VTime ua] =>
      Some (AuditLog.mk i te us re ev me ip st da en mt ts ca ua)
  | _ => None
  end.

Definition eval (now : Time) (args : list Value) (e : Expr) : option Value :=
  match e with
  | Param n => param args n
  | NOW => Some (VTime now)
  end.

(** The SET parts applied from left to right to one row. *)
Fixpoint assign (now : Time) (args : list Value)
    (setParts : list (Column * Expr)) (r : AuditLog.t) : option AuditLog.t :=
  match setParts with
  | [] => Some r
  | (c, e) :: rest =>
      match eval now args e with
      | Some v =>
          match set c v r with
          | Some r' => assign now args rest r'
          | None => None
          end
      | None => None
      end
  end.

Definition is_id (v : Value) (r : AuditLog.t) : bool :=
  compare EQ (get c_id r) v.

(** The rows after an UPDATE and the number of rows it changed. *)
Fixpoint update_rows (now : Time) (args : list Value)
    (setParts : list (Column * Expr)) (idv : Value) (l : list AuditLog.t)
    : option (list AuditLog.t * Z) :=
  match l with
  | [] => Some ([], 0%Z)
  | r :: rest =>
      match update_rows now args setParts idv rest with
      | None => None
      | Some (rest', n) =>
          if is_id idv r then
            match assign now args setParts r with
            | Some r' => Some (r' :: rest', (n + 1)%Z)
            | None => None
            end
          else Some (r :: rest', n)
      end
  end.

Inductive Answer : Type :=
| Affected (n : Z)
| Scalar (n : Z)
| Rows (l : list AuditLog.t).

(** The meaning of a statement on the rows; [None] when the database
    rejects it (missing parameter, value of the wrong type, negative
    LIMIT or OFFSET). *)
Definition run (now : Time) (table : list AuditLog.t) (st : Stmt)
    : option (list AuditLog.t * Answer) :=
  match st with
  | Insert args =>
      match row_of_values args with
      | Some r => Some ((table ++ [r])%list, Affected 1)
      | None => None
      end
  | Count conds args =>
      Some (table,
            Scalar (Z.of_nat (List.length (filter (selected conds args) table))))
  | SelectPage conds limitArg offsetArg args =>
      match param args limitArg, param args offsetArg with
      | Some (VInt l), Some (VInt o) =>
          if (Z.ltb l 0 || Z.ltb o 0)%bool then None
          else Some (table,
                     Rows (firstn (Z.to_nat l)
                             (skipn (Z.to_nat o)
                                (order_desc (filter (selected conds args) table)))))
      | _, _ => None
      end
  | Update setParts idArg args =>
      match param args idArg with
      | Some idv =>
          match update_rows now args setParts idv table with
          | Some (table', n) => Some (table', Affected n)
          | None => None
          end
      | None => None
      end
  end.

Definition reads_clock (st : Stmt) : bool :=
  match st with
  | Update setParts _ _ =>
      existsb (fun p => match snd p with NOW => true | Param _ => false end)
        setParts
  | _ => false
  end.

(** [pool.Exec] / [pool.Query]: the statement is recorded; it fails with
    the fault the environment holds for it, if any, and otherwise has its
    meaning on the rows.  A statement with [NOW()] reads the clock. *)
Definition Exec (st : Stmt) : M Answer := fun w =>
  let d := db w in
  let e := env w in
  let seen := (stmts d ++ [st])%list in
  match faults d with
  | Some msg :: rest => (Fail (New msg), with_db w (mkDB (rows d) seen rest))
  | _ =>
      let rest := tl (faults d) in
      let e' := if reads_clock st
                then mkEnv (clock e) (S (tick e)) (ids e) (drawn e) else e in
      match run (clock e (tick e)) (rows d) st with
      | Some (table', ans) =>
          (Ok ans, with_env (with_db w (mkDB table' seen rest)) e')
      | None =>
          (Fail (New "statement rejected"),
           with_db w (mkDB (rows d) seen rest))
      end
  end.

End SQL.

(* ================================================================== *)
(** ** internal/repositories                                           *)
(* ================================================================== *)

(** Go's [int] and [int64]: 64 bits, two's complement. *)
Definition int64 (z : Z) : Z :=
  ((z + 2 ^ 63) mod 2 ^ 64 - 2 ^ 63)%Z.

Module AuditRepository.

(** [Create]: the identifier and the three timestamps are assigned, each
    timestamp from a call of [time.Now] of its own, and the record is
    inserted; [json.Marshal] of a decoded metadata map does not fail.  The
    function returns the record as it leaves it behind the caller's
    pointer. *)
Definition Create (auditLog : AuditLog.t) : M AuditLog.t :=
  u <- Sys.newUUID ;;
  ts <- Sys.now ;;
  ca <- Sys.now ;;
  ua <- Sys.now ;;
  let auditLog :=
    AuditLog.mk (GoUUID.String_ u) (AuditLog.TenantID auditLog)
      (AuditLog.UserID auditLog) (AuditLog.Resource auditLog)
      (AuditLog.Event auditLog) (AuditLog.Method auditLog)
      (AuditLog.IP auditLog) (AuditLog.Status auditLog)
      (AuditLog.Data auditLog) (AuditLog.Environment auditLog)
      (AuditLog.Meta auditLog) ts ca ua in
  r <- try (SQL.Exec (Insert
         [VText (AuditLog.ID auditLog); VText (AuditLog.TenantID auditLog);
          VText (AuditLog.UserID auditLog); VText (AuditLog.Resource auditLog);
          VText (AuditLog.Event auditLog); VText (AuditLog.Method auditLog);
          VText (AuditLog.IP auditLog); VText (AuditLog.Status auditLog);
          VRaw (AuditLog.Data auditLog); VText (AuditLog.Environment auditLog);
          VMeta (AuditLog.Meta auditLog); VTime (AuditLog.Timestamp auditLog);
          VTime (AuditLog.CreatedAt auditLog);
          VTime (AuditLog.UpdatedAt auditLog)])) ;;
  match r with
  | Fail e => fail (Wrap "failed to create audit log" e)
  | Ok _ => ret auditLog
  end.

(** The state of [buildWhereClause]: conditions, parameters, [argIndex]. *)
Definition Clause : Type := list Cond * list Value * nat.

(** One [if] of [buildWhereClause]: a field that is present adds one
    condition on the next parameter. *)
Definition add_if (present : bool) (c : Column) (cmp : Cmp) (v : Value)
    (st : Clause) : Clause :=
  if present then
    let '(conditions, args, argIndex) := st in
    ((conditions ++ [mkCond c cmp argIndex])%list, (args ++ [v])%list,
     S argIndex)
  else st.

Definition nonempty (s : string) : bool := negb (String.eqb s "").

Definition buildWhereClause (filter : AuditLogFilter.t)
    : list Cond * list Value :=
  let st : Clause := ([], [], 1) in
  let st := add_if (nonempty (AuditLogFilter.TenantID filter))
              c_tenant_id EQ (VText (AuditLogFilter.TenantID filter)) st in
  let st := add_if (nonempty (AuditLogFilter.UserID filter))
              c_user_id EQ (VText (AuditLogFilter.UserID filter)) st in
  let st := add_if (nonempty (AuditLogFilter.Resource filter))
              c_resource EQ (VText (AuditLogFilter.Resource filter)) st in
  let st := add_if (nonempty (AuditLogFilter.Event filter))
              c_event EQ (VText (AuditLogFilter.Event filter)) st in
  let st := add_if (nonempty (AuditLogFilter.Method filter))
              c_method EQ (VText (AuditLogFilter.Method filter)) st in
  let st := add_if (nonempty (AuditLogFilter.Status filter))
              c_status EQ (VText (AuditLogFilter.Status filter)) st in
  let st := add_if (nonempty (AuditLogFilter.Environment filter))
              c_environment EQ (VText (AuditLogFilter.Environment filter)) st in
  let st := add_if (negb (GoTime.IsZero (AuditLogFilter.StartDate filter)))
              c_timestamp GE (VTime (AuditLogFilter.StartDate filter)) st in
  let st := add_if (negb (GoTime.IsZero (AuditLogFilter.EndDate filter)))
              c_timestamp LE (VTime (AuditLogFilter.EndDate filter)) st in
  let '(conditions, args, _) := st in
  (conditions, args).

(** [List]: the count of the selected rows, then the page.  Scanning the
    rows of the page and decoding their metadata is taken to succeed. *)
Definition List_ (filter : AuditLogFilter.t) : M PaginatedResponse.t :=
  let '(whereClause, args) := buildWhereClause filter in
  c <- try (SQL.Exec (Count whereClause args)) ;;
  match c with
  | Fail e => fail (Wrap "failed to count audit logs" e)
  | Ok (SQL.Scalar total) =>
      let limitArg := List.length args + 1 in
      let offsetArg := List.length args + 2 in
      let args := (args ++ [VInt (AuditLogFilter.Limit filter);
                            VInt (AuditLogFilter.Offset filter)])%list in
      q <- try (SQL.Exec (SelectPage whereClause limitArg offsetArg args)) ;;
      match q with
      | Fail e => fail (Wrap "failed to query audit logs" e)
      | Ok (SQL.Rows auditLogs) =>
          let hasMore :=
            Z.ltb (int64 (AuditLogFilter.Offset filter +
                          AuditLogFilter.Limit filter)) total in
          ret (PaginatedResponse.mk auditLogs total
                 (AuditLogFilter.Limit filter) (AuditLogFilter.Offset filter)
                 hasMore)
      | Ok _ => fail (Wrap "failed to scan audit log" (New "unexpected answer"))
      end
  | Ok _ => fail (Wrap "failed to count audit logs" (New "unexpected answer"))
  end.

Definition provided {A} (o : option A) : bool :=
  match o with Some _ => true | None => false end.

(** [UpdateStatus]: [status] and [updated_at] always, [data] and [meta]
    when the request carries them, for the rows of the given id. *)
Definition UpdateStatus (id : string) (req : UpdateStatusRequest.t) : M unit :=
  let setParts := [(c_status, Param 1); (c_updated_at, NOW)] in
  let args := [VText (UpdateStatusRequest.Status req)] in
  let argIndex := 2 in
  let '(setParts, args, argIndex) :=
    if provided (UpdateStatusRequest.Data req)
    then ((setParts ++ [(c_data, Param argIndex)])%list,
          (args ++ [VRaw (UpdateStatusRequest.Data req)])%list, S argIndex)
    else (setParts, args, argIndex) in
  let '(setParts, args, argIndex) :=
    if provided (UpdateStatusRequest.Meta req)
    then ((setParts ++ [(c_meta, Param argIndex)])%list,
          (args ++ [VMeta (UpdateStatusRequest.Meta req)])%list, S argIndex)
    else (setParts, args, argIndex) in
  let args := (args ++ [VText id])%list in
  r <- try (SQL.Exec (Update setParts argIndex args)) ;;
  match r with
  | Fail e => fail (Wrap "failed to update audit log status" e)
  | Ok (SQL.Affected rowsAffected) =>
      if Z.eqb rowsAffected 0 then fail (New "audit log not found")
      else ret tt
  | Ok _ => fail (Wrap "failed to update audit log status"
                    (New "unexpected answer"))
  end.

End AuditRepository.

(* ================================================================== *)
(** ** internal/services/notification.go                               *)
(* ================================================================== *)

(** The three sender interfaces: what a call of [Send] answers, [None]
    for a nil error. *)
Definition EmailSender : Type := string -> string -> Body -> option error.
Definition SlackSender : Type := string -> Body -> option error.
Definition WebhookSender : Type :=
  string -> list (string * PayloadValue) -> option error.

Module NotificationService.

(** A field that holds [None] is a nil interface value. *)
Record t : Type := mk {
  config : NotificationConfig.t;
  emailSender : option EmailSender;
  slackSender : option SlackSender;
  webhookSender : option WebhookSender
}.

Definition criticalEvents : list string :=
  ["DELETE"; "UNAUTHORIZED_ACCESS"; "SECURITY_BREACH"].

Definition shouldNotifyByEmail (auditLog : AuditLog.t) : bool :=
  existsb (fun event =>
             GoStrings.Contains (GoStrings.ToUpper (AuditLog.Event auditLog)) event)
    criticalEvents.

Definition shouldNotifyBySlack (auditLog : AuditLog.t) : bool :=
  String.eqb (AuditLog.Environment auditLog) "production".

Definition shouldNotifyByWebhook (auditLog : AuditLog.t) : bool := true.

Definition shouldSendNotification (ns : t) (auditLog : AuditLog.t) : bool :=
  (EmailConfig.Enabled (NotificationConfig.Email (config ns)) &&
     shouldNotifyByEmail auditLog) ||
  (SlackConfig.Enabled (NotificationConfig.Slack (config ns)) &&
     shouldNotifyBySlack auditLog) ||
  (WebhookConfig.Enabled (NotificationConfig.Webhook (config ns)) &&
     shouldNotifyByWebhook auditLog).

(** The condition of the [if] that guards a channel's [go] statement in
    [SendNotification]. *)
Definition fires (ns : t) (auditLog : AuditLog.t) (ch : Channel) : bool :=
  match ch with
  | Email => EmailConfig.Enabled (NotificationConfig.Email (config ns)) &&
             shouldNotifyByEmail auditLog
  | Slack => SlackConfig.Enabled (NotificationConfig.Slack (config ns)) &&
             shouldNotifyBySlack auditLog
  | Webhook => WebhookConfig.Enabled (NotificationConfig.Webhook (config ns)) &&
               shouldNotifyByWebhook auditLog
  end.

Definition formatWebhookPayload (auditLog : AuditLog.t)
    : list (string * PayloadValue) :=
  [("id", PString (AuditLog.ID auditLog));
   ("tenant_id", PString (AuditLog.TenantID auditLog));
   ("user_id", PString (AuditLog.UserID auditLog));
   ("resource", PString (AuditLog.Resource auditLog));
   ("event", PString (AuditLog.Event auditLog));
   ("method", PString (AuditLog.Method auditLog));
   ("ip", PString (AuditLog.IP auditLog));
   ("environment", PString (AuditLog.Environment auditLog));
   ("timestamp", PTime (AuditLog.Timestamp auditLog));
   ("data", PRaw (AuditLog.Data auditLog));
   ("meta", PMap (AuditLog.Meta auditLog));
   ("notification_type", PString "audit_alert")].

(** The [for ... range ns.config.Email.To] loop: the first failing
    [Send] ends the function with its error. *)
Fixpoint email_loop (send : EmailSender) (subject : string) (message : Body)
    (recipients : list string) : M unit :=
  match recipients with
  | [] => ret tt
  | recipient :: rest =>
      Sys.deliver (EmailTo recipient subject message) ;;;
      match send recipient subject message with
      | Some err => fail (Wrap ("failed to send email to " ++ recipient) err)
      | None => email_loop send subject message rest
      end
  end.

Definition sendEmailNotification (ns : t) (auditLog : AuditLog.t) : M unit :=
  match emailSender ns with
  | None => fail (New "email sender not configured")
  | Some send =>
      let message := EmailBody auditLog in
      let subject := "Audit Alert: " ++ AuditLog.Event auditLog ++ " - " ++
                     AuditLog.Resource auditLog in
      email_loop send subject message
        (EmailConfig.To (NotificationConfig.Email (config ns))) ;;;
      Sys.logInfo "Email notification sent successfully"
  end.

Definition sendSlackNotification (ns : t) (auditLog : AuditLog.t) : M unit :=
  match slackSender ns with
  | None => fail (New "slack sender not configured")
  | Some send =>
      let message := SlackBody auditLog in
      let channel := SlackConfig.Channel (NotificationConfig.Slack (config ns)) in
      let channel := if String.eqb channel "" then "#audit-alerts" else channel in
      Sys.deliver (SlackTo channel message) ;;;
      match send channel message with
      | Some err => fail (Wrap "failed to send slack message" err)
      | None => Sys.logInfo "Slack notification sent successfully"
      end
  end.

(** The [for ... range ns.config.Webhook.URLs] loop. *)
Fixpoint webhook_loop (send : WebhookSender)
    (payload : list (string * PayloadValue)) (urls : list string) : M unit :=
  match urls with
  | [] => ret tt
  | url :: rest =>
      Sys.deliver (WebhookTo url payload) ;;;
      match send url payload with
      | Some err => fail (Wrap ("failed to send webhook to " ++ url) err)
      | None => webhook_loop send payload rest
      end
  end.

Definition sendWebhookNotification (ns : t) (auditLog : AuditLog.t) : M unit :=
  match webhookSender ns with
  | None => fail (New "webhook sender not configured")
  | Some send =>
      let payload := formatWebhookPayload auditLog in
      webhook_loop send payload
        (WebhookConfig.URLs (NotificationConfig.Webhook (config ns))) ;;;
      Sys.logInfo "Webhook notification sent successfully"
  end.

(** The body of a channel's goroutine and the message that wraps its
    error. *)
Definition channel_body (ns : t) (auditLog : AuditLog.t) (ch : Channel)
    : M unit :=
  match ch with
  | Email => sendEmailNotification ns auditLog
  | Slack => sendSlackNotification ns auditLog
  | Webhook => sendWebhookNotification ns auditLog
  end.

Definition channel_failed (ch : Channel) : string :=
  match ch with
  | Email => "email notification failed"
  | Slack => "slack notification failed"
  | Webhook => "webhook notification failed"
  end.

(** The order in which the started goroutines run and hand their error to
    the collecting loop: any order of the three channels. *)
Inductive Schedule : Type := ESW | EWS | SEW | SWE | WES | WSE.

Definition order (s : Schedule) : list Channel :=
  match s with
  | ESW => [Email; Slack; Webhook]
  | EWS => [Email; Webhook; Slack]
  | SEW => [Slack; Email; Webhook]
  | SWE => [Slack; Webhook; Email]
  | WES => [Webhook; Email; Slack]
  | WSE => [Webhook; Slack; Email]
  end.

(** The goroutines of [chs] run one after the other; an error is wrapped,
    received by the [for err := range errors] loop, logged, and its text
    kept. *)
Fixpoint collect (ns : t) (auditLog : AuditLog.t) (chs : list Channel)
    : M (list string) :=
  match chs with
  | [] => ret []
  | ch :: rest =>
      r <- try (channel_body ns auditLog ch) ;;
      match r with
      | Ok _ => collect ns auditLog rest
      | Fail e =>
          let err := Wrap (channel_failed ch) e in
          Sys.logError "Notification failed" err ;;;
          notificationErrors <- collect ns auditLog rest ;;
          ret (Err.Error_ err :: notificationErrors)
      end
  end.

Definition start_if (b : bool) (g : Goroutine) : M unit :=
  if b then Sys.go g else ret tt.

Definition SendNotification (ns : t) (sched : Schedule) (auditLog : AuditLog.t)
    : M unit :=
  if negb (shouldSendNotification ns auditLog) then ret tt
  else
    start_if (fires ns auditLog Email) (GoChannel Email auditLog) ;;;
    start_if (fires ns auditLog Slack) (GoChannel Slack auditLog) ;;;
    start_if (fires ns auditLog Webhook) (GoChannel Webhook auditLog) ;;;
    notificationErrors <-
      collect ns auditLog (filter (fires ns auditLog) (order sched)) ;;
    match notificationErrors with
    | [] => ret tt
    | _ => fail (New ("notification errors: " ++
                       GoStrings.Join notificationErrors "; "))
    end.

End NotificationService.

(* ================================================================== *)
(** ** internal/services/audit.go                                      *)
(* ================================================================== *)

Module AuditService.

(** The repository and the logger are the world's; [None] for
    [notificationService] is the nil pointer. *)
Record t : Type := mk {
  notificationService : option NotificationService.t;
  config : Config.t
}.

Definition validateIP (ip : string) : option error :=
  if negb (GoNet.ParseIP ip) then Some (New "invalid IP address format")
  else None.

(** The status a new record gets: the request's, or the default. *)
Definition resolve_status (s : t) (req : CreateAuditLogRequest.t) : string :=
  if String.eqb (CreateAuditLogRequest.Status req) ""
  then AuditConfig.DefaultStatus (Config.Audit (config s))
  else CreateAuditLogRequest.Status req.

Definition invalid_status (s : t) (status : string) : error :=
  New ("invalid status '" ++ status ++ "', must be one of: " ++
       GoStrings.Join (AuditConfig.StatusValues (Config.Audit (config s))) ", ").

(** The model the service hands to the repository. *)
Definition new_AuditLog (req : CreateAuditLogRequest.t) (status : string)
    : AuditLog.t :=
  AuditLog.mk "" (CreateAuditLogRequest.TenantID req)
    (CreateAuditLogRequest.UserID req) (CreateAuditLogRequest.Resource req)
    (CreateAuditLogRequest.Event req)
    (GoStrings.ToUpper (CreateAuditLogRequest.Method req))
    (CreateAuditLogRequest.IP req) status (CreateAuditLogRequest.Data req)
    (CreateAuditLogRequest.Environment req) (CreateAuditLogRequest.Meta req)
    0%Z 0%Z 0%Z.

Definition CreateAuditLog (s : t) (req : CreateAuditLogRequest.t)
    : M AuditLog.t :=
  match Validate.Struct req with
  | (_ :: _) as errs =>
      Sys.logError "Validation failed for audit log creation"
        (ValidationErrors errs) ;;;
      fail (Wrap "validation failed" (ValidationErrors errs))
  | [] =>
      match validateIP (CreateAuditLogRequest.IP req) with
      | Some err =>
          Sys.logError "Invalid IP address" err ;;;
          fail (Wrap "invalid IP address" err)
      | None =>
          let status := resolve_status s req in
          if AuditConfig.Enabled (Config.Audit (config s)) &&
             negb (AuditConfig.IsValidStatus (Config.Audit (config s)) status)
          then
            Sys.logErrorf "Invalid status value" ;;;
            fail (invalid_status s status)
          else
            r <- try (AuditRepository.Create (new_AuditLog req status)) ;;
            match r with
            | Fail err =>
                Sys.logError "Failed to create audit log" err ;;;
                fail (Wrap "failed to create audit log" err)
            | Ok auditLog =>
                Sys.logInfo "Audit log created successfully" ;;;
                match notificationService s with
                | Some _ => Sys.go (GoSendNotification auditLog)
                | None => ret tt
                end ;;;
                ret auditLog
            end
      end
  end.

(** The goroutine [CreateAuditLog] starts: the notification is sent and a
    failure is logged; nothing is returned to anyone. *)
Definition notify_goroutine (s : t) (sched : NotificationService.Schedule)
    (auditLog : AuditLog.t) (w : World) : World :=
  match notificationService s with
  | None => w
  | Some ns =>
      match NotificationService.SendNotification ns sched auditLog w with
      | (Fail err, w') =>
          snd (Sys.logError "Failed to send notification" err w')
      | (Ok _, w') => w'
      end
  end.

(** The three [if]s on the pagination fields, which change the caller's
    filter in place. *)
Definition paginate (filter : AuditLogFilter.t) : AuditLogFilter.t :=
  let filter :=
    if Z.leb (AuditLogFilter.Limit filter) 0
    then AuditLogFilter.with_Limit filter 50 else filter in
  let filter :=
    if Z.ltb 1000 (AuditLogFilter.Limit filter)
    then AuditLogFilter.with_Limit filter 1000 else filter in
  if Z.ltb (AuditLogFilter.Offset filter) 0
  then AuditLogFilter.with_Offset filter 0 else filter.

Definition ListAuditLogs (s : t) (filter : AuditLogFilter.t)
    : M PaginatedResponse.t :=
  let filter := paginate filter in
  if negb (GoTime.IsZero (AuditLogFilter.StartDate filter)) &&
     negb (GoTime.IsZero (AuditLogFilter.EndDate filter)) &&
     GoTime.After (AuditLogFilter.StartDate filter)
       (AuditLogFilter.EndDate filter)
  then fail (New "start date cannot be after end date")
  else
    r <- try (AuditRepository.List_ filter) ;;
    match r with
    | Fail err =>
        Sys.logError "Failed to list audit logs" err ;;;
        fail (Wrap "failed to list audit logs" err)
    | Ok result =>
        Sys.logInfo "Audit logs retrieved successfully" ;;;
        ret result
    end.

(** The map [GetAuditLogStats] returns. *)
Record Stats : Type := mkStats {
  total_logs : Z;
  error_count : Z;
  period_start_date : Time;
  period_end_date : Time;
  tenant_id : string
}.

Definition GetAuditLogStats (s : t) (tenantID : string)
    (startDate endDate : Time) : M Stats :=
  let filter :=
    AuditLogFilter.mk tenantID "" "" "" "" "" "" startDate endDate 1 0 in
  let errorFilter :=
    AuditLogFilter.mk tenantID "" "" "" ""
      (AuditConfig.ErrorStatus (Config.Audit (config s))) ""
      startDate endDate 1 0 in
  r <- try (AuditRepository.List_ filter) ;;
  match r with
  | Fail err => fail (Wrap "failed to get audit log stats" err)
  | Ok result =>
      r <- try (AuditRepository.List_ errorFilter) ;;
      match r with
      | Fail err => fail (Wrap "failed to get audit log stats" err)
      | Ok errorResult =>
          ret (mkStats (PaginatedResponse.Total result)
                 (PaginatedResponse.Total errorResult)
                 startDate endDate tenantID)
      end
  end.

Definition UpdateAuditLogStatus (s : t) (id : string)
    (req : UpdateStatusRequest.t) : M unit :=
  if String.eqb id "" then fail (New "audit log ID is required")
  else if String.eqb (UpdateStatusRequest.Status req) ""
  then fail (New "status is required")
  else
    let status := UpdateStatusRequest.Status req in
    if AuditConfig.Enabled (Config.Audit (config s)) &&
       negb (AuditConfig.IsValidStatus (Config.Audit (config s)) status)
    then
      Sys.logErrorf "Invalid status value" ;;;
      fail (invalid_status s status)
    else
      r <- try (AuditRepository.UpdateStatus id req) ;;
      match r with
      | Fail err =>
          Sys.logError "Failed to update audit log status" err ;;;
          fail (Wrap "failed to update audit log status" err)
      | Ok _ =>
          Sys.logInfo "Audit log status updated successfully" ;;;
          ret tt
      end.

End AuditService.

(* ================================================================== *)
(** ** The error taxonomy of the specification                         *)
(* ================================================================== *)

Inductive ErrorKind : Type :=
| ValidationError
| InvalidInputError
| NotFoundError
| PersistenceError
| NotificationError.

(** The kind of an error of the service, by the place that makes it:
    the struct validation gives a [ValidationError]; the explicit IP check,
    the status vocabulary, an empty identifier or status and an inverted
    date range give an [InvalidInputError]; a store that finds no row gives
    a [NotFoundError]; any other failure of the store is a
    [PersistenceError]; the aggregate of the channels is a
    [NotificationError]. *)
Fixpoint spec_kind (e : error) : ErrorKind :=
  match e with
  | ValidationErrors _ => ValidationError
  | Wrap "validation failed" _ => ValidationError
  | Wrap "invalid IP address" _ => InvalidInputError
  | Wrap _ cause =>
      match spec_kind cause with
      | NotFoundError => NotFoundError
      | _ => PersistenceError
      end
  | New "audit log not found" => NotFoundError
  | New "audit log ID is required" => InvalidInputError
  | New "status is required" => InvalidInputError
  | New "start date cannot be after end date" => InvalidInputError
  | New msg =>
      if GoStrings.HasPrefix msg "invalid status '" then InvalidInputError
      else if GoStrings.HasPrefix msg "notification errors: "
      then NotificationError
      else PersistenceError
  end.

(* ================================================================== *)
(** ** Notions used in the statements                                  *)
(* ================================================================== *)

(** The record [Create] makes of [a] in the world [w]: the next
    identifier and the next three readings of the clock. *)
Definition created (w : World) (a : AuditLog.t) : AuditLog.t :=
  let e := env w in
  AuditLog.mk (GoUUID.String_ (ids e (drawn e))) (AuditLog.TenantID a)
    (AuditLog.UserID a) (AuditLog.Resource a) (AuditLog.Event a)
    (AuditLog.Method a) (AuditLog.IP a) (AuditLog.Status a) (AuditLog.Data a)
    (AuditLog.Environment a) (AuditLog.Meta a)
    (clock e (tick e)) (clock e (S (tick e))) (clock e (S (S (tick e)))).

(** The failure the driver will report for the next statement, if any. *)
Definition next_fault (w : World) : option string :=
  match faults (db w) with
  | Some msg :: _ => Some msg
  | _ => None
  end.

(** The condition of the [if] that rejects a status. *)
Definition status_rejected (s : AuditService.t) (status : string) : bool :=
  AuditConfig.Enabled (Config.Audit (AuditService.config s)) &&
  negb (AuditConfig.IsValidStatus (Config.Audit (AuditService.config s)) status).

(** The channel a delivery belongs to. *)
Definition channel_of (d : Delivery) : Channel :=
  match d with
  | EmailTo _ _ _ => Email
  | SlackTo _ _ => Slack
  | WebhookTo _ _ => Webhook
  end.

(** The recipients a loop that stops at the first failure reaches: those
    up to and including the first one that fails. *)
Fixpoint attempted {E} (outcome : string -> option E) (l : list string)
    : list string :=
  match l with
  | [] => []
  | x :: rest =>
      x :: match outcome x with
           | Some _ => []
           | None => attempted outcome rest
           end
  end.

(** The first recipient that fails, with its error. *)
Fixpoint first_failure {E} (outcome : string -> option E) (l : list string)
    : option (string * E) :=
  match l with
  | [] => None
  | x :: rest =>
      match outcome x with
      | Some e => Some (x, e)
      | None => first_failure outcome rest
      end
  end.


(** What the specification says an update does to the row it addresses:
    status and last-update timestamp always, data and metadata when
    provided. *)
Definition partial_update (now : Time) (req : UpdateStatusRequest.t)
    (r : AuditLog.t) : AuditLog.t :=
  AuditLog.mk (AuditLog.ID r) (AuditLog.TenantID r) (AuditLog.UserID r)
    (AuditLog.Resource r) (AuditLog.Event r) (AuditLog.Method r)
    (AuditLog.IP r) (UpdateStatusRequest.Status req)
    (match UpdateStatusRequest.Data req with
     | Some d => Some d
     | None => AuditLog.Data r
     end)
    (AuditLog.Environment r)
    (match UpdateStatusRequest.Meta req with
     | Some m => Some m
     | None => AuditLog.Meta r
     end)
    (AuditLog.Timestamp r) (AuditLog.CreatedAt r) now.

Definition has_id (id : string) (r : AuditLog.t) : bool :=
  String.eqb (AuditLog.ID r) id.

(** What a part of the notification code may change: the log and the
    deliveries, the latter by calls of the senders of [chs] only. *)
Definition notifies (chs : list Channel) (w w' : World) : Prop :=
  db w' = db w /\ env w' = env w /\ started w' = started w /\
  exists ds, sent w' = (sent w ++ ds)%list /\
             Forall (fun d => In (channel_of d) chs) ds.

(** The goroutines [SendNotification] starts for a record. *)
Definition launched (ns : NotificationService.t) (a : AuditLog.t)
    : list Goroutine :=
  map (fun ch => GoChannel ch a)
    (filter (NotificationService.fires ns a) [Email; Slack; Webhook]).

(** Both dates are given and the start is after the end. *)
Definition inverted_range (filter : AuditLogFilter.t) : bool :=
  negb (GoTime.IsZero (AuditLogFilter.StartDate filter)) &&
  negb (GoTime.IsZero (AuditLogFilter.EndDate filter)) &&
  GoTime.After (AuditLogFilter.StartDate filter)
    (AuditLogFilter.EndDate filter).

(** A concrete configuration (the defaults of [setDefaults] for the audit
    section), service, world and requests. *)
Module Sample.

Definition audit : AuditConfig.t :=
  AuditConfig.mk true "pending"
    ["pending"; "processing"; "completed"; "failed"; "archived"] "failed".

Definition notification : NotificationConfig.t :=
  NotificationConfig.mk
    (EmailConfig.mk true "smtp.example.org" 587 "audit" "secret"
       "audit@example.org" ["a@example.org"; "b@example.org"])
    (SlackConfig.mk true "https://hooks.example.org/slack" "" "audit-bot")
    (WebhookConfig.mk true
       ["https://one.example.org/hook"; "https://two.example.org/hook"] 30).

Definition cfg : Config.t := Config.mk audit notification.

(** Senders whose first recipient is unreachable. *)
Definition email_down : EmailSender := fun recipient _ _ =>
  if String.eqb recipient "a@example.org" then Some (New "connection refused")
  else None.
Definition slack_up : SlackSender := fun _ _ => None.
Definition webhook_down : WebhookSender := fun url _ =>
  if String.eqb url "https://one.example.org/hook"
  then Some (New "webhook returned status 500") else None.

Definition notifier : NotificationService.t :=
  NotificationService.mk notification (Some email_down) (Some slack_up)
    (Some webhook_down).

Definition service : AuditService.t := AuditService.mk (Some notifier) cfg.

(** An empty table, a clock that advances by one at every reading. *)
Definition world : World :=
  mkWorld (mkDB [] [] [])
    (mkEnv (fun n => (1000 + Z.of_nat n)%Z) 0 (fun n => N.of_nat n) 0)
    [] [] [].

Definition request (method ip status : string) : CreateAuditLogRequest.t :=
  CreateAuditLogRequest.mk "t1" "u1" "users" "USER_CREATED" method ip status
    None "production" None.

Definition request_post : CreateAuditLogRequest.t :=
  request "post" "192.168.1.100" "".
Definition request_POST : CreateAuditLogRequest.t :=
  request "POST" "192.168.1.100" "".
Definition request_bad_ip : CreateAuditLogRequest.t :=
  request "POST" "not-an-ip" "".

(** A deletion in production: the event the email channel reacts to. *)
Definition request_deleted : CreateAuditLogRequest.t :=
  CreateAuditLogRequest.mk "t1" "u1" "users" "USER_DELETED" "DELETE"
    "192.168.1.100" "" None "production" None.

Definition record_POST : AuditLog.t :=
  AuditLog.mk "00000000-0000-0000-0000-000000000000" "t1" "u1" "users"
    "USER_CREATED" "POST" "192.168.1.100" "pending" None "production" None
    1000%Z 1001%Z 1002%Z.


Definition record_deleted : AuditLog.t :=
  AuditLog.mk "00000000-0000-0000-0000-000000000001" "t1" "u1" "users"
    "USER_DELETED" "DELETE" "192.168.1.100" "pending" None "production" None
    2000%Z 2001%Z 2002%Z.

Definition record_viewed : AuditLog.t :=
  AuditLog.mk "00000000-0000-0000-0000-000000000002" "t1" "u1" "users"
    "USER_VIEWED" "GET" "192.168.1.100" "pending" None "development" None
    3000%Z 3001%Z 3002%Z.

(** A notifier with every channel switched off. *)
Definition silent : NotificationService.t :=
  NotificationService.mk
    (NotificationConfig.mk
       (EmailConfig.mk false "" 0 "" "" "" [])
       (SlackConfig.mk false "" "" "")
       (WebhookConfig.mk false [] 0))
    None None None.


(** A table that holds the record of the scenario. *)
Definition world_one : World :=
  mkWorld (mkDB [record_POST] [] [])
    (mkEnv (fun n => (1000 + Z.of_nat n)%Z) 0 (fun n => N.of_nat n) 0)
    [] [] [].


(** All records of tenant [t1], with the given limit and offset. *)
Definition filter_page (limit offset : Z) : AuditLogFilter.t :=
  AuditLogFilter.mk "t1" "" "" "" "" "" "" 0%Z 0%Z limit offset.

(** The sample service with no error status configured. *)
Definition service_no_error_status : AuditService.t :=
  AuditService.mk (Some notifier)
    (Config.mk
       (AuditConfig.mk true "pending"
          ["pending"; "processing"; "completed"; "failed"; "archived"] "")
       notification).

End Sample.

(* ================================================================== *)
(** ** The by-id operations of the repository and of the service       *)
(* ================================================================== *)

(** The two statements that address rows by id:
    [SELECT ... FROM audit_logs WHERE id = $1] and
    [DELETE FROM audit_logs WHERE id = $1]. *)
Inductive IdStmt : Type :=
| SelectByID (args : list Value)
| DeleteByID (args : list Value).

Module AuditRepositoryByID.

Definition keep_others (idv : Value) (r : AuditLog.t) : bool :=
  negb (SQL.is_id idv r).

(** The meaning of a by-id statement on the rows. *)
Definition run (table : list AuditLog.t) (st : IdStmt)
    : option (list AuditLog.t * SQL.Answer) :=
  match st with
  | SelectByID args =>
      match SQL.param args 1 with
      | Some idv => Some (table, SQL.Rows (List.filter (SQL.is_id idv) table))
      | None => None
      end
  | DeleteByID args =>
      match SQL.param args 1 with
      | Some idv =>
          Some (List.filter (keep_others idv) table,
                SQL.Affected
                  (Z.of_nat (List.length (List.filter (SQL.is_id idv) table))))
      | None => None
      end
  end.

(** [pool.QueryRow] / [pool.Exec] for these statements: as [SQL.Exec],
    the statement fails with the fault the environment holds for it, if
    any, and otherwise has its meaning on the rows.  The world's list of
    statements records those of [Create], [List] and [UpdateStatus]
    only. *)
Definition Exec (st : IdStmt) : M SQL.Answer := fun w =>
  let d := db w in
  match faults d with
  | Some msg :: rest =>
      (Fail (New msg), with_db w (mkDB (rows d) (stmts d) rest))
  | _ =>
      let rest := tl (faults d) in
      match run (rows d) st with
      | Some (table', ans) => (Ok ans, with_db w (mkDB table' (stmts d) rest))
      | None =>
          (Fail (New "statement rejected"),
           with_db w (mkDB (rows d) (stmts d) rest))
      end
  end.

(** [GetByID]: the row of the id as it is stored; no row is
    [pgx.ErrNoRows]. *)
Definition GetByID (id : string) : M AuditLog.t :=
  r <- try (Exec (SelectByID [VText id])) ;;
  match r with
  | Fail e => fail (Wrap "failed to get audit log" e)
  | Ok (SQL.Rows []) => fail (New "audit log not found")
  | Ok (SQL.Rows (auditLog :: _)) => ret auditLog
  | Ok _ => fail (Wrap "failed to get audit log" (New "unexpected answer"))
  end.

Definition Delete (id : string) : M unit :=
  r <- try (Exec (DeleteByID [VText id])) ;;
  match r with
  | Fail e => fail (Wrap "failed to delete audit log" e)
  | Ok (SQL.Affected rowsAffected) =>
      if Z.eqb rowsAffected 0 then fail (New "audit log not found")
      else ret tt
  | Ok _ => fail (Wrap "failed to delete audit log" (New "unexpected answer"))
  end.

End AuditRepositoryByID.

Module AuditServiceByID.

Definition GetAuditLogByID (s : AuditService.t) (id : string)
    : M AuditLog.t :=
  if String.eqb id "" then fail (New "audit log ID is required")
  else
    r <- try (AuditRepositoryByID.GetByID id) ;;
    match r with
    | Fail err =>
        Sys.logError "Failed to get audit log" err ;;;
        fail (Wrap "failed to get audit log" err)
    | Ok auditLog => ret auditLog
    end.

(** [DeleteAuditLog]: the record is fetched first, then deleted. *)
Definition DeleteAuditLog (s : AuditService.t) (id : string) : M unit :=
  if String.eqb id "" then fail (New "audit log ID is required")
  else
    r <- try (AuditRepositoryByID.GetByID id) ;;
    match r with
    | Fail err => fail (Wrap "audit log not found" err)
    | Ok auditLog =>
        d <- try (AuditRepositoryByID.Delete id) ;;
        match d with
        | Fail err =>
            Sys.logError "Failed to delete audit log" err ;;;
            fail (Wrap "failed to delete audit log" err)
        | Ok _ =>
            Sys.logInfo "Audit log deleted successfully" ;;;
            ret tt
        end
    end.

End AuditServiceByID.

(** The rows of a table other than those of an id. *)
Definition without (id : string) (table : list AuditLog.t) : list AuditLog.t :=
  List.filter (fun r => negb (has_id id r)) table.

(** The CHECK constraints of the table [audit_logs] on a row:
    [method IN ('GET', 'POST', 'PUT', 'DELETE', 'PATCH')] and
    [environment IN ('development', 'staging', 'production')]. *)
Definition checks (r : AuditLog.t) : bool :=
  GoStrings.mem (AuditLog.Method r) ["GET"; "POST"; "PUT"; "DELETE"; "PATCH"] &&
  GoStrings.mem (AuditLog.Environment r)
    ["development"; "staging"; "production"].

(** Every row carries a status of the vocabulary. *)
Definition statuses_valid (s : AuditService.t) (table : list AuditLog.t)
    : Prop :=
  forall r, In r table ->
    In (AuditLog.Status r)
      (AuditConfig.StatusValues (Config.Audit (AuditService.config s))).

(* ================================================================== *)
(** ** The HTTP handlers                                               *)
(* ================================================================== *)

Module GoStrconv.

Definition digit (c : ascii) : option Z :=
  let n := Z.of_N (N_of_ascii c) in
  if Z.leb 48 n && Z.leb n 57 then Some (n - 48)%Z else None.

Fixpoint digits (s : string) (acc : Z) : option Z :=
  match s with
  | EmptyString => Some acc
  | String c rest =>
      match digit c with
      | Some d => digits rest (acc * 10 + d)%Z
      | None => None
      end
  end.

(** [strconv.Atoi] where [int] has 64 bits: an optional sign, then
    decimal digits, at least one; a value that does not fit is an
    error. *)
Definition Atoi (s : string) : option Z :=
  match s with
  | EmptyString => None
  | String c rest =>
      let neg := Ascii.eqb c "-" in
      let body := if neg || Ascii.eqb c "+" then rest else s in
      match body with
      | EmptyString => None
      | _ =>
          match digits body 0 with
          | Some n =>
              let v := if neg then (- n)%Z else n in
              if Z.leb (- 2 ^ 63) v && Z.leb v (2 ^ 63 - 1) then Some v
              else None
          | None => None
          end
      end
  end.

End GoStrconv.

Module Gin.

(** What a handler reads of its [*gin.Context]: the path parameters, the
    query parameters (an absent one is the empty string), the outcome of
    [ShouldBindJSON] on the body, and the client's address. *)
Record Context (T : Type) : Type := mkContext {
  Param : string -> string;
  Query : string -> string;
  ShouldBindJSON : Result T;
  ClientIP : string
}.
Arguments mkContext {T}.
Arguments Param {T}.
Arguments Query {T}.
Arguments ShouldBindJSON {T}.
Arguments ClientIP {T}.

End Gin.

(** What a handler writes: [models.ErrorResponse], a record, a page, the
    statistics, the map of [UpdateAuditLogStatus], or nothing. *)
Inductive ResponseBody : Type :=
| ErrorResponse (Error Message : string) (Code : Z)
| AuditLogBody (auditLog : AuditLog.t)
| PageBody (result : PaginatedResponse.t)
| StatsBody (stats : AuditService.Stats)
| UpdatedBody (message id status : string)
| NoBody.

Record Response : Type := mkResponse {
  code : Z;
  body : ResponseBody
}.

Module HTTP.
Definition StatusOK : Z := 200.
Definition StatusCreated : Z := 201.
Definition StatusNoContent : Z := 204.
Definition StatusBadRequest : Z := 400.
Definition StatusNotFound : Z := 404.
Definition StatusInternalServerError : Z := 500.
End HTTP.

(** [c.JSON(code, models.ErrorResponse{...})]. *)
Definition respond_error (status : Z) (error message : string) : M Response :=
  ret (mkResponse status (ErrorResponse error message status)).

(** The body [UpdateAuditLogStatus] binds. *)
Module UpdateAuditLogStatusRequest.
Record t : Type := mk {
  Status : string;
  Data : RawMessage;
  Meta : JSONMap
}.
End UpdateAuditLogStatusRequest.

Module AuditHandler.

(** The request with the client's address in the place of an empty
    [IP]. *)
Definition withClientIP (req : CreateAuditLogRequest.t) (clientIP : string)
    : CreateAuditLogRequest.t :=
  if String.eqb (CreateAuditLogRequest.IP req) ""
  then CreateAuditLogRequest.mk
         (CreateAuditLogRequest.TenantID req)
         (CreateAuditLogRequest.UserID req)
         (CreateAuditLogRequest.Resource req)
         (CreateAuditLogRequest.Event req)
         (CreateAuditLogRequest.Method req)
         clientIP
         (CreateAuditLogRequest.Status req)
         (CreateAuditLogRequest.Data req)
         (CreateAuditLogRequest.Environment req)
         (CreateAuditLogRequest.Meta req)
  else req.

Section WithTime.

(** [time.Parse(time.RFC3339, s)]: the instant, or an error. *)
Variable ParseRFC3339 : string -> option Time.

Definition CreateAuditLog (h : AuditService.t)
    (c : Gin.Context CreateAuditLogRequest.t) : M Response :=
  match Gin.ShouldBindJSON c with
  | Fail err =>
      Sys.logError "Failed to bind JSON" err ;;;
      respond_error HTTP.StatusBadRequest "Invalid request body"
        (Err.Error_ err)
  | Ok req =>
      let req := withClientIP req (Gin.ClientIP c) in
      r <- try (AuditService.CreateAuditLog h req) ;;
      match r with
      | Fail err =>
          Sys.logError "Failed to create audit log" err ;;;
          respond_error HTTP.StatusInternalServerError
            "Failed to create audit log" (Err.Error_ err)
      | Ok auditLog =>
          ret (mkResponse HTTP.StatusCreated (AuditLogBody auditLog))
      end
  end.

Definition GetAuditLog {T} (h : AuditService.t) (c : Gin.Context T)
    : M Response :=
  let id := Gin.Param c "id" in
  if String.eqb id ""
  then respond_error HTTP.StatusBadRequest "Missing audit log ID"
         "Audit log ID is required"
  else
    r <- try (AuditServiceByID.GetAuditLogByID h id) ;;
    match r with
    | Fail err =>
        Sys.logError "Failed to get audit log" err ;;;
        respond_error HTTP.StatusNotFound "Audit log not found"
          (Err.Error_ err)
    | Ok auditLog => ret (mkResponse HTTP.StatusOK (AuditLogBody auditLog))
    end.

Definition ListAuditLogs {T} (h : AuditService.t) (c : Gin.Context T)
    : M Response :=
  let startDateStr := Gin.Query c "start_date" in
  match (if String.eqb startDateStr "" then Some 0%Z
         else ParseRFC3339 startDateStr) with
  | None =>
      respond_error HTTP.StatusBadRequest "Invalid start_date format"
        "start_date must be in RFC3339 format"
  | Some startDate =>
      let endDateStr := Gin.Query c "end_date" in
      match (if String.eqb endDateStr "" then Some 0%Z
             else ParseRFC3339 endDateStr) with
      | None =>
          respond_error HTTP.StatusBadRequest "Invalid end_date format"
            "end_date must be in RFC3339 format"
      | Some endDate =>
          let limitStr := Gin.Query c "limit" in
          match (if String.eqb limitStr "" then Some 50%Z
                 else GoStrconv.Atoi limitStr) with
          | None =>
              respond_error HTTP.StatusBadRequest "Invalid limit format"
                "limit must be a valid integer"
          | Some limit =>
              let offsetStr := Gin.Query c "offset" in
              match (if String.eqb offsetStr "" then Some 0%Z
                     else GoStrconv.Atoi offsetStr) with
              | None =>
                  respond_error HTTP.StatusBadRequest "Invalid offset format"
                    "offset must be a valid integer"
              | Some offset =>
                  let filter :=
                    AuditLogFilter.mk (Gin.Query c "tenant_id")
                      (Gin.Query c "user_id") (Gin.Query c "resource")
                      (Gin.Query c "event") (Gin.Query c "method")
                      (Gin.Query c "status") (Gin.Query c "environment")
                      startDate endDate limit offset in
                  r <- try (AuditService.ListAuditLogs h filter) ;;
                  match r with
                  | Fail err =>
                      Sys.logError "Failed to list audit logs" err ;;;
                      respond_error HTTP.StatusInternalServerError
                        "Failed to retrieve audit logs" (Err.Error_ err)
                  | Ok result =>
                      ret (mkResponse HTTP.StatusOK (PageBody result))
                  end
              end
          end
      end
  end.

Definition DeleteAuditLog {T} (h : AuditService.t) (c : Gin.Context T)
    : M Response :=
  let id := Gin.Param c "id" in
  if String.eqb id ""
  then respond_error HTTP.StatusBadRequest "Missing audit log ID"
         "Audit log ID is required"
  else
    r <- try (AuditServiceByID.DeleteAuditLog h id) ;;
    match r with
    | Fail err =>
        Sys.logError "Failed to delete audit log" err ;;;
        respond_error HTTP.StatusNotFound "Failed to delete audit log"
          (Err.Error_ err)
    | Ok _ => ret (mkResponse HTTP.StatusNoContent NoBody)
    end.

Definition GetAuditLogStats {T} (h : AuditService.t)
    (c : Gin.Context T) : M Response :=
  let tenantID := Gin.Query c "tenant_id" in
  if String.eqb tenantID ""
  then respond_error HTTP.StatusBadRequest "Missing tenant_id"
         "tenant_id is required"
  else
    let startDateStr := Gin.Query c "start_date" in
    let endDateStr := Gin.Query c "end_date" in
    if String.eqb startDateStr "" || String.eqb endDateStr ""
    then respond_error HTTP.StatusBadRequest "Missing date parameters"
           "Both start_date and end_date are required"
    else
      match ParseRFC3339 startDateStr with
      | None =>
          respond_error HTTP.StatusBadRequest "Invalid start_date format"
            "start_date must be in RFC3339 format"
      | Some startDate =>
          match ParseRFC3339 endDateStr with
          | None =>
              respond_error HTTP.StatusBadRequest "Invalid end_date format"
                "end_date must be in RFC3339 format"
          | Some endDate =>
              r <- try (AuditService.GetAuditLogStats h tenantID startDate
                          endDate) ;;
              match r with
              | Fail err =>
                  Sys.logError "Failed to get audit log stats" err ;;;
                  respond_error HTTP.StatusInternalServerError
                    "Failed to retrieve statistics" (Err.Error_ err)
              | Ok stats => ret (mkResponse HTTP.StatusOK (StatsBody stats))
              end
          end
      end.

Definition UpdateAuditLogStatus (h : AuditService.t)
    (c : Gin.Context UpdateAuditLogStatusRequest.t) : M Response :=
  let id := Gin.Param c "id" in
  if String.eqb id ""
  then respond_error HTTP.StatusBadRequest "Invalid request"
         "Audit log ID is required"
  else
    match Gin.ShouldBindJSON c with
    | Fail err =>
        Sys.logError "Failed to bind JSON" err ;;;
        respond_error HTTP.StatusBadRequest "Invalid request body"
          (Err.Error_ err)
    | Ok req =>
        let updateReq :=
          UpdateStatusRequest.mk (UpdateAuditLogStatusRequest.Status req)
            (UpdateAuditLogStatusRequest.Data req)
            (UpdateAuditLogStatusRequest.Meta req) in
        r <- try (AuditService.UpdateAuditLogStatus h id updateReq) ;;
        match r with
        | Fail err =>
            if GoStrings.Contains (Err.Error_ err) "not found"
            then respond_error HTTP.StatusNotFound "Audit log not found"
                   (Err.Error_ err)
            else if GoStrings.Contains (Err.Error_ err) "invalid status"
            then respond_error HTTP.StatusBadRequest "Invalid status"
                   (Err.Error_ err)
            else
              Sys.logError "Failed to update audit log status" err ;;;
              respond_error HTTP.StatusInternalServerError
                "Failed to update audit log status" (Err.Error_ err)
        | Ok _ =>
            ret (mkResponse HTTP.StatusOK
                   (UpdatedBody "Audit log status updated successfully" id
                      (UpdateAuditLogStatusRequest.Status req)))
        end
    end.

End WithTime.

End AuditHandler.

(* ================================================================== *)
(** ** The authentication middleware                                   *)
(* ================================================================== *)

Module AuthConfig.
Record t : Type := mk {
  JWTSecret : string;
  JWTExpiration : Z;
  APIKeys : list string
}.
End AuthConfig.

Module JWT.

(** What the middleware reads of a parsed token: [Valid], and the claims
    when they are [jwt.MapClaims]. *)
Record Token : Type := mkToken {
  Valid : bool;
  Claims : option (list (string * JSON))
}.

(** [claims[key]]: the value, nil for an absent key. *)
Definition claim (claims : list (string * JSON)) (key : string) : JSON :=
  match List.find (fun p => String.eqb (fst p) key) claims with
  | Some p => snd p
  | None => JNull
  end.

End JWT.

Module AuthContext.

(** What the middleware reads and writes of its [*gin.Context]: the
    request's headers and query parameters (an absent one is the empty
    string) and the keys set so far, the latest first. *)
Record t : Type := mk {
  GetHeader : string -> string;
  Query : string -> string;
  Keys : list (string * JSON)
}.

(** [c.Set(key, value)] and [c.Get(key)]. *)
Definition Set_ (c : t) (key : string) (value : JSON) : t :=
  mk (GetHeader c) (Query c) ((key, value) :: Keys c).

Definition Get (c : t) (key : string) : option JSON :=
  match List.find (fun p => String.eqb (fst p) key) (Keys c) with
  | Some p => Some (snd p)
  | None => None
  end.

End AuthContext.

(** How a middleware leaves the request: [c.Next()] with the context as
    it is then, [c.JSON(code, gin.H{"error": ...})] followed by
    [c.Abort()], or a panic. *)
Inductive Outcome : Type :=
| Next (c : AuthContext.t)
| Abort (code : Z) (error : string)
| Panic.

Module AuthMiddleware.

Definition authorizationHeader : string := "Authorization".
Definition bearerPrefix : string := "Bearer ".
Definition apiKeyHeader : string := "X-API-Key".

(** [strings.TrimPrefix]. *)
Definition TrimPrefix (s prefix : string) : string :=
  if GoStrings.HasPrefix s prefix
  then GoStrings.drop (String.length prefix) s else s.

Section WithParser.

(** [jwt.Parse] with the key function of the middleware, which accepts
    the HMAC signing methods and hands out the secret: the token, or an
    error. *)
Variable Parse : string -> string -> Result JWT.Token.

(** The three [c.Set] of the claims. *)
Definition set_claims (c : AuthContext.t) (claims : list (string * JSON))
    : AuthContext.t :=
  let c := AuthContext.Set_ c "user_id" (JWT.claim claims "sub") in
  let c := AuthContext.Set_ c "tenant_id" (JWT.claim claims "tenant_id") in
  AuthContext.Set_ c "roles" (JWT.claim claims "roles").

(** Each middleware returns the outcome and the warnings it logs. *)
Definition JWTAuth (am : AuthConfig.t) (c : AuthContext.t)
    : Outcome * list string :=
  let authHeader := AuthContext.GetHeader c authorizationHeader in
  if negb (GoStrings.HasPrefix authHeader bearerPrefix)
  then (Abort 401 "Authorization header missing or malformed",
        ["Missing or malformed Authorization header"])
  else
    let tokenString := TrimPrefix authHeader bearerPrefix in
    match Parse tokenString (AuthConfig.JWTSecret am) with
    | Fail _ => (Abort 401 "Invalid token", ["Failed to parse JWT token"])
    | Ok token =>
        if negb (JWT.Valid token)
        then (Abort 401 "Invalid token", ["Invalid JWT token"])
        else
          match JWT.Claims token with
          | Some claims => (Next (set_claims c claims), [])
          | None => (Next c, [])
          end
    end.

(** The key of the request: the header, or the query parameter when the
    header is empty. *)
Definition apiKey (c : AuthContext.t) : string :=
  let apiKey := AuthContext.GetHeader c apiKeyHeader in
  if String.eqb apiKey "" then AuthContext.Query c "api_key" else apiKey.

Definition APIKeyAuth (am : AuthConfig.t) (c : AuthContext.t)
    : Outcome * list string :=
  let apiKey := apiKey c in
  if String.eqb apiKey ""
  then (Abort 401 "API key is required", ["Missing API key"])
  else if negb (GoStrings.mem apiKey (AuthConfig.APIKeys am))
  then (Abort 401 "Invalid API key", ["Invalid API key"])
  else (Next (AuthContext.Set_ c "auth_type" (JString "api_key")), []).

(** The second half of [OptionalAuth]. *)
Definition try_api_key (am : AuthConfig.t) (c : AuthContext.t)
    : Outcome * list string :=
  let apiKey := apiKey c in
  if negb (String.eqb apiKey "") &&
     GoStrings.mem apiKey (AuthConfig.APIKeys am)
  then (Next (AuthContext.Set_ c "auth_type" (JString "api_key")), [])
  else (Abort 401 "Valid authentication is required (JWT token or API key)",
        ["No valid authentication provided"]).

Definition OptionalAuth (am : AuthConfig.t) (c : AuthContext.t)
    : Outcome * list string :=
  let authHeader := AuthContext.GetHeader c authorizationHeader in
  if GoStrings.HasPrefix authHeader bearerPrefix
  then
    let tokenString := TrimPrefix authHeader bearerPrefix in
    match Parse tokenString (AuthConfig.JWTSecret am) with
    | Ok token =>
        if JWT.Valid token
        then
          match JWT.Claims token with
          | Some claims =>
              (Next (AuthContext.Set_ (set_claims c claims) "auth_type"
                       (JString "jwt")), [])
          | None => (Next c, [])
          end
        else try_api_key am c
    | Fail _ => try_api_key am c
    end
  else try_api_key am c.

End WithParser.

Definition RequireTenant (requiredTenant : string) (c : AuthContext.t)
    : Outcome * list string :=
  match AuthContext.Get c "tenant_id" with
  | None => (Abort 403 "Tenant information not available", [])
  | Some (JString tenantID) =>
      if negb (String.eqb tenantID requiredTenant)
      then (Abort 403 "Access denied for this tenant",
            ["Tenant access denied"])
      else (Next c, [])
  | Some _ => (Panic, [])
  end.

(** The loop of [RequireRole] over the roles. *)
Definition is_role (requiredRole : string) (role : JSON) : bool :=
  match role with
  | JString roleStr => String.eqb roleStr requiredRole
  | _ => false
  end.

Definition RequireRole (requiredRole : string) (c : AuthContext.t)
    : Outcome * list string :=
  match AuthContext.Get c "roles" with
  | None => (Abort 403 "Role information not available", [])
  | Some (JArray userRoles) =>
      if negb (existsb (is_role requiredRole) userRoles)
      then (Abort 403 "Insufficient privileges", ["Role access denied"])
      else (Next c, [])
  | Some _ => (Abort 403 "Invalid role information", [])
  end.

End AuthMiddleware.

(* ================================================================== *)
(** ** Notions used in the further properties                          *)
(* ================================================================== *)

(** A filter field that is given must be equal to the row's column. *)
Definition field_ok (wanted actual : string) : bool :=
  String.eqb wanted "" || String.eqb actual wanted.

(** The rows a filter asks for: every field that is given holds of the
    row, and the timestamp lies within the bounds that are given, bounds
    included. *)
Definition matches (f : AuditLogFilter.t) (r : AuditLog.t) : bool :=
  field_ok (AuditLogFilter.TenantID f) (AuditLog.TenantID r) &&
  field_ok (AuditLogFilter.UserID f) (AuditLog.UserID r) &&
  field_ok (AuditLogFilter.Resource f) (AuditLog.Resource r) &&
  field_ok (AuditLogFilter.Event f) (AuditLog.Event r) &&
  field_ok (AuditLogFilter.Method f) (AuditLog.Method r) &&
  field_ok (AuditLogFilter.Status f) (AuditLog.Status r) &&
  field_ok (AuditLogFilter.Environment f) (AuditLog.Environment r) &&
  (GoTime.IsZero (AuditLogFilter.StartDate f) ||
   Z.leb (AuditLogFilter.StartDate f) (AuditLog.Timestamp r)) &&
  (GoTime.IsZero (AuditLogFilter.EndDate f) ||
   Z.leb (AuditLog.Timestamp r) (AuditLogFilter.EndDate f)).

(** Timestamps never increase along the list. *)
Fixpoint descending (l : list AuditLog.t) : Prop :=
  match l with
  | [] => True
  | x :: rest =>
      (forall y, In y rest ->
                 (AuditLog.Timestamp y <= AuditLog.Timestamp x)%Z) /\
      descending rest
  end.

(** The same filter with another page. *)
Definition page_of (f : AuditLogFilter.t) (limit offset : Z)
    : AuditLogFilter.t :=
  AuditLogFilter.with_Offset (AuditLogFilter.with_Limit f limit) offset.

(** What [buildWhereClause] keeps true while it adds conditions: the
    next index is one past the parameters, and the k-th condition reads
    the k-th parameter. *)
Definition clause_ok (st : AuditRepository.Clause) : Prop :=
  let '(conditions, args, argIndex) := st in
  argIndex = S (List.length args) /\
  List.length conditions = List.length args /\
  map cond_arg conditions = seq 1 (List.length conditions).

(** The conditions built so far select a row exactly when [P] holds. *)
Definition selects (st : AuditRepository.Clause) (r : AuditLog.t) (P : bool)
    : Prop :=
  clause_ok st /\
  let '(conditions, args, _) := st in SQL.selected conditions args r = P.

(** The rows of the table a filter selects, newest first. *)
Definition selection (f : AuditLogFilter.t) (table : list AuditLog.t)
    : list AuditLog.t :=
  SQL.order_desc (List.filter (matches f) table).

(** The number of rows of a table a filter selects. *)
Definition count_matching (f : AuditLogFilter.t) (table : list AuditLog.t) : Z :=
  Z.of_nat (List.length (List.filter (matches f) table)).

(** The two filters of [GetAuditLogStats]. *)
Definition stats_filter (tenantID : string) (startDate endDate : Time)
    : AuditLogFilter.t :=
  AuditLogFilter.mk tenantID "" "" "" "" "" "" startDate endDate 1 0.
Definition stats_error_filter (s : AuditService.t) (tenantID : string)
    (startDate endDate : Time) : AuditLogFilter.t :=
  AuditLogFilter.mk tenantID "" "" "" ""
    (AuditConfig.ErrorStatus (Config.Audit (AuditService.config s))) ""
    startDate endDate 1 0.

(** The error a channel ends with, which depends on the senders'
    answers only: a missing sender, or the first failing recipient. *)
Definition channel_error (ns : NotificationService.t) (a : AuditLog.t)
    (ch : Channel) : option error :=
  let cfg := NotificationService.config ns in
  match ch with
  | Email =>
      match NotificationService.emailSender ns with
      | None => Some (New "email sender not configured")
      | Some send =>
          let subject := "Audit Alert: " ++ AuditLog.Event a ++ " - " ++
                         AuditLog.Resource a in
          match first_failure (fun r => send r subject (EmailBody a))
                  (EmailConfig.To (NotificationConfig.Email cfg)) with
          | Some (r, err) => Some (Wrap ("failed to send email to " ++ r) err)
          | None => None
          end
      end
  | Slack =>
      match NotificationService.slackSender ns with
      | None => Some (New "slack sender not configured")
      | Some send =>
          let channel := SlackConfig.Channel (NotificationConfig.Slack cfg) in
          let channel :=
            if String.eqb channel "" then "#audit-alerts" else channel in
          match send channel (SlackBody a) with
          | Some err => Some (Wrap "failed to send slack message" err)
          | None => None
          end
      end
  | Webhook =>
      match NotificationService.webhookSender ns with
      | None => Some (New "webhook sender not configured")
      | Some send =>
          let payload := NotificationService.formatWebhookPayload a in
          match first_failure (fun u => send u payload)
                  (WebhookConfig.URLs (NotificationConfig.Webhook cfg)) with
          | Some (u, err) => Some (Wrap ("failed to send webhook to " ++ u) err)
          | None => None
          end
      end
  end.

(** The texts of the errors of the channels of [chs] that fail, in the
    order of [chs]. *)
Definition failures (ns : NotificationService.t) (a : AuditLog.t)
    (chs : list Channel) : list string :=
  flat_map (fun ch =>
              match channel_error ns a ch with
              | Some e =>
                  [Err.Error_ (Wrap (NotificationService.channel_failed ch) e)]
              | None => []
              end) chs.

(** A parameter that is given and does not parse. *)
Definition unparsed {A} (parse : string -> option A) (s : string) : bool :=
  negb (String.eqb s "") &&
  match parse s with
  | Some _ => false
  | None => true
  end.

(** One of the four parsed parameters of the list request is given and
    does not parse. *)
Definition malformed {T} (parseTime : string -> option Time)
    (c : Gin.Context T) : bool :=
  unparsed parseTime (Gin.Query c "start_date") ||
  unparsed parseTime (Gin.Query c "end_date") ||
  unparsed GoStrconv.Atoi (Gin.Query c "limit") ||
  unparsed GoStrconv.Atoi (Gin.Query c "offset").

(** The fields of the list request that are compared with a row's
    columns. *)
Definition asked_fields {T} (c : Gin.Context T) : AuditLogFilter.t :=
  AuditLogFilter.mk (Gin.Query c "tenant_id") (Gin.Query c "user_id")
    (Gin.Query c "resource") (Gin.Query c "event") (Gin.Query c "method")
    (Gin.Query c "status") (Gin.Query c "environment") 0%Z 0%Z 0 0.

(** A middleware lets the request through. *)
Definition accepts (o : Outcome * list string) : bool :=
  match fst o with
  | Next _ => true
  | _ => false
  end.

(** A table of three records of two tenants, inserted out of order. *)
Module Sample2.

Definition row (id tenant status : string) (ts : Z) : AuditLog.t :=
  AuditLog.mk id tenant "u1" "users" "USER_CREATED" "POST" "192.168.1.100"
    status None "production" None ts ts ts.

Definition r1 : AuditLog.t := row "id-1" "t1" "pending" 100.
Definition r2 : AuditLog.t := row "id-2" "t2" "failed" 300.
Definition r3 : AuditLog.t := row "id-3" "t1" "failed" 200.

Definition world : World :=
  mkWorld (mkDB [r1; r2; r3] [] [])
    (mkEnv (fun n => (1000 + Z.of_nat n)%Z) 0 (fun n => N.of_nat n) 0)
    [] [] [].

(** Everything, or one tenant, with the given page. *)
Definition everything (limit offset : Z) : AuditLogFilter.t :=
  AuditLogFilter.mk "" "" "" "" "" "" "" 0%Z 0%Z limit offset.
Definition tenant_status (tenant status : string) : AuditLogFilter.t :=
  AuditLogFilter.mk tenant "" "" "" "" status "" 0%Z 0%Z 10 0.


(** The responses of [List] on this table for some pages. *)
Definition first_two : PaginatedResponse.t :=
  PaginatedResponse.mk [r2; r3] 3 2 0 true.
Definition last_one : PaginatedResponse.t :=
  PaginatedResponse.mk [r1] 3 1 2 false.
Definition all_three : PaginatedResponse.t :=
  PaginatedResponse.mk [r2; r3; r1] 3 10 0 false.
Definition of_t1_default : PaginatedResponse.t :=
  PaginatedResponse.mk [r3; r1] 2 50 0 false.


(** The same table behind a connection that fails the next statement. *)
Definition world_down : World :=
  mkWorld (mkDB [r1; r2; r3] [] [Some "connection lost"])
    (mkEnv (fun n => (1000 + Z.of_nat n)%Z) 0 (fun n => N.of_nat n) 0)
    [] [] [].

(** A notification service built without a Slack sender. *)
Definition notifier_no_slack : NotificationService.t :=
  NotificationService.mk Sample.notification (Some Sample.email_down) None
    (Some Sample.webhook_down).

(** Two instants and their RFC 3339 texts. *)
Definition parseTime (s : string) : option Time :=
  if String.eqb s "2024-01-01T00:00:00Z" then Some 100%Z
  else if String.eqb s "2024-03-01T00:00:00Z" then Some 300%Z
  else None.

(** Parameters as a list of pairs; an absent one reads as empty. *)
Definition lookup (l : list (string * string)) (k : string) : string :=
  match List.find (fun p => String.eqb (fst p) k) l with
  | Some p => snd p
  | None => ""
  end.

Definition context {T} (params query : list (string * string))
    (bound : Result T) (clientIP : string) : Gin.Context T :=
  Gin.mkContext (lookup params) (lookup query) bound clientIP.

(** A request for the page of a tenant. *)
Definition get (query : list (string * string)) : Gin.Context unit :=
  context [] query (Ok tt) "10.0.0.1".

(** A request that acts on the record of an id. *)
Definition on_id (id : string) : Gin.Context unit :=
  context [("id", id)] [] (Ok tt) "10.0.0.1".

(** A request that sets the status of the record of an id. *)
Definition put_status (id status : string)
    : Gin.Context UpdateAuditLogStatusRequest.t :=
  context [("id", id)] []
    (Ok (UpdateAuditLogStatusRequest.mk status None None)) "10.0.0.1".

(** A request that posts a body. *)
Definition post (req : CreateAuditLogRequest.t)
    : Gin.Context CreateAuditLogRequest.t :=
  context [] [] (Ok req) "10.0.0.1".

(** One API key, and a parser that knows one token, whose claims name
    the user and the roles but no tenant. *)
Definition auth : AuthConfig.t := AuthConfig.mk "secret" 3600 ["key-1"].

Definition parseToken (tokenString secret : string) : Result JWT.Token :=
  if String.eqb tokenString "good" && String.eqb secret "secret"
  then Ok (JWT.mkToken true
             (Some [("sub", JString "u1");
                    ("roles", JArray [JString "admin"])]))
  else Fail (New "token is malformed").

Definition headers (l : list (string * string)) : AuthContext.t :=
  AuthContext.mk (lookup l) (lookup []) [].

End Sample2.

(** Closes the cases of [List]: which of its two statements fail. *)
Ltac list_case :=
  repeat match goal with
         | |- _ /\ _ => split
         | |- forall _, _ => intro
         end;
  try discriminate; try reflexivity;
  try (left; reflexivity);
  try (right; now rewrite <- app_assoc);
  try match goal with
      | H : Ok _ = Ok _ |- _ =>
          injection H as <-; cbn; try reflexivity; now rewrite <- app_assoc
      end;
  try (eexists; split; reflexivity);
  try match goal with
      | N : (Z.ltb _ 0 || Z.ltb _ 0)%bool = true |- _ =>
          apply orb_true_iff in N; destruct N as [N|N];
          apply Z.ltb_lt in N; lia
      end.

(* ================================================================== *)
(** * Properties                                                       *)
(* ================================================================== *)

(** *** The address parser on some inputs *)

Module GoNetExamples.
Import GoNet.
Example ip_v4 : ParseIP "192.168.1.100" = true. Proof. reflexivity. Qed.
Example ip_v4_256 : ParseIP "192.168.1.256" = false. Proof. reflexivity. Qed.
Example ip_v4_short : ParseIP "192.168.1" = false. Proof. reflexivity. Qed.
Example ip_v4_lead0 : ParseIP "192.168.01.1" = false. Proof. reflexivity. Qed.
Example ip_word : ParseIP "not-an-ip" = false. Proof. reflexivity. Qed.
Example ip_empty : ParseIP "" = false. Proof. reflexivity. Qed.
Example ip_v6_loop : ParseIP "::1" = true. Proof. reflexivity. Qed.
Example ip_v6_any : ParseIP "::" = true. Proof. reflexivity. Qed.
Example ip_v6_full :
  ParseIP "2001:db8:0:0:0:0:0:1" = true. Proof. reflexivity. Qed.
Example ip_v6_nine :
  ParseIP "1:2:3:4:5:6:7:8:9" = false. Proof. reflexivity. Qed.
Example ip_v6_mapped : ParseIP "::ffff:10.0.0.1" = true. Proof. reflexivity. Qed.
Example ip_v6_two_ell : ParseIP "1::2::3" = false. Proof. reflexivity. Qed.
Example ip_v6_zone : ParseIP "fe80::1%eth0" = false. Proof. reflexivity. Qed.
Example ip_v6_short : ParseIP "1:2:3" = false. Proof. reflexivity. Qed.
End GoNetExamples.

(** *** Strings *)

Lemma HasPrefix_iff s p :
  GoStrings.HasPrefix s p = true <-> exists post, s = p ++ post.
Proof.
  revert s; induction p as [|b p IH]; intros s; simpl.
  - split; [intros _; now exists s | reflexivity].
  - destruct s as [|a s]; simpl.
    + split; [discriminate | intros [post H]; discriminate].
    + rewrite andb_true_iff, Ascii.eqb_eq, IH. split.
      * intros [-> [post ->]]. now exists post.
      * intros [post H]. injection H as -> ->. split; [reflexivity | now exists post].
Qed.

Lemma Contains_iff s sub :
  GoStrings.Contains s sub = true <-> exists pre post, s = pre ++ sub ++ post.
Proof.
  induction s as [|a s IH].
  - cbn [GoStrings.Contains]. rewrite orb_false_r, HasPrefix_iff. split.
    + intros [post H]. now exists "", post.
    + intros [pre [post H]]. destruct pre; [now exists post | discriminate].
  - cbn [GoStrings.Contains]. rewrite orb_true_iff, HasPrefix_iff, IH. split.
    + intros [[post H] | [pre [post H]]].
      * now exists "", post.
      * exists (String a pre), post. simpl. now rewrite H.
    + intros [pre [post H]]. destruct pre as [|c pre]; simpl in H.
      * left. now exists post.
      * right. injection H as _ H. now exists pre, post.
Qed.



Lemma mem_In x l : GoStrings.mem x l = true <-> In x l.
Proof.
  unfold GoStrings.mem. rewrite existsb_exists. split.
  - intros [y [Hy He]]. apply String.eqb_eq in He. now subst.
  - intros H. exists x. split; [assumption | apply String.eqb_refl].
Qed.

(** *** Validation *)

Lemma validate_field_nil name tags v :
  Validate.validate_field name tags v = [] <->
  forallb (fun t => Validate.check t v) tags = true.
Proof.
  induction tags as [|t tags IH]; simpl.
  - tauto.
  - destruct (Validate.check t v); simpl; [assumption | split; discriminate].
Qed.

Lemma Struct_nil req :
  Validate.Struct req = [] ->
  GoStrings.mem (CreateAuditLogRequest.Method req) Validate.methods = true /\
  GoNet.ParseIP (CreateAuditLogRequest.IP req) = true /\
  GoStrings.mem (CreateAuditLogRequest.Environment req) Validate.environments = true /\
  CreateAuditLogRequest.TenantID req <> "" /\
  CreateAuditLogRequest.UserID req <> "" /\
  CreateAuditLogRequest.Resource req <> "" /\
  CreateAuditLogRequest.Event req <> "".
Proof.
  unfold Validate.Struct. intros H.
  repeat (apply app_eq_nil in H; destruct H as [?H H]).
  repeat match goal with
  | X : Validate.validate_field _ _ _ = [] |- _ =>
      apply validate_field_nil in X; simpl in X;
      rewrite ?andb_true_r, ?andb_true_iff, ?negb_true_iff in X
  end.
  repeat match goal with X : _ /\ _ |- _ => destruct X end.
  repeat match goal with X : String.eqb _ _ = false |- _ => apply String.eqb_neq in X end.
  auto 10.
Qed.

Lemma Struct_ip_fails req :
  GoNet.ParseIP (CreateAuditLogRequest.IP req) = false ->
  In (Validate.mkFieldError "IP" "required") (Validate.Struct req) \/
  In (Validate.mkFieldError "IP" "ip") (Validate.Struct req).
Proof.
  intros H. unfold Validate.Struct.
  assert (E : Validate.validate_field "IP" [Validate.required; Validate.ip]
                (CreateAuditLogRequest.IP req) =
              [Validate.mkFieldError "IP" "required"] \/
              Validate.validate_field "IP" [Validate.required; Validate.ip]
                (CreateAuditLogRequest.IP req) =
              [Validate.mkFieldError "IP" "ip"]).
  { simpl. rewrite H. destruct (String.eqb _ ""); simpl; auto. }
  destruct E as [E | E]; [left | right]; rewrite E;
    do 5 (apply in_or_app; right); apply in_or_app; left; simpl; auto.
Qed.

Lemma methods_upper m :
  In m Validate.methods -> GoStrings.ToUpper m = m.
Proof.
  unfold Validate.methods; simpl.
  intros [<- | [<- | [<- | [<- | [<- | []]]]]]; reflexivity.
Qed.

(** *** Creation *)



Lemma Create_ok a w :
  next_fault w = None ->
  exists w',
    AuditRepository.Create a w = (Ok (created w a), w') /\
    rows (db w') = (rows (db w) ++ [created w a])%list /\
    logs w' = logs w /\ started w' = started w /\ sent w' = sent w /\
    tick (env w') = 3 + tick (env w) /\ drawn (env w') = S (drawn (env w)).
Proof.
  intros F. unfold next_fault in F.
  unfold AuditRepository.Create, bind, try, ret, fail, Sys.newUUID, Sys.now,
    SQL.Exec, created.
  destruct w as [[rs ss fs] [ck tk us dr] lg st sn]; cbn in *.
  destruct fs as [|[msg|] fs]; [| discriminate |]; cbn;
    eexists; (split; [reflexivity | cbn; auto 10]).
Qed.

Lemma Create_fault a w msg :
  next_fault w = Some msg ->
  exists w',
    AuditRepository.Create a w =
      (Fail (Wrap "failed to create audit log" (New msg)), w') /\
    rows (db w') = rows (db w) /\
    logs w' = logs w /\ started w' = started w /\ sent w' = sent w.
Proof.
  intros F. unfold next_fault in F.
  unfold AuditRepository.Create, bind, try, ret, fail, Sys.newUUID, Sys.now,
    SQL.Exec.
  destruct w as [[rs ss fs] [ck tk us dr] lg st sn]; cbn in *.
  destruct fs as [|[m|] fs]; try discriminate. injection F as ->.
  cbn. eexists; (split; [reflexivity | cbn; auto 10]).
Qed.


Lemma CreateAuditLog_invalid s req w :
  Validate.Struct req <> [] ->
  AuditService.CreateAuditLog s req w =
    (Fail (Wrap "validation failed" (ValidationErrors (Validate.Struct req))),
     with_logs w (logs w ++
       [mkLog ErrorLevel "Validation failed for audit log creation"
          (Some (ValidationErrors (Validate.Struct req)))])%list).
Proof.
  intros H. unfold AuditService.CreateAuditLog.
  destruct (Validate.Struct req) as [|fe errs]; [congruence | reflexivity].
Qed.

Lemma CreateAuditLog_valid s req w :
  Validate.Struct req = [] ->
  AuditService.CreateAuditLog s req w =
    let status := AuditService.resolve_status s req in
    if status_rejected s status
    then (Fail (AuditService.invalid_status s status),
          with_logs w (logs w ++ [mkLog ErrorLevel "Invalid status value" None])%list)
    else
      match AuditRepository.Create (AuditService.new_AuditLog req status) w with
      | (Fail err, w1) =>
          (Fail (Wrap "failed to create audit log" err),
           with_logs w1 (logs w1 ++
             [mkLog ErrorLevel "Failed to create audit log" (Some err)])%list)
      | (Ok a, w1) =>
          let w2 := with_logs w1 (logs w1 ++
             [mkLog InfoLevel "Audit log created successfully" None])%list in
          (Ok a,
           match AuditService.notificationService s with
           | Some _ => with_started w2 (started w2 ++ [GoSendNotification a])%list
           | None => w2
           end)
      end.
Proof.
  intros H. pose proof (Struct_nil _ H) as (_ & Hip & _).
  unfold AuditService.CreateAuditLog, AuditService.validateIP, status_rejected.
  rewrite H, Hip. cbn [negb].
  cbv zeta.
  destruct (AuditConfig.Enabled _ && negb _); [reflexivity|].
  unfold bind, try.
  destruct (AuditRepository.Create _ w) as [[a|err] w1]; [|reflexivity].
  destruct (AuditService.notificationService s); reflexivity.
Qed.

(** *** Creation: what an accepted request looks like *)

Lemma CreateAuditLog_Ok_inv s req w r w' :
  AuditService.CreateAuditLog s req w = (Ok r, w') ->
  Validate.Struct req = [] /\
  status_rejected s (AuditService.resolve_status s req) = false /\
  next_fault w = None /\
  r = created w (AuditService.new_AuditLog req (AuditService.resolve_status s req)) /\
  rows (db w') = (rows (db w) ++ [r])%list.
Proof.
  intros H.
  destruct (Validate.Struct req) as [|fe errs] eqn:V.
  2:{ rewrite CreateAuditLog_invalid in H by (rewrite V; discriminate).
      discriminate. }
  rewrite (CreateAuditLog_valid _ _ _ V) in H. cbv zeta in H.
  destruct (status_rejected s _) eqn:R; [discriminate|].
  destruct (next_fault w) as [msg|] eqn:F.
  - destruct (Create_fault (AuditService.new_AuditLog req
                (AuditService.resolve_status s req)) w msg F) as (w1 & E & _).
    rewrite E in H. discriminate.
  - destruct (Create_ok (AuditService.new_AuditLog req
                (AuditService.resolve_status s req)) w F)
      as (w1 & E & Hr & _).
    rewrite E in H. injection H as <- <-.
    repeat split; try reflexivity.
    destruct (AuditService.notificationService s); exact Hr.
Qed.

Lemma CreateAuditLog_Ok_intro s req w :
  Validate.Struct req = [] ->
  status_rejected s (AuditService.resolve_status s req) = false ->
  next_fault w = None ->
  exists w',
    AuditService.CreateAuditLog s req w =
      (Ok (created w (AuditService.new_AuditLog req
                        (AuditService.resolve_status s req))), w').
Proof.
  intros V R F. rewrite (CreateAuditLog_valid _ _ _ V). cbv zeta. rewrite R.
  destruct (Create_ok (AuditService.new_AuditLog req
              (AuditService.resolve_status s req)) w F) as (w1 & E & _).
  rewrite E. eexists. reflexivity.
Qed.




Lemma spec_kind_invalid_status s status :
  spec_kind (AuditService.invalid_status s status) = InvalidInputError.
Proof. reflexivity. Qed.




(** C4 (as amended).  A request whose [ip] does not parse is refused by
    the struct validation, on the field [IP]: the error is a
    [ValidationError]; only a log entry is added to the world, so no
    statement reaches the database, no identifier is drawn and no
    goroutine is started. *)
Theorem C4_unparsable_ip_fails_validation_before_store :
  forall s req w,
    GoNet.ParseIP (CreateAuditLogRequest.IP req) = false ->
    let errs := Validate.Struct req in
    let e := Wrap "validation failed" (ValidationErrors errs) in
    AuditService.CreateAuditLog s req w =
      (Fail e,
       with_logs w (logs w ++
         [mkLog ErrorLevel "Validation failed for audit log creation"
            (Some (ValidationErrors errs))])%list) /\
    (In (Validate.mkFieldError "IP" "required") errs \/
     In (Validate.mkFieldError "IP" "ip") errs) /\
    spec_kind e = ValidationError /\
    db (snd (AuditService.CreateAuditLog s req w)) = db w /\
    env (snd (AuditService.CreateAuditLog s req w)) = env w /\
    started (snd (AuditService.CreateAuditLog s req w)) = started w.
Proof.
  intros s req w H errs e.
  pose proof (Struct_ip_fails req H) as Hin.
  assert (Hne : Validate.Struct req <> []).
  { intros E. rewrite E in Hin. destruct Hin as [[] | []]. }
  rewrite (CreateAuditLog_invalid s req w Hne).
  repeat split; try reflexivity. exact Hin.
Qed.

Lemma C4_witness_not_an_ip :
  fst (AuditService.CreateAuditLog Sample.service Sample.request_bad_ip
         Sample.world) =
    Fail (Wrap "validation failed"
            (ValidationErrors [Validate.mkFieldError "IP" "ip"])) /\
  stmts (db (snd (AuditService.CreateAuditLog Sample.service
                    Sample.request_bad_ip Sample.world))) = [].
Proof.
  pose proof (C4_unparsable_ip_fails_validation_before_store Sample.service
                Sample.request_bad_ip Sample.world eq_refl) as H.
  cbv zeta in H. destruct H as (E & _ & _ & D & _).
  rewrite D. rewrite E. split; reflexivity.
Defined.

(** C4, the claim as written: the request with [ip] ["not-an-ip"] does
    not fail with an [InvalidInputError]; the explicit IP check is never
    reached. *)
Lemma C4_not_an_ip_is_a_validation_error :
  ~ (exists e,
       fst (AuditService.CreateAuditLog Sample.service Sample.request_bad_ip
              Sample.world) = Fail e /\
       spec_kind e = InvalidInputError).
Proof.
  intros [e [H K]]. cbv in H. injection H as <-. discriminate K.
Qed.

Lemma UUID_String_length u : String.length (GoUUID.String_ u) = 36.
Proof. reflexivity. Qed.

(** C5 (as amended).  For a valid request whose insert the store accepts,
    with a clock that never reads the zero instant, [CreateAuditLog]
    returns a record, which is the row added to the table; its identifier
    is the 36 characters of a UUID, hence not empty; its three timestamps
    are set, and they are three successive readings of the clock: the
    event timestamp first, then [created_at], then [updated_at].  So
    [updated_at] equals [created_at] exactly when the clock gives the same
    reading twice. *)
Theorem C5_created_record_identifier_and_timestamps :
  forall s req w,
    Validate.Struct req = [] ->
    status_rejected s (AuditService.resolve_status s req) = false ->
    next_fault w = None ->
    (forall n, clock (env w) n <> 0%Z) ->
    exists r w',
      AuditService.CreateAuditLog s req w = (Ok r, w') /\
      rows (db w') = (rows (db w) ++ [r])%list /\
      AuditLog.ID r <> "" /\
      String.length (AuditLog.ID r) = 36 /\
      GoTime.IsZero (AuditLog.Timestamp r) = false /\
      GoTime.IsZero (AuditLog.CreatedAt r) = false /\
      GoTime.IsZero (AuditLog.UpdatedAt r) = false /\
      AuditLog.Timestamp r = clock (env w) (tick (env w)) /\
      AuditLog.CreatedAt r = clock (env w) (tick (env w) + 1) /\
      AuditLog.UpdatedAt r = clock (env w) (tick (env w) + 2) /\
      (AuditLog.UpdatedAt r = AuditLog.CreatedAt r <->
       clock (env w) (tick (env w) + 2) = clock (env w) (tick (env w) + 1)).
Proof.
  intros s req w V R F C.
  destruct (CreateAuditLog_Ok_intro s req w V R F) as (w' & E).
  eexists; exists w'. split; [exact E|].
  apply CreateAuditLog_Ok_inv in E. destruct E as (_ & _ & _ & _ & Hr).
  split; [exact Hr|].
  cbn [created AuditLog.ID AuditLog.Timestamp AuditLog.CreatedAt
       AuditLog.UpdatedAt].
  replace (tick (env w) + 1) with (S (tick (env w))) by lia.
  replace (tick (env w) + 2) with (S (S (tick (env w)))) by lia.
  assert (L := UUID_String_length (ids (env w) (drawn (env w)))).
  repeat split; try reflexivity; try assumption;
    try (unfold GoTime.IsZero; apply Z.eqb_neq; apply C); try tauto.
  intros E0. rewrite E0 in L. discriminate L.
Qed.

Lemma C5_witness_POST :
  exists r w',
    AuditService.CreateAuditLog Sample.service Sample.request_POST
      Sample.world = (Ok r, w') /\
    rows (db w') = [r] /\
    AuditLog.ID r <> "" /\
    String.length (AuditLog.ID r) = 36 /\
    GoTime.IsZero (AuditLog.Timestamp r) = false /\
    GoTime.IsZero (AuditLog.CreatedAt r) = false /\
    GoTime.IsZero (AuditLog.UpdatedAt r) = false /\
    AuditLog.Timestamp r = 1000%Z /\
    AuditLog.CreatedAt r = 1001%Z /\
    AuditLog.UpdatedAt r = 1002%Z /\
    (AuditLog.UpdatedAt r = AuditLog.CreatedAt r <-> 1002%Z = 1001%Z).
Proof.
  apply (C5_created_record_identifier_and_timestamps Sample.service
           Sample.request_POST Sample.world); try reflexivity.
  intros n. unfold Sample.world. cbn [env clock]. lia.
Defined.

(** C5, the claim as written: with a clock that advances between two
    readings, the record returned for the valid request of the scenario
    has an [updated_at] later than its [created_at]. *)
Lemma C5_updated_at_differs_from_created_at :
  exists r,
    fst (AuditService.CreateAuditLog Sample.service Sample.request_POST
           Sample.world) = Ok r /\
    AuditLog.CreatedAt r = 1001%Z /\
    AuditLog.UpdatedAt r = 1002%Z /\
    AuditLog.UpdatedAt r <> AuditLog.CreatedAt r.
Proof.
  exists Sample.record_POST. repeat split; try reflexivity. discriminate.
Qed.

(** *** Notification: the loops and the channels *)

Lemma with_sent_app w a b :
  with_sent (with_sent w (sent w ++ a)%list)
    (sent (with_sent w (sent w ++ a)%list) ++ b)%list =
  with_sent w (sent w ++ a ++ b)%list.
Proof. destruct w; unfold with_sent; cbn. now rewrite app_assoc. Qed.

Lemma with_sent_nil w : with_sent w (sent w ++ [])%list = w.
Proof. destruct w; unfold with_sent; cbn. now rewrite app_nil_r. Qed.

Lemma email_loop_eq send subject message l w :
  NotificationService.email_loop send subject message l w =
    (match first_failure (fun r => send r subject message) l with
     | Some (r, err) => Fail (Wrap ("failed to send email to " ++ r) err)
     | None => Ok tt
     end,
     with_sent w (sent w ++
       map (fun r => EmailTo r subject message)
         (attempted (fun r => send r subject message) l))%list).
Proof.
  revert w; induction l as [|x l IH]; intros w.
  - cbn. now rewrite with_sent_nil.
  - cbn [NotificationService.email_loop first_failure attempted map].
    unfold bind, Sys.deliver.
    destruct (send x subject message) as [err|].
    + reflexivity.
    + rewrite IH.
      rewrite (with_sent_app w [EmailTo x subject message]). reflexivity.
Qed.

Lemma webhook_loop_eq send payload l w :
  NotificationService.webhook_loop send payload l w =
    (match first_failure (fun u => send u payload) l with
     | Some (u, err) => Fail (Wrap ("failed to send webhook to " ++ u) err)
     | None => Ok tt
     end,
     with_sent w (sent w ++
       map (fun u => WebhookTo u payload)
         (attempted (fun u => send u payload) l))%list).
Proof.
  revert w; induction l as [|x l IH]; intros w.
  - cbn. now rewrite with_sent_nil.
  - cbn [NotificationService.webhook_loop first_failure attempted map].
    unfold bind, Sys.deliver.
    destruct (send x payload) as [err|].
    + reflexivity.
    + rewrite IH.
      rewrite (with_sent_app w [WebhookTo x payload]). reflexivity.
Qed.


Lemma notifies_refl chs w : notifies chs w w.
Proof.
  repeat split. exists []. split; [now rewrite app_nil_r | constructor].
Qed.

Lemma notifies_trans chs w1 w2 w3 :
  notifies chs w1 w2 -> notifies chs w2 w3 -> notifies chs w1 w3.
Proof.
  intros (D1 & E1 & S1 & ds1 & T1 & F1) (D2 & E2 & S2 & ds2 & T2 & F2).
  repeat split; try congruence.
  exists (ds1 ++ ds2)%list. split.
  - rewrite T2, T1. now rewrite app_assoc.
  - apply Forall_app. now split.
Qed.

Lemma notifies_weaken chs chs' w w' :
  incl chs chs' -> notifies chs w w' -> notifies chs' w w'.
Proof.
  intros I (D & E & S & ds & T & F). repeat split; try assumption.
  exists ds. split; [assumption|].
  eapply Forall_impl; [|exact F]. intros d Hd. now apply I.
Qed.

Lemma notifies_logs chs w l : notifies chs w (with_logs w l).
Proof.
  repeat split. exists []. split; [cbn; now rewrite app_nil_r | constructor].
Qed.

Lemma notifies_sent ch w ds :
  Forall (fun d => channel_of d = ch) ds ->
  notifies [ch] w (with_sent w (sent w ++ ds)%list).
Proof.
  intros F. repeat split. exists ds. split; [reflexivity|].
  eapply Forall_impl; [|exact F]. intros d ->. now left.
Qed.

Lemma channel_body_notifies ns a ch w :
  notifies [ch] w (snd (NotificationService.channel_body ns a ch w)).
Proof.
  destruct ch; cbn [NotificationService.channel_body].
  - unfold NotificationService.sendEmailNotification.
    destruct (NotificationService.emailSender ns) as [send|];
      [|apply notifies_refl].
    unfold bind. rewrite email_loop_eq.
    destruct (first_failure _ _) as [[r err]|]; cbn [snd].
    + apply notifies_sent. apply Forall_map, Forall_forall. reflexivity.
    + eapply notifies_trans; [|apply notifies_logs].
      apply notifies_sent. apply Forall_map, Forall_forall. reflexivity.
  - unfold NotificationService.sendSlackNotification.
    destruct (NotificationService.slackSender ns) as [send|];
      [|apply notifies_refl].
    cbv zeta. unfold bind, Sys.deliver.
    destruct (send _ _); cbn [snd].
    + apply notifies_sent. repeat constructor.
    + eapply notifies_trans; [|apply notifies_logs].
      apply notifies_sent. repeat constructor.
  - unfold NotificationService.sendWebhookNotification.
    destruct (NotificationService.webhookSender ns) as [send|];
      [|apply notifies_refl].
    unfold bind. rewrite webhook_loop_eq.
    destruct (first_failure _ _) as [[r err]|]; cbn [snd].
    + apply notifies_sent. apply Forall_map, Forall_forall. reflexivity.
    + eapply notifies_trans; [|apply notifies_logs].
      apply notifies_sent. apply Forall_map, Forall_forall. reflexivity.
Qed.

Lemma collect_notifies ns a chs w :
  notifies chs w (snd (NotificationService.collect ns a chs w)).
Proof.
  revert w; induction chs as [|ch chs IH]; intros w.
  - apply notifies_refl.
  - cbn [NotificationService.collect]. unfold bind, try.
    pose proof (channel_body_notifies ns a ch w) as B.
    destruct (NotificationService.channel_body ns a ch w) as [[[]|e] w1];
      cbn [snd] in B.
    + eapply notifies_trans.
      * eapply notifies_weaken; [|exact B]. intros x [<-|[]]. now left.
      * eapply notifies_weaken; [|apply IH]. intros x Hx. now right.
    + unfold Sys.logError.
      pose proof (IH (with_logs w1
        (logs w1 ++ [mkLog ErrorLevel "Notification failed"
           (Some (Wrap (NotificationService.channel_failed ch) e))])%list)) as C.
      destruct (NotificationService.collect ns a chs _) as [[l|e'] w2];
        cbn [snd] in *.
      * eapply notifies_trans.
        { eapply notifies_weaken; [|exact B]. intros x [<-|[]]. now left. }
        eapply notifies_trans; [apply notifies_logs|].
        eapply notifies_weaken; [|exact C]. intros x Hx. now right.
      * eapply notifies_trans.
        { eapply notifies_weaken; [|exact B]. intros x [<-|[]]. now left. }
        eapply notifies_trans; [apply notifies_logs|].
        eapply notifies_weaken; [|exact C]. intros x Hx. now right.
Qed.


Lemma shouldSend_fires ns a :
  NotificationService.shouldSendNotification ns a =
    NotificationService.fires ns a Email ||
    NotificationService.fires ns a Slack ||
    NotificationService.fires ns a Webhook.
Proof. reflexivity. Qed.

Lemma SendNotification_world ns sched a w :
  let w' := snd (NotificationService.SendNotification ns sched a w) in
  db w' = db w /\ env w' = env w /\
  started w' = (started w ++ launched ns a)%list /\
  exists ds, sent w' = (sent w ++ ds)%list /\
    Forall (fun d => NotificationService.fires ns a (channel_of d) = true) ds.
Proof.
  unfold NotificationService.SendNotification, launched.
  destruct (NotificationService.shouldSendNotification ns a) eqn:S;
    cbn [negb].
  2:{ rewrite shouldSend_fires in S.
      apply orb_false_iff in S. destruct S as [S W].
      apply orb_false_iff in S. destruct S as [E S].
      cbn [filter map]. rewrite E, S, W. cbn.
      rewrite !app_nil_r. repeat split. exists [].
      split; [now rewrite app_nil_r | constructor]. }
  unfold bind, NotificationService.start_if, Sys.go, ret.
  set (chs := filter (NotificationService.fires ns a)
                (NotificationService.order sched)).
  cbn [filter].
  destruct (NotificationService.fires ns a Email) eqn:FE,
           (NotificationService.fires ns a Slack) eqn:FS,
           (NotificationService.fires ns a Webhook) eqn:FW;
  cbn [filter map];
  match goal with
  | |- context [NotificationService.collect ns a chs ?w0] =>
      pose proof (collect_notifies ns a chs w0) as C;
      destruct (NotificationService.collect ns a chs w0) as [[[|m l]|e] w2];
      cbn [snd] in C |- *;
      destruct C as (D & E & St & ds & Sn & F);
      cbn [db env sent started with_started] in D, E, St, Sn;
      unfold fail; cbn [snd];
      (repeat split; try assumption;
       first
       [ rewrite St; rewrite <- ?app_assoc; cbn [app]; rewrite ?app_nil_r;
         reflexivity
       | exists ds; split; [exact Sn|];
         eapply Forall_impl; [|exact F];
         intros d Hd; unfold chs in Hd; apply filter_In in Hd; apply Hd ])
  end.
Qed.

Lemma attempted_stops {E} (outcome : string -> option E) pre r err post :
  (forall x, In x pre -> outcome x = None) ->
  outcome r = Some err ->
  attempted outcome (pre ++ r :: post) = (pre ++ [r])%list /\
  first_failure outcome (pre ++ r :: post) = Some (r, err).
Proof.
  intros P R. induction pre as [|x pre IH]; cbn.
  - now rewrite R.
  - rewrite (P x (or_introl eq_refl)).
    destruct IH as [-> ->]; [|now split].
    intros y Hy. apply P. now right.
Qed.

Lemma attempted_all {E} (outcome : string -> option E) l :
  (forall x, In x l -> outcome x = None) ->
  attempted outcome l = l /\ first_failure outcome l = None.
Proof.
  intros P. induction l as [|x l IH]; cbn; [now split|].
  rewrite (P x (or_introl eq_refl)).
  destruct IH as [-> ->]; [|now split].
  intros y Hy. apply P. now right.
Qed.

(** C7 (as amended).  A channel with several recipients tries them in the
    configured order and stops at the first failure: [Send] is called for
    the recipients up to and including the first failing one and for no
    later one, and the channel returns one error, which names that
    recipient; with no failure every recipient is served and the channel
    succeeds.  This holds of the email channel over its [To] addresses
    and of the webhook channel over its URLs. *)
Theorem C7_channel_stops_at_first_failing_recipient :
  forall ns a w esend wsend,
    NotificationService.emailSender ns = Some esend ->
    NotificationService.webhookSender ns = Some wsend ->
    let cfg := NotificationService.config ns in
    let subject := "Audit Alert: " ++ AuditLog.Event a ++ " - " ++
                   AuditLog.Resource a in
    let payload := NotificationService.formatWebhookPayload a in
    let mail := fun r => esend r subject (EmailBody a) in
    let hook := fun u => wsend u payload in
    let recipients := EmailConfig.To (NotificationConfig.Email cfg) in
    let urls := WebhookConfig.URLs (NotificationConfig.Webhook cfg) in
    let e := NotificationService.sendEmailNotification ns a w in
    let h := NotificationService.sendWebhookNotification ns a w in
    sent (snd e) =
      (sent w ++ map (fun r => EmailTo r subject (EmailBody a))
                   (attempted mail recipients))%list /\
    fst e = match first_failure mail recipients with
            | Some (r, err) => Fail (Wrap ("failed to send email to " ++ r) err)
            | None => Ok tt
            end /\
    sent (snd h) =
      (sent w ++ map (fun u => WebhookTo u payload)
                   (attempted hook urls))%list /\
    fst h = match first_failure hook urls with
            | Some (u, err) => Fail (Wrap ("failed to send webhook to " ++ u) err)
            | None => Ok tt
            end /\
    (forall pre r err post,
       recipients = (pre ++ r :: post)%list ->
       (forall x, In x pre -> mail x = None) -> mail r = Some err ->
       attempted mail recipients = (pre ++ [r])%list /\
       first_failure mail recipients = Some (r, err)) /\
    (forall pre u err post,
       urls = (pre ++ u :: post)%list ->
       (forall x, In x pre -> hook x = None) -> hook u = Some err ->
       attempted hook urls = (pre ++ [u])%list /\
       first_failure hook urls = Some (u, err)).
Proof.
  intros ns a w esend wsend He Hw cfg subject payload mail hook recipients
    urls e h.
  unfold e, h, NotificationService.sendEmailNotification,
    NotificationService.sendWebhookNotification.
  rewrite He, Hw. unfold bind.
  rewrite email_loop_eq, webhook_loop_eq.
  fold cfg. fold subject. fold payload. fold recipients. fold urls.
  change (fun r : string => esend r subject (EmailBody a)) with mail.
  change (fun u : string => wsend u payload) with hook.
  repeat split.
  - destruct (first_failure mail recipients) as [[r err]|]; reflexivity.
  - destruct (first_failure mail recipients) as [[r err]|]; reflexivity.
  - destruct (first_failure hook urls) as [[r err]|]; reflexivity.
  - destruct (first_failure hook urls) as [[r err]|]; reflexivity.
  - rewrite H. now apply (attempted_stops mail pre r err post).
  - rewrite H. now apply (attempted_stops mail pre r err post).
  - rewrite H. now apply (attempted_stops hook pre u err post).
  - rewrite H. now apply (attempted_stops hook pre u err post).
Qed.

Lemma C7_witness_two_recipients :
  sent (snd (NotificationService.sendEmailNotification Sample.notifier
               Sample.record_POST Sample.world)) =
    [EmailTo "a@example.org" "Audit Alert: USER_CREATED - users"
       (EmailBody Sample.record_POST)] /\
  fst (NotificationService.sendEmailNotification Sample.notifier
         Sample.record_POST Sample.world) =
    Fail (Wrap "failed to send email to a@example.org"
            (New "connection refused")) /\
  sent (snd (NotificationService.sendWebhookNotification Sample.notifier
               Sample.record_POST Sample.world)) =
    [WebhookTo "https://one.example.org/hook"
       (NotificationService.formatWebhookPayload Sample.record_POST)] /\
  fst (NotificationService.sendWebhookNotification Sample.notifier
         Sample.record_POST Sample.world) =
    Fail (Wrap "failed to send webhook to https://one.example.org/hook"
            (New "webhook returned status 500")) /\
  first_failure
    (fun r => Sample.email_down r "Audit Alert: USER_CREATED - users"
                (EmailBody Sample.record_POST))
    ["a@example.org"; "b@example.org"] =
    Some ("a@example.org", New "connection refused") /\
  first_failure
    (fun u => Sample.webhook_down u
                (NotificationService.formatWebhookPayload Sample.record_POST))
    ["https://one.example.org/hook"; "https://two.example.org/hook"] =
    Some ("https://one.example.org/hook", New "webhook returned status 500").
Proof.
  pose proof (C7_channel_stops_at_first_failing_recipient Sample.notifier
                Sample.record_POST Sample.world Sample.email_down
                Sample.webhook_down eq_refl eq_refl) as H.
  cbv zeta in H. destruct H as (A & B & C & D & P & Q).
  refine (conj A (conj B (conj C (conj D (conj _ _))))).
  - refine (proj2 (P [] "a@example.org" (New "connection refused")
                     ["b@example.org"] eq_refl _ eq_refl)).
    intros x [].
  - refine (proj2 (Q [] "https://one.example.org/hook"
                     (New "webhook returned status 500")
                     ["https://two.example.org/hook"] eq_refl _ eq_refl)).
    intros x [].
Defined.

(** C7, the claim as written: with two addresses of which the first is
    unreachable, no delivery to the second is attempted, and the only
    error is about the first; likewise for two webhook URLs. *)
Lemma C7_second_recipient_is_never_tried :
  let e := NotificationService.sendEmailNotification Sample.notifier
             Sample.record_POST Sample.world in
  let h := NotificationService.sendWebhookNotification Sample.notifier
             Sample.record_POST Sample.world in
  EmailConfig.To (NotificationConfig.Email
                    (NotificationService.config Sample.notifier)) =
    ["a@example.org"; "b@example.org"] /\
  Sample.email_down "b@example.org" "Audit Alert: USER_CREATED - users"
    (EmailBody Sample.record_POST) = None /\
  fst e = Fail (Wrap "failed to send email to a@example.org"
                  (New "connection refused")) /\
  (forall d, In d (sent (snd e)) ->
             d = EmailTo "a@example.org" "Audit Alert: USER_CREATED - users"
                   (EmailBody Sample.record_POST)) /\
  (forall d, In d (sent (snd h)) ->
             d = WebhookTo "https://one.example.org/hook"
                   (NotificationService.formatWebhookPayload
                      Sample.record_POST)).
Proof.
  cbv zeta. repeat split; try reflexivity.
  - intros d [<- | []]. reflexivity.
  - intros d [<- | []]. reflexivity.
Qed.

(** *** Fan-out: which channels are started *)








(** The scenario of the specification: a deletion in production starts
    the three channels; a view in development starts the webhook only. *)
Example fanout_user_viewed_in_development :
  started (snd (NotificationService.SendNotification Sample.notifier
                  NotificationService.ESW Sample.record_viewed Sample.world)) =
    [GoChannel Webhook Sample.record_viewed].
Proof. reflexivity. Qed.

Example fanout_nothing_enabled :
  NotificationService.SendNotification Sample.silent
    NotificationService.ESW Sample.record_deleted Sample.world =
    (Ok tt, Sample.world).
Proof. reflexivity. Qed.

(** *** Creation and the notification goroutine *)

Lemma CreateAuditLog_Ok_world s req w r w' :
  AuditService.CreateAuditLog s req w = (Ok r, w') ->
  rows (db w') = (rows (db w) ++ [r])%list /\
  sent w' = sent w /\
  started w' =
    (started w ++ match AuditService.notificationService s with
                  | Some _ => [GoSendNotification r]
                  | None => []
                  end)%list.
Proof.
  intros H.
  destruct (CreateAuditLog_Ok_inv _ _ _ _ _ H) as (V & R & F & _ & Hr).
  split; [exact Hr|].
  rewrite (CreateAuditLog_valid _ _ _ V) in H. cbv zeta in H.
  rewrite R in H.
  destruct (Create_ok (AuditService.new_AuditLog req
              (AuditService.resolve_status s req)) w F)
    as (w1 & E & _ & _ & Hst & Hsn & _).
  rewrite E in H. injection H as <- <-.
  destruct (AuditService.notificationService s); cbn;
    rewrite Hst, Hsn, ?app_nil_r; split; reflexivity.
Qed.

Lemma CreateAuditLog_any_notifier s ns' req w r w' :
  AuditService.CreateAuditLog s req w = (Ok r, w') ->
  exists w'',
    AuditService.CreateAuditLog
      (AuditService.mk ns' (AuditService.config s)) req w = (Ok r, w'') /\
    db w'' = db w'.
Proof.
  intros H.
  destruct (CreateAuditLog_Ok_inv _ _ _ _ _ H) as (V & R & F & -> & _).
  rewrite (CreateAuditLog_valid s req w V) in H.
  rewrite (CreateAuditLog_valid (AuditService.mk ns' (AuditService.config s))
             req w V).
  cbv zeta in H |- *.
  change (status_rejected (AuditService.mk ns' (AuditService.config s)))
    with (status_rejected s).
  change (AuditService.resolve_status
            (AuditService.mk ns' (AuditService.config s)) req)
    with (AuditService.resolve_status s req).
  rewrite R in H |- *.
  destruct (AuditRepository.Create _ w) as [[a|err] w1]; [|discriminate].
  injection H as <- <-. eexists. split; [reflexivity|].
  cbn [AuditService.notificationService].
  destruct ns', (AuditService.notificationService s); reflexivity.
Qed.

(** C2.  When [CreateAuditLog] has persisted a record and returns it, the
    notification has only been started, in a goroutine: the value returned
    and the database are the same whatever notification service, with
    whatever senders, is installed.  When that goroutine runs, under any
    schedule of the channels and whatever the senders answer, it leaves
    the database, with the persisted row, as it was; an error of
    [SendNotification] ends in one more log entry and nowhere else. *)
Theorem C2_notification_outcome_never_reaches_creation :
  forall s req w r w1,
    AuditService.CreateAuditLog s req w = (Ok r, w1) ->
    rows (db w1) = (rows (db w) ++ [r])%list /\
    sent w1 = sent w /\
    (forall ns, AuditService.notificationService s = Some ns ->
                started w1 = (started w ++ [GoSendNotification r])%list) /\
    (forall ns', exists w1',
       AuditService.CreateAuditLog
         (AuditService.mk ns' (AuditService.config s)) req w = (Ok r, w1') /\
       db w1' = db w1) /\
    (forall sched,
       let w2 := AuditService.notify_goroutine s sched r w1 in
       db w2 = db w1 /\ In r (rows (db w2)) /\
       forall ns, AuditService.notificationService s = Some ns ->
         match NotificationService.SendNotification ns sched r w1 with
         | (Fail err, w') =>
             w2 = with_logs w' (logs w' ++
                    [mkLog ErrorLevel "Failed to send notification"
                       (Some err)])%list
         | (Ok _, w') => w2 = w'
         end).
Proof.
  intros s req w r w1 H.
  destruct (CreateAuditLog_Ok_world _ _ _ _ _ H) as (Hr & Hsn & Hst).
  split; [exact Hr|]. split; [exact Hsn|]. split.
  { intros ns E. now rewrite E in Hst. }
  split.
  { intros ns'. now apply CreateAuditLog_any_notifier. }
  intros sched w2.
  assert (D : db w2 = db w1).
  { unfold w2, AuditService.notify_goroutine.
    destruct (AuditService.notificationService s) as [ns|]; [|reflexivity].
    destruct (SendNotification_world ns sched r w1) as (D & _).
    destruct (NotificationService.SendNotification ns sched r w1)
      as [[[]|err] w']; cbn [snd] in D; exact D. }
  split; [exact D|]. split.
  { rewrite D, Hr. apply in_or_app. right. now left. }
  intros ns E. unfold w2, AuditService.notify_goroutine. rewrite E.
  destruct (NotificationService.SendNotification ns sched r w1)
    as [[[]|err] w']; reflexivity.
Qed.

Lemma C2_witness_failing_senders :
  let w1 := snd (AuditService.CreateAuditLog Sample.service
                   Sample.request_deleted Sample.world) in
  let r := created Sample.world
             (AuditService.new_AuditLog Sample.request_deleted "pending") in
  fst (AuditService.CreateAuditLog Sample.service Sample.request_deleted
         Sample.world) = Ok r /\
  (exists err w',
     NotificationService.SendNotification Sample.notifier
       NotificationService.ESW r w1 = (Fail err, w')) /\
  rows (db (AuditService.notify_goroutine Sample.service
              NotificationService.ESW r w1)) = [r].
Proof.
  intros w1 r.
  pose proof (C2_notification_outcome_never_reaches_creation Sample.service
                Sample.request_deleted Sample.world r w1 eq_refl)
    as (Hr & _ & _ & _ & G).
  split; [reflexivity|]. split.
  - eexists; eexists; reflexivity.
  - destruct (G NotificationService.ESW) as (D & _). cbv zeta in D.
    rewrite D. exact Hr.
Defined.

(** *** The partial update *)

Lemma update_rows_map now args sp id g l :
  (forall r, SQL.assign now args sp r = Some (g r)) ->
  SQL.update_rows now args sp (VText id) l =
    Some (map (fun r => if has_id id r then g r else r) l,
          Z.of_nat (List.length (filter (has_id id) l))).
Proof.
  intros A. induction l as [|r l IH]; [reflexivity|].
  cbn [SQL.update_rows map filter]. rewrite IH.
  change (SQL.is_id (VText id) r) with (has_id id r).
  destruct (has_id id r).
  - rewrite A. cbn [List.length]. f_equal. f_equal. lia.
  - reflexivity.
Qed.

Lemma filter_length_zero {A} (f : A -> bool) l :
  Z.of_nat (List.length (filter f l)) = 0%Z <-> existsb f l = false.
Proof.
  induction l as [|x l IH]; cbn; [tauto|].
  destruct (f x); cbn.
  - split; [lia | discriminate].
  - exact IH.
Qed.

Lemma map_no_match {A} (f : A -> bool) (g : A -> A) l :
  existsb f l = false -> map (fun r => if f r then g r else r) l = l.
Proof.
  induction l as [|x l IH]; cbn; [reflexivity|].
  destruct (f x); cbn; [discriminate|]. intros H. now rewrite IH.
Qed.

Lemma UpdateStatus_eq id req w :
  next_fault w = None ->
  let now := clock (env w) (tick (env w)) in
  let out := AuditRepository.UpdateStatus id req w in
  rows (db (snd out)) =
    map (fun r => if has_id id r then partial_update now req r else r)
      (rows (db w)) /\
  fst out = if existsb (has_id id) (rows (db w)) then Ok tt
            else Fail (New "audit log not found").
Proof.
  intros F now out. unfold next_fault in F.
  unfold out, AuditRepository.UpdateStatus.
  destruct req as [status data meta].
  destruct w as [[rs ss fs] [ck tk us dr] lg st sn].
  cbn [db env rows faults clock tick] in *. unfold now.
  pose proof (@filter_length_zero _ (has_id id) rs) as Z0.
  assert (K : forall sp args,
    (forall r, SQL.assign (ck tk) args sp r =
               Some (partial_update (ck tk)
                       (UpdateStatusRequest.mk status data meta) r)) ->
    SQL.update_rows (ck tk) args sp (VText id) rs =
      Some (map (fun r => if has_id id r
                          then partial_update (ck tk)
                                 (UpdateStatusRequest.mk status data meta) r
                          else r) rs,
            Z.of_nat (List.length (filter (has_id id) rs)))).
  { intros sp args A. now apply update_rows_map. }
  destruct data as [d|], meta as [m|];
    cbn [AuditRepository.provided UpdateStatusRequest.Data
         UpdateStatusRequest.Meta UpdateStatusRequest.Status app];
    unfold bind, try, SQL.Exec;
    cbn [db env rows faults stmts clock tick ids drawn];
    (destruct fs as [|[msg|] fs]; [| discriminate |]);
    cbn [SQL.run SQL.param nth_error SQL.reads_clock existsb snd orb tl];
    (rewrite K by (intros [i te us0 re ev me ip0 st0 da en mt ts ca ua];
                   reflexivity));
    destruct (Z.eqb (Z.of_nat (List.length (filter (has_id id) rs))) 0) eqn:Q;
    first [ apply Z.eqb_eq in Q; apply Z0 in Q | apply Z.eqb_neq in Q ];
    cbn [fst snd fail ret db rows with_db with_env];
    try (rewrite Q; split; reflexivity);
    (destruct (existsb (has_id id) rs) eqn:X;
     [ split; reflexivity | exfalso; apply Q, Z0; reflexivity ]).
Qed.

(** C6.  [UpdateStatus], when the driver does not fail the statement,
    rewrites exactly the rows of the given id, each as the specification
    says: the status becomes the request's and the last-update timestamp
    the current instant; data and metadata are replaced when the request
    provides them and kept otherwise; every other column is kept.  With
    only a status, data and metadata stay; with data and no metadata, the
    metadata stays.  The call succeeds when a row has the id; when none
    has, it fails with the not-found error and the table is unchanged. *)
Theorem C6_update_changes_only_what_is_provided :
  forall id req w,
    next_fault w = None ->
    let now := clock (env w) (tick (env w)) in
    let out := AuditRepository.UpdateStatus id req w in
    rows (db (snd out)) =
      map (fun r => if has_id id r then partial_update now req r else r)
        (rows (db w)) /\
    (existsb (has_id id) (rows (db w)) = true -> fst out = Ok tt) /\
    (existsb (has_id id) (rows (db w)) = false ->
       fst out = Fail (New "audit log not found") /\
       spec_kind (New "audit log not found") = NotFoundError /\
       rows (db (snd out)) = rows (db w)) /\
    (forall r,
       let r' := partial_update now req r in
       AuditLog.Status r' = UpdateStatusRequest.Status req /\
       AuditLog.UpdatedAt r' = now /\
       (UpdateStatusRequest.Data req = None ->
          AuditLog.Data r' = AuditLog.Data r) /\
       (UpdateStatusRequest.Meta req = None ->
          AuditLog.Meta r' = AuditLog.Meta r) /\
       (forall d, UpdateStatusRequest.Data req = Some d ->
          AuditLog.Data r' = Some d) /\
       (forall m, UpdateStatusRequest.Meta req = Some m ->
          AuditLog.Meta r' = Some m) /\
       AuditLog.ID r' = AuditLog.ID r /\
       AuditLog.TenantID r' = AuditLog.TenantID r /\
       AuditLog.UserID r' = AuditLog.UserID r /\
       AuditLog.Resource r' = AuditLog.Resource r /\
       AuditLog.Event r' = AuditLog.Event r /\
       AuditLog.Method r' = AuditLog.Method r /\
       AuditLog.IP r' = AuditLog.IP r /\
       AuditLog.Environment r' = AuditLog.Environment r /\
       AuditLog.Timestamp r' = AuditLog.Timestamp r /\
       AuditLog.CreatedAt r' = AuditLog.CreatedAt r).
Proof.
  intros id req w F now out.
  destruct (UpdateStatus_eq id req w F) as [R O]. fold now out in R, O.
  split; [exact R|]. split; [|split].
  - intros X. now rewrite O, X.
  - intros X. rewrite O, X, R. repeat split. now apply map_no_match.
  - intros r r'. unfold r', partial_update. cbn.
    repeat split; try reflexivity.
    + now intros ->.
    + now intros ->.
    + now intros d ->.
    + now intros m ->.
Qed.

Lemma C6_witness_status_only :
  let out := AuditRepository.UpdateStatus
               "00000000-0000-0000-0000-000000000000"
               (UpdateStatusRequest.mk "completed" None None)
               Sample.world_one in
  fst out = Ok tt /\
  rows (db (snd out)) =
    [partial_update 1000%Z (UpdateStatusRequest.mk "completed" None None)
       Sample.record_POST] /\
  fst (AuditRepository.UpdateStatus "no-such-id"
         (UpdateStatusRequest.mk "completed" None None) Sample.world_one) =
    Fail (New "audit log not found").
Proof.
  cbv zeta.
  pose proof (C6_update_changes_only_what_is_provided
                "00000000-0000-0000-0000-000000000000"
                (UpdateStatusRequest.mk "completed" None None)
                Sample.world_one eq_refl) as (R & O & _).
  pose proof (C6_update_changes_only_what_is_provided
                "no-such-id"
                (UpdateStatusRequest.mk "completed" None None)
                Sample.world_one eq_refl) as (_ & _ & N & _).
  split; [exact (O eq_refl)|]. split; [exact R|].
  exact (proj1 (N eq_refl)).
Defined.

(** *** Listing *)

(** The two statements of [List] for a filter. *)
Lemma List_stmts_shape (f : AuditLogFilter.t) :
  let '(conds, args) := AuditRepository.buildWhereClause f in
  forall w,
    let out := AuditRepository.List_ f w in
    let n := List.length args in
    let count := Count conds args in
    let page := SelectPage conds (n + 1) (n + 2)
                  (args ++ [VInt (AuditLogFilter.Limit f);
                            VInt (AuditLogFilter.Offset f)])%list in
    rows (db (snd out)) = rows (db w) /\
    logs (snd out) = logs w /\
    (stmts (db (snd out)) = (stmts (db w) ++ [count])%list \/
     stmts (db (snd out)) = (stmts (db w) ++ [count; page])%list) /\
    (forall res, fst out = Ok res ->
       PaginatedResponse.Limit res = AuditLogFilter.Limit f /\
       PaginatedResponse.Offset res = AuditLogFilter.Offset f /\
       PaginatedResponse.Total res =
         Z.of_nat (List.length (List.filter (SQL.selected conds args)
                                  (rows (db w)))) /\
       stmts (db (snd out)) = (stmts (db w) ++ [count; page])%list /\
       faults (db (snd out)) = tl (tl (faults (db w)))) /\
    (faults (db w) = [] ->
     (0 <= AuditLogFilter.Limit f)%Z ->
     (0 <= AuditLogFilter.Offset f)%Z ->
     exists res, fst out = Ok res /\ faults (db (snd out)) = []).
Proof.
  unfold AuditRepository.List_.
  destruct (AuditRepository.buildWhereClause f) as [conds args].
  intros w. cbv zeta.
  assert (P1 : SQL.param (args ++ [VInt (AuditLogFilter.Limit f);
                                   VInt (AuditLogFilter.Offset f)])
                 (List.length args + 1) =
               Some (VInt (AuditLogFilter.Limit f))).
  { replace (List.length args + 1) with (S (List.length args)) by lia.
    cbn [SQL.param]. rewrite nth_error_app2 by lia.
    now rewrite Nat.sub_diag. }
  assert (P2 : SQL.param (args ++ [VInt (AuditLogFilter.Limit f);
                                   VInt (AuditLogFilter.Offset f)])
                 (List.length args + 2) =
               Some (VInt (AuditLogFilter.Offset f))).
  { replace (List.length args + 2) with (S (S (List.length args))) by lia.
    cbn [SQL.param]. rewrite nth_error_app2 by lia.
    replace (S (List.length args) - List.length args) with 1 by lia.
    reflexivity. }
  destruct w as [[rs ss fs] [ck tk us dr] lg st sn].
  unfold bind, try, SQL.Exec.
  cbn [db env rows faults stmts clock tick ids drawn].
  destruct fs as [|[msg|] [|[msg'|] fs]];
    cbn [SQL.run SQL.reads_clock tl fst snd fail ret with_db with_env db env
         rows faults stmts logs];
    rewrite ?P1, ?P2;
    try (destruct (Z.ltb (AuditLogFilter.Limit f) 0 ||
                   Z.ltb (AuditLogFilter.Offset f) 0)%bool eqn:Neg);
    cbn [SQL.run SQL.reads_clock tl fst snd fail ret with_db with_env db env
         rows faults stmts logs];
    list_case.
Qed.

Lemma paginate_Limit f :
  AuditLogFilter.Limit (AuditService.paginate f) =
    if Z.leb (AuditLogFilter.Limit f) 0 then 50%Z
    else if Z.ltb 1000 (AuditLogFilter.Limit f) then 1000%Z
    else AuditLogFilter.Limit f.
Proof.
  unfold AuditService.paginate.
  destruct (Z.leb (AuditLogFilter.Limit f) 0) eqn:L;
    cbn [AuditLogFilter.with_Limit AuditLogFilter.Limit].
  - change (Z.ltb 1000 50) with false. cbv iota.
    destruct (Z.ltb (AuditLogFilter.Offset _) 0); reflexivity.
  - destruct (Z.ltb 1000 (AuditLogFilter.Limit f));
      destruct (Z.ltb (AuditLogFilter.Offset _) 0); reflexivity.
Qed.

Lemma paginate_Offset f :
  AuditLogFilter.Offset (AuditService.paginate f) =
    if Z.ltb (AuditLogFilter.Offset f) 0 then 0%Z
    else AuditLogFilter.Offset f.
Proof.
  unfold AuditService.paginate.
  destruct (Z.leb (AuditLogFilter.Limit f) 0);
    cbn [AuditLogFilter.with_Limit AuditLogFilter.Limit];
    [change (Z.ltb 1000 50) with false; cbv iota
    | destruct (Z.ltb 1000 (AuditLogFilter.Limit f))];
    cbn [AuditLogFilter.with_Limit AuditLogFilter.Offset];
    destruct (Z.ltb (AuditLogFilter.Offset f) 0); reflexivity.
Qed.

(** C9.  [ListAuditLogs] works on the filter with its pagination clamped:
    a limit of 0 or less becomes 50, a limit above 1000 becomes 1000, any
    other limit is kept; a negative offset becomes 0, any other is kept.
    Every page query sent to the database carries these two values as its
    LIMIT and OFFSET parameters, and a response that is returned echoes
    them.  With a date range that is not inverted and no failure of the
    database, a response is returned. *)
Theorem C9_pagination_is_clamped_before_the_query :
  forall s filter w,
    let f := AuditService.paginate filter in
    let out := AuditService.ListAuditLogs s filter w in
    ((AuditLogFilter.Limit filter <= 0)%Z -> AuditLogFilter.Limit f = 50%Z) /\
    ((1000 < AuditLogFilter.Limit filter)%Z ->
       AuditLogFilter.Limit f = 1000%Z) /\
    ((0 < AuditLogFilter.Limit filter <= 1000)%Z ->
       AuditLogFilter.Limit f = AuditLogFilter.Limit filter) /\
    ((AuditLogFilter.Offset filter < 0)%Z -> AuditLogFilter.Offset f = 0%Z) /\
    ((0 <= AuditLogFilter.Offset filter)%Z ->
       AuditLogFilter.Offset f = AuditLogFilter.Offset filter) /\
    (forall res,
       fst out = Ok res ->
       PaginatedResponse.Limit res = AuditLogFilter.Limit f /\
       PaginatedResponse.Offset res = AuditLogFilter.Offset f) /\
    (exists issued,
       stmts (db (snd out)) = (stmts (db w) ++ issued)%list /\
       forall conds limitArg offsetArg args,
         In (SelectPage conds limitArg offsetArg args) issued ->
         SQL.param args limitArg = Some (VInt (AuditLogFilter.Limit f)) /\
         SQL.param args offsetArg = Some (VInt (AuditLogFilter.Offset f))) /\
    (inverted_range filter = false -> faults (db w) = [] ->
       exists res conds limitArg offsetArg args,
         fst out = Ok res /\
         In (SelectPage conds limitArg offsetArg args) (stmts (db (snd out)))).
Proof.
  intros s filter w f out.
  pose proof (paginate_Limit filter) as PL.
  pose proof (paginate_Offset filter) as PO. fold f in PL, PO.
  split; [intros H; rewrite PL; apply Z.leb_le in H; now rewrite H|].
  split.
  { intros H. rewrite PL.
    destruct (Z.leb_spec (AuditLogFilter.Limit filter) 0); [lia|].
    apply Z.ltb_lt in H. now rewrite H. }
  split.
  { intros H. rewrite PL.
    destruct (Z.leb_spec (AuditLogFilter.Limit filter) 0); [lia|].
    destruct (Z.ltb_spec 1000 (AuditLogFilter.Limit filter)); [lia|].
    reflexivity. }
  split; [intros H; rewrite PO; apply Z.ltb_lt in H; now rewrite H|].
  split.
  { intros H. rewrite PO.
    destruct (Z.ltb_spec (AuditLogFilter.Offset filter) 0); [lia|].
    reflexivity. }
  assert (L0 : (0 <= AuditLogFilter.Limit f)%Z).
  { rewrite PL. destruct (Z.leb_spec (AuditLogFilter.Limit filter) 0); [lia|].
    destruct (Z.ltb_spec 1000 (AuditLogFilter.Limit filter)); lia. }
  assert (O0 : (0 <= AuditLogFilter.Offset f)%Z).
  { rewrite PO. destruct (Z.ltb_spec (AuditLogFilter.Offset filter) 0); lia. }
  assert (IR : inverted_range filter =
               negb (GoTime.IsZero (AuditLogFilter.StartDate f)) &&
               negb (GoTime.IsZero (AuditLogFilter.EndDate f)) &&
               GoTime.After (AuditLogFilter.StartDate f)
                 (AuditLogFilter.EndDate f)).
  { unfold inverted_range, f, AuditService.paginate.
    destruct (Z.leb _ 0), (Z.ltb 1000 _), (Z.ltb _ 0); reflexivity. }
  unfold out, AuditService.ListAuditLogs. fold f. rewrite <- IR.
  destruct (inverted_range filter).
  { cbn [fst snd fail]. split; [discriminate|]. split; [|discriminate].
    exists []. split; [now rewrite app_nil_r | intros ? ? ? ? []]. }
  pose proof (List_stmts_shape f) as Sh.
  destruct (AuditRepository.buildWhereClause f) as [conds args].
  specialize (Sh w). cbv zeta in Sh.
  destruct Sh as (_ & _ & St & Hok & Htot).
  unfold bind, try.
  destruct (AuditRepository.List_ f w) as [[res|err] w1];
    cbn [fst snd] in St, Hok, Htot |- *;
    unfold Sys.logError, Sys.logInfo, fail, ret; cbn [fst snd db with_logs].
  - destruct (Hok res eq_refl) as (HL & HO & _ & Hst & _).
    split; [intros r E; injection E as <-; now split|].
    split.
    + eexists. split; [exact Hst|].
      intros c la oa ar [E | [E | []]]; [discriminate|].
      injection E as <- <- <- <-.
      clear - f. split.
      * replace (List.length args + 1) with (S (List.length args)) by lia.
        cbn [SQL.param]. rewrite nth_error_app2 by lia.
        now rewrite Nat.sub_diag.
      * replace (List.length args + 2) with (S (S (List.length args))) by lia.
        cbn [SQL.param]. rewrite nth_error_app2 by lia.
        replace (S (List.length args) - List.length args) with 1 by lia.
        reflexivity.
    + intros _ F. eexists; eexists; eexists; eexists; eexists.
      split; [reflexivity|]. rewrite Hst. apply in_or_app. right.
      right. left. reflexivity.
  - split; [discriminate|]. split.
    + destruct St as [St | St]; eexists; (split; [exact St|]).
      * intros c la oa ar [E | []]. discriminate.
      * intros c la oa ar [E | [E | []]]; [discriminate|].
        injection E as <- <- <- <-.
        clear - f. split.
        -- replace (List.length args + 1) with (S (List.length args)) by lia.
           cbn [SQL.param]. rewrite nth_error_app2 by lia.
           now rewrite Nat.sub_diag.
        -- replace (List.length args + 2) with (S (S (List.length args)))
             by lia.
           cbn [SQL.param]. rewrite nth_error_app2 by lia.
           replace (S (List.length args) - List.length args) with 1 by lia.
           reflexivity.
    + intros _ F. destruct (Htot F L0 O0) as (r & E & _). discriminate.
Qed.

Lemma C9_witness_negative_pagination :
  let out := AuditService.ListAuditLogs Sample.service
               (Sample.filter_page (-3) (-1)) Sample.world_one in
  AuditLogFilter.Limit (AuditService.paginate (Sample.filter_page (-3) (-1)))
    = 50%Z /\
  AuditLogFilter.Offset (AuditService.paginate (Sample.filter_page (-3) (-1)))
    = 0%Z /\
  exists res,
    fst out = Ok res /\
    PaginatedResponse.Limit res = 50%Z /\
    PaginatedResponse.Offset res = 0%Z /\
    PaginatedResponse.Data res = [Sample.record_POST].
Proof.
  cbv zeta.
  destruct (C9_pagination_is_clamped_before_the_query Sample.service
              (Sample.filter_page (-3) (-1)) Sample.world_one)
    as (L & _ & _ & O & _ & E & _).
  split; [apply L; cbv; discriminate|].
  split; [apply O; reflexivity|].
  eexists. split; [reflexivity|].
  destruct (E _ eq_refl) as (EL & EO).
  rewrite EL, EO. split; [apply L; cbv; discriminate|].
  split; [apply O; reflexivity | reflexivity].
Defined.

(** *** Statistics *)

(** C10.  With an empty configured error status the error filter of
    [GetAuditLogStats] is the plain filter, so the two count statements
    are one and the same; statistics that are returned have an
    [error_count] equal to [total_logs], which is the number of rows the
    tenant and date conditions select.  When the database does not fail,
    statistics are returned. *)
Theorem C10_empty_error_status_counts_every_log :
  forall s tenantID startDate endDate w,
    AuditConfig.ErrorStatus (Config.Audit (AuditService.config s)) = "" ->
    let out := AuditService.GetAuditLogStats s tenantID startDate endDate w in
    let filter := AuditLogFilter.mk tenantID "" "" "" "" "" ""
                    startDate endDate 1 0 in
    let conds := fst (AuditRepository.buildWhereClause filter) in
    let args := snd (AuditRepository.buildWhereClause filter) in
    (forall stats,
       fst out = Ok stats ->
       AuditService.error_count stats = AuditService.total_logs stats /\
       AuditService.total_logs stats =
         Z.of_nat (List.length (List.filter (SQL.selected conds args)
                                  (rows (db w)))) /\
       exists page,
         stmts (db (snd out)) =
           (stmts (db w) ++ [Count conds args; page;
                             Count conds args; page])%list) /\
    (faults (db w) = [] -> exists stats, fst out = Ok stats).
Proof.
  intros s tenantID startDate endDate w E out filter conds args.
  unfold out, AuditService.GetAuditLogStats. rewrite E. fold filter.
  pose proof (List_stmts_shape filter) as Sh.
  unfold conds, args.
  destruct (AuditRepository.buildWhereClause filter) as [cs ar].
  cbn [fst snd].
  pose proof (Sh w) as S1. cbv zeta in S1.
  destruct S1 as (R1 & _ & _ & Ok1 & Tot1).
  unfold bind, try.
  destruct (AuditRepository.List_ filter w) as [[res1|err1] w1];
    cbn [fst snd] in R1, Ok1, Tot1 |- *.
  2:{ split; [discriminate|]. intros F.
      destruct (Tot1 F) as (r & X & _); [cbn; lia | cbn; lia | discriminate]. }
  destruct (Ok1 res1 eq_refl) as (_ & _ & T1 & St1 & F1).
  pose proof (Sh w1) as S2. cbv zeta in S2.
  destruct S2 as (R2 & _ & _ & Ok2 & Tot2).
  destruct (AuditRepository.List_ filter w1) as [[res2|err2] w2];
    cbn [fst snd] in R2, Ok2, Tot2 |- *.
  2:{ split; [discriminate|]. intros F.
      rewrite F in F1. cbn in F1.
      destruct (Tot2 F1) as (r & X & _); [cbn; lia | cbn; lia | discriminate]. }
  destruct (Ok2 res2 eq_refl) as (_ & _ & T2 & St2 & _).
  unfold ret. cbn [fst snd].
  split.
  - intros stats X. injection X as <-.
    cbn [AuditService.error_count AuditService.total_logs].
    split; [rewrite T1, T2, R1; reflexivity|].
    split; [exact T1|].
    eexists. rewrite St2, St1, <- app_assoc. reflexivity.
  - intros _. eexists. reflexivity.
Qed.

Lemma C10_witness_no_error_status :
  exists stats,
    fst (AuditService.GetAuditLogStats Sample.service_no_error_status "t1"
           500%Z 5000%Z Sample.world_one) = Ok stats /\
    AuditService.total_logs stats = 1%Z /\
    AuditService.error_count stats = 1%Z.
Proof.
  destruct (C10_empty_error_status_counts_every_log
              Sample.service_no_error_status "t1" 500%Z 5000%Z
              Sample.world_one eq_refl) as (H & T).
  destruct (T eq_refl) as (stats & E).
  exists stats. split; [exact E|].
  destruct (H stats E) as (EC & TL & _).
  rewrite EC, TL. split; reflexivity.
Defined.

(** With the default error status ["failed"] the two counts differ on the
    same table. *)
Example stats_with_error_status :
  fst (AuditService.GetAuditLogStats Sample.service "t1" 500%Z 5000%Z
         Sample.world_one) =
    Ok (AuditService.mkStats 1 0 500%Z 5000%Z "t1").
Proof. reflexivity. Qed.

(* ================================================================== *)
(** * Further properties                                               *)
(* ================================================================== *)

(** *** The WHERE clause *)

Lemma add_if_ok b c cmp v st :
  clause_ok st -> clause_ok (AuditRepository.add_if b c cmp v st).
Proof.
  destruct st as [[conds args] idx]. unfold clause_ok, AuditRepository.add_if.
  destruct b; [|tauto]. intros (I & L & M).
  rewrite !length_app. cbn [List.length]. repeat split; try lia.
  rewrite map_app, M, Nat.add_1_r, seq_S. cbn. now rewrite I, L.
Qed.

Lemma param_app_old args v n :
  1 <= n <= List.length args ->
  SQL.param (args ++ [v]) n = SQL.param args n.
Proof.
  destruct n as [|k]; [lia|]. intros H. cbn [SQL.param].
  apply nth_error_app1. lia.
Qed.

Lemma param_app_new args v :
  SQL.param (args ++ [v]) (S (List.length args)) = Some v.
Proof.
  cbn [SQL.param]. rewrite nth_error_app2 by lia.
  now rewrite Nat.sub_diag.
Qed.

Lemma seq_bounds conds n :
  map cond_arg conds = seq 1 n ->
  Forall (fun c => 1 <= cond_arg c <= n) conds.
Proof.
  intros M. apply Forall_forall. intros c Hc.
  apply (in_map cond_arg) in Hc. rewrite M in Hc. apply in_seq in Hc. lia.
Qed.

Lemma forallb_agree {A} (f g : A -> bool) l :
  (forall x, In x l -> f x = g x) -> forallb f l = forallb g l.
Proof.
  induction l as [|a l IH]; intros H; cbn; [reflexivity|].
  rewrite (H a (or_introl eq_refl)), IH; [reflexivity|].
  intros x Hx. apply H. now right.
Qed.

Lemma selected_add_if b c cmp v st r :
  clause_ok st ->
  let '(conds, args, _) := st in
  let '(conds', args', _) := AuditRepository.add_if b c cmp v st in
  SQL.selected conds' args' r =
    SQL.selected conds args r && (negb b || SQL.compare cmp (SQL.get c r) v).
Proof.
  destruct st as [[conds args] idx]. unfold clause_ok, AuditRepository.add_if.
  intros (I & L & M). destruct b; cbn [negb orb].
  2:{ now rewrite andb_true_r. }
  unfold SQL.selected. rewrite forallb_app. cbn [forallb].
  rewrite andb_true_r. f_equal.
  - apply forallb_agree.
    pose proof (seq_bounds _ _ M) as B. rewrite Forall_forall in B.
    intros x Hx. unfold SQL.holds. rewrite param_app_old; [reflexivity|].
    specialize (B x Hx). lia.
  - unfold SQL.holds. cbn [cond_arg cond_cmp cond_col].
    rewrite I, param_app_new. reflexivity.
Qed.

Lemma selects_step b c cmp v st r P :
  selects st r P ->
  selects (AuditRepository.add_if b c cmp v st) r
    (P && (negb b || SQL.compare cmp (SQL.get c r) v)).
Proof.
  intros [K S]. split; [now apply add_if_ok|].
  pose proof (selected_add_if b c cmp v st r K) as E.
  destruct st as [[conds args] idx].
  destruct (AuditRepository.add_if b c cmp v (conds, args, idx))
    as [[conds' args'] idx'].
  now rewrite E, S.
Qed.

Lemma selects_nil r : selects ([], [], 1) r true.
Proof. repeat split. Qed.

Lemma buildWhereClause_ok f :
  List.length (fst (AuditRepository.buildWhereClause f)) =
    List.length (snd (AuditRepository.buildWhereClause f)) /\
  map cond_arg (fst (AuditRepository.buildWhereClause f)) =
    seq 1 (List.length (fst (AuditRepository.buildWhereClause f))).
Proof.
  pose proof
      (add_if_ok (negb (GoTime.IsZero (AuditLogFilter.EndDate f)))
         c_timestamp LE (VTime (AuditLogFilter.EndDate f)) _
      (add_if_ok (negb (GoTime.IsZero (AuditLogFilter.StartDate f)))
         c_timestamp GE (VTime (AuditLogFilter.StartDate f)) _
      (add_if_ok (AuditRepository.nonempty (AuditLogFilter.Environment f))
         c_environment EQ (VText (AuditLogFilter.Environment f)) _
      (add_if_ok (AuditRepository.nonempty (AuditLogFilter.Status f))
         c_status EQ (VText (AuditLogFilter.Status f)) _
      (add_if_ok (AuditRepository.nonempty (AuditLogFilter.Method f))
         c_method EQ (VText (AuditLogFilter.Method f)) _
      (add_if_ok (AuditRepository.nonempty (AuditLogFilter.Event f))
         c_event EQ (VText (AuditLogFilter.Event f)) _
      (add_if_ok (AuditRepository.nonempty (AuditLogFilter.Resource f))
         c_resource EQ (VText (AuditLogFilter.Resource f)) _
      (add_if_ok (AuditRepository.nonempty (AuditLogFilter.UserID f))
         c_user_id EQ (VText (AuditLogFilter.UserID f)) _
      (add_if_ok (AuditRepository.nonempty (AuditLogFilter.TenantID f))
         c_tenant_id EQ (VText (AuditLogFilter.TenantID f)) ([], [], 1)
         (conj eq_refl (conj eq_refl eq_refl))))))))))) as K.
    unfold AuditRepository.buildWhereClause.
    match goal with
    | |- context [AuditRepository.add_if ?b c_timestamp LE ?v ?st] =>
        remember (AuditRepository.add_if b c_timestamp LE v st) as s9
    end.
    destruct s9 as [[cs ar] ix]. cbn [fst snd].
    destruct K as (_ & L & M). now split.
Qed.

(** X1.  In the clause [buildWhereClause] builds, whatever subset of the
    filter fields is given, there are as many conditions as parameters,
    the conditions are numbered [$1], [$2], ... in order, and the k-th
    condition reads the k-th parameter. *)
Theorem X1_where_clause_parameters_are_positional :
  forall f,
    let conds := fst (AuditRepository.buildWhereClause f) in
    let args := snd (AuditRepository.buildWhereClause f) in
    List.length conds = List.length args /\
    map cond_arg conds = seq 1 (List.length conds) /\
    forall k c,
      nth_error conds k = Some c ->
      cond_arg c = S k /\
      exists v, nth_error args k = Some v /\
                SQL.param args (cond_arg c) = Some v.
Proof.
  intros f conds args.
  destruct (buildWhereClause_ok f) as (L & M). fold conds args in L, M.
  split; [exact L|]. split; [exact M|].
  intros k c Hk.
  assert (A : cond_arg c = S k).
  { pose proof (map_nth_error cond_arg _ _ Hk) as N. rewrite M in N.
    assert (k < List.length conds) by (apply nth_error_Some; congruence).
    rewrite nth_error_seq in N.
    destruct (Nat.ltb_spec k (List.length conds)); [|lia].
    now injection N as <-. }
  split; [exact A|].
  assert (B : k < List.length args).
  { rewrite <- L. apply nth_error_Some. congruence. }
  destruct (nth_error args k) as [v|] eqn:E.
  - exists v. split; [reflexivity|]. rewrite A. exact E.
  - apply nth_error_None in E. lia.
Qed.

Lemma selected_matches f r :
  SQL.selected (fst (AuditRepository.buildWhereClause f))
    (snd (AuditRepository.buildWhereClause f)) r = matches f r.
Proof.
  pose proof
    (selects_step (negb (GoTime.IsZero (AuditLogFilter.EndDate f)))
       c_timestamp LE (VTime (AuditLogFilter.EndDate f)) _ r _
    (selects_step (negb (GoTime.IsZero (AuditLogFilter.StartDate f)))
       c_timestamp GE (VTime (AuditLogFilter.StartDate f)) _ r _
    (selects_step (AuditRepository.nonempty (AuditLogFilter.Environment f))
       c_environment EQ (VText (AuditLogFilter.Environment f)) _ r _
    (selects_step (AuditRepository.nonempty (AuditLogFilter.Status f))
       c_status EQ (VText (AuditLogFilter.Status f)) _ r _
    (selects_step (AuditRepository.nonempty (AuditLogFilter.Method f))
       c_method EQ (VText (AuditLogFilter.Method f)) _ r _
    (selects_step (AuditRepository.nonempty (AuditLogFilter.Event f))
       c_event EQ (VText (AuditLogFilter.Event f)) _ r _
    (selects_step (AuditRepository.nonempty (AuditLogFilter.Resource f))
       c_resource EQ (VText (AuditLogFilter.Resource f)) _ r _
    (selects_step (AuditRepository.nonempty (AuditLogFilter.UserID f))
       c_user_id EQ (VText (AuditLogFilter.UserID f)) _ r _
    (selects_step (AuditRepository.nonempty (AuditLogFilter.TenantID f))
       c_tenant_id EQ (VText (AuditLogFilter.TenantID f)) _ r _
    (selects_nil r)))))))))) as [_ S].
  unfold AuditRepository.buildWhereClause.
  match goal with
  | |- context [AuditRepository.add_if ?b c_timestamp LE ?v ?st] =>
      remember (AuditRepository.add_if b c_timestamp LE v st) as s9
  end.
  destruct s9 as [[cs ar] ix]. cbn [fst snd]. rewrite S.
  unfold matches, field_ok, AuditRepository.nonempty.
  cbn [SQL.get SQL.compare andb]. rewrite !negb_involutive. reflexivity.
Qed.

(** X2.  The clause [buildWhereClause] builds selects a row exactly when
    the row agrees with every filter field that is given and its
    timestamp lies within the given bounds, bounds included; a field left
    empty, or a zero date, puts no constraint. *)
Theorem X2_where_clause_is_the_conjunction_of_given_fields :
  forall f r,
    SQL.selected (fst (AuditRepository.buildWhereClause f))
      (snd (AuditRepository.buildWhereClause f)) r = matches f r.
Proof. exact selected_matches. Qed.

Lemma selected_more_args f extra r :
  SQL.selected (fst (AuditRepository.buildWhereClause f))
    (snd (AuditRepository.buildWhereClause f) ++ extra) r =
  SQL.selected (fst (AuditRepository.buildWhereClause f))
    (snd (AuditRepository.buildWhereClause f)) r.
Proof.
  destruct (buildWhereClause_ok f) as (L & M).
  pose proof (seq_bounds _ _ M) as B. rewrite Forall_forall in B.
  unfold SQL.selected. apply forallb_agree. intros c Hc.
  specialize (B c Hc). unfold SQL.holds.
  destruct (cond_arg c) as [|k]; [lia|]. cbn [SQL.param].
  rewrite nth_error_app1 by lia. reflexivity.
Qed.

(** *** Ordering by timestamp *)

Lemma In_insert_desc r x l :
  In x (SQL.insert_desc r l) <-> x = r \/ In x l.
Proof.
  induction l as [|a l IH]; cbn.
  - intuition.
  - destruct (Z.ltb (AuditLog.Timestamp a) (AuditLog.Timestamp r)); cbn.
    + intuition.
    + rewrite IH. intuition.
Qed.

Lemma In_order_desc x l : In x (SQL.order_desc l) <-> In x l.
Proof.
  induction l as [|a l IH]; [cbn; tauto|].
  change (SQL.order_desc (a :: l)) with (SQL.insert_desc a (SQL.order_desc l)).
  rewrite In_insert_desc, IH. cbn. intuition.
Qed.

Lemma length_insert_desc r l :
  List.length (SQL.insert_desc r l) = S (List.length l).
Proof.
  induction l as [|a l IH]; cbn; [reflexivity|].
  destruct (Z.ltb _ _); cbn; [reflexivity | now rewrite IH].
Qed.

Lemma length_order_desc l :
  List.length (SQL.order_desc l) = List.length l.
Proof.
  induction l as [|a l IH]; [reflexivity|].
  change (SQL.order_desc (a :: l)) with (SQL.insert_desc a (SQL.order_desc l)).
  now rewrite length_insert_desc, IH.
Qed.

Lemma descending_insert r l :
  descending l -> descending (SQL.insert_desc r l).
Proof.
  induction l as [|a l IH]; cbn.
  - intros _. split; [intros y []|exact I].
  - intros [Ha Hl].
    destruct (Z.ltb_spec (AuditLog.Timestamp a) (AuditLog.Timestamp r)); cbn.
    + split; [|now split]. intros y [<- | Hy]; [lia|].
      specialize (Ha y Hy). lia.
    + split; [|now apply IH]. intros y Hy.
      apply In_insert_desc in Hy. destruct Hy as [-> | Hy]; [lia | now apply Ha].
Qed.

Lemma descending_order_desc l : descending (SQL.order_desc l).
Proof.
  induction l as [|a l IH]; [exact I|].
  change (SQL.order_desc (a :: l)) with (SQL.insert_desc a (SQL.order_desc l)).
  now apply descending_insert.
Qed.

Lemma In_skipn {A} n (l : list A) x : In x (skipn n l) -> In x l.
Proof.
  revert l; induction n as [|n IH]; intros [|a l]; cbn; auto.
Qed.

Lemma In_firstn {A} n (l : list A) x : In x (firstn n l) -> In x l.
Proof.
  revert l; induction n as [|n IH]; intros [|a l]; cbn; try tauto.
  intros [-> | H]; auto.
Qed.

Lemma descending_skipn n l : descending l -> descending (skipn n l).
Proof.
  revert l; induction n as [|n IH]; intros [|a l]; cbn; auto.
  intros [_ H]. now apply IH.
Qed.

Lemma descending_firstn n l : descending l -> descending (firstn n l).
Proof.
  revert l; induction n as [|n IH]; intros [|a l]; cbn; auto.
  intros [Ha H]. split; [|now apply IH].
  intros y Hy. apply Ha. eapply In_firstn. exact Hy.
Qed.

(** *** Listing: the page *)

Lemma filter_agree {A} (f g : A -> bool) l :
  (forall x, f x = g x) -> List.filter f l = List.filter g l.
Proof.
  intros H. induction l as [|a l IH]; cbn; [reflexivity|].
  now rewrite H, IH.
Qed.

Lemma List_Ok f w res :
  fst (AuditRepository.List_ f w) = Ok res ->
  (0 <= AuditLogFilter.Limit f)%Z /\ (0 <= AuditLogFilter.Offset f)%Z /\
  PaginatedResponse.Data res =
    firstn (Z.to_nat (AuditLogFilter.Limit f))
      (skipn (Z.to_nat (AuditLogFilter.Offset f)) (selection f (rows (db w)))) /\
  PaginatedResponse.Total res =
    Z.of_nat (List.length (selection f (rows (db w)))) /\
  PaginatedResponse.Limit res = AuditLogFilter.Limit f /\
  PaginatedResponse.Offset res = AuditLogFilter.Offset f /\
  PaginatedResponse.HasMore res =
    Z.ltb (int64 (AuditLogFilter.Offset f + AuditLogFilter.Limit f))
      (PaginatedResponse.Total res).
Proof.
  unfold selection.
  rewrite <- (filter_agree _ _ (rows (db w))
                (selected_matches f)).
  pose proof (fun r => selected_more_args f
                [VInt (AuditLogFilter.Limit f);
                 VInt (AuditLogFilter.Offset f)] r) as MA.
  unfold AuditRepository.List_.
  destruct (AuditRepository.buildWhereClause f) as [conds args].
  cbn [fst snd] in *.
  assert (P1 : SQL.param (args ++ [VInt (AuditLogFilter.Limit f);
                                   VInt (AuditLogFilter.Offset f)])
                 (List.length args + 1) =
               Some (VInt (AuditLogFilter.Limit f))).
  { replace (List.length args + 1) with (S (List.length args)) by lia.
    cbn [SQL.param]. rewrite nth_error_app2 by lia.
    now rewrite Nat.sub_diag. }
  assert (P2 : SQL.param (args ++ [VInt (AuditLogFilter.Limit f);
                                   VInt (AuditLogFilter.Offset f)])
                 (List.length args + 2) =
               Some (VInt (AuditLogFilter.Offset f))).
  { replace (List.length args + 2) with (S (S (List.length args))) by lia.
    cbn [SQL.param]. rewrite nth_error_app2 by lia.
    replace (S (List.length args) - List.length args) with 1 by lia.
    reflexivity. }
  destruct w as [[rs ss fs] [ck tk us dr] lg st sn].
  unfold bind, try, SQL.Exec.
  cbn [db env rows faults stmts clock tick ids drawn].
  destruct fs as [|[msg|] [|[msg'|] fs]];
    cbn [SQL.run SQL.reads_clock tl fst snd fail ret with_db with_env db env
         rows faults stmts logs];
    rewrite ?P1, ?P2;
    try (destruct (Z.ltb (AuditLogFilter.Limit f) 0 ||
                   Z.ltb (AuditLogFilter.Offset f) 0)%bool eqn:Neg);
    cbn [SQL.run SQL.reads_clock tl fst snd fail ret with_db with_env db env
         rows faults stmts logs];
    intros H; try discriminate H; injection H as <-;
    apply orb_false_iff in Neg; destruct Neg as [NL NO];
    apply Z.ltb_ge in NL; apply Z.ltb_ge in NO;
    cbn [PaginatedResponse.Data PaginatedResponse.Total
         PaginatedResponse.Limit PaginatedResponse.Offset
         PaginatedResponse.HasMore];
    rewrite length_order_desc;
    rewrite (filter_agree _ _ rs MA);
    (split; [exact NL|]); (split; [exact NO|]); repeat split.
Qed.

Lemma X1_witness_tenant_and_status :
  let conds := fst (AuditRepository.buildWhereClause
                      (Sample2.tenant_status "t1" "failed")) in
  let args := snd (AuditRepository.buildWhereClause
                     (Sample2.tenant_status "t1" "failed")) in
  conds = [mkCond c_tenant_id EQ 1; mkCond c_status EQ 2] /\
  SQL.param args 2 = Some (VText "failed").
Proof.
  cbv zeta.
  destruct (X1_where_clause_parameters_are_positional
              (Sample2.tenant_status "t1" "failed")) as (_ & _ & H).
  split; [reflexivity|].
  destruct (H 1 (mkCond c_status EQ 2) eq_refl) as (_ & v & E & P).
  cbn in E. injection E as <-. exact P.
Defined.


Lemma List_rows f w : rows (db (snd (AuditRepository.List_ f w))) = rows (db w).
Proof.
  pose proof (List_stmts_shape f) as Sh.
  destruct (AuditRepository.buildWhereClause f) as [conds args].
  destruct (Sh w) as (R & _). exact R.
Qed.

(** X3.  The total [List] reports is the number of rows of the table the
    filter selects; it is the same for every limit and offset the same
    filter is listed with.  [List] leaves the table as it is, whether it
    succeeds or fails. *)
Theorem X3_list_total_ignores_pagination :
  forall f w res,
    fst (AuditRepository.List_ f w) = Ok res ->
    PaginatedResponse.Total res =
      Z.of_nat (List.length (List.filter (matches f) (rows (db w)))) /\
    (forall limit offset res',
       fst (AuditRepository.List_ (page_of f limit offset) w) = Ok res' ->
       PaginatedResponse.Total res' = PaginatedResponse.Total res) /\
    (forall f' w',
       rows (db (snd (AuditRepository.List_ f' w'))) = rows (db w')).
Proof.
  intros f w res H.
  destruct (List_Ok f w res H) as (_ & _ & _ & T & _).
  unfold selection in T. rewrite length_order_desc in T.
  split; [exact T|]. split; [|exact List_rows].
  intros limit offset res' H'.
  destruct (List_Ok _ w res' H') as (_ & _ & _ & T' & _).
  unfold selection in T'. rewrite length_order_desc in T'.
  rewrite T, T'. reflexivity.
Qed.

Lemma X3_witness_everything :
  fst (AuditRepository.List_ (Sample2.everything 2 0) Sample2.world) =
    Ok Sample2.first_two /\
  fst (AuditRepository.List_ (Sample2.everything 1 2) Sample2.world) =
    Ok Sample2.last_one /\
  PaginatedResponse.Total Sample2.first_two = 3%Z /\
  PaginatedResponse.Total Sample2.last_one =
    PaginatedResponse.Total Sample2.first_two.
Proof.
  destruct (X3_list_total_ignores_pagination (Sample2.everything 2 0)
              Sample2.world Sample2.first_two eq_refl) as (T & P & _).
  split; [reflexivity|]. split; [reflexivity|]. split; [exact T|].
  exact (P 1%Z 2%Z Sample2.last_one eq_refl).
Defined.



(** X5.  A page [List] returns is ordered by timestamp, newest first. *)
Theorem X5_list_page_is_newest_first :
  forall f w res,
    fst (AuditRepository.List_ f w) = Ok res ->
    descending (PaginatedResponse.Data res).
Proof.
  intros f w res H.
  destruct (List_Ok f w res H) as (_ & _ & D & _). rewrite D.
  apply descending_firstn, descending_skipn, descending_order_desc.
Qed.

Lemma X5_witness_everything :
  fst (AuditRepository.List_ (Sample2.everything 10 0) Sample2.world)
    = Ok Sample2.all_three /\
  descending [Sample2.r2; Sample2.r3; Sample2.r1].
Proof.
  split; [reflexivity|].
  exact (X5_list_page_is_newest_first (Sample2.everything 10 0)
           Sample2.world Sample2.all_three eq_refl).
Defined.








(** *** The by-id operations *)

Lemma filter_has_id_nil id l :
  List.filter (has_id id) l = [] <-> existsb (has_id id) l = false.
Proof.
  induction l as [|a l IH]; cbn; [tauto|].
  destruct (has_id id a); cbn; [split; discriminate | exact IH].
Qed.

Lemma without_no_match id l :
  existsb (has_id id) l = false -> without id l = l.
Proof.
  unfold without. induction l as [|a l IH]; cbn; [reflexivity|].
  destruct (has_id id a); cbn; [discriminate|]. intros H. now rewrite IH.
Qed.

Lemma without_has_none id l : existsb (has_id id) (without id l) = false.
Proof.
  unfold without. induction l as [|a l IH]; cbn; [reflexivity|].
  destruct (has_id id a) eqn:E; cbn; [exact IH | now rewrite E].
Qed.

(** What [DeleteAuditLog] does when no statement is failed by the
    driver. *)
Lemma DeleteAuditLog_eq s id w :
  id <> "" -> faults (db w) = [] ->
  let out := AuditServiceByID.DeleteAuditLog s id w in
  faults (db (snd out)) = [] /\
  if existsb (has_id id) (rows (db w))
  then fst out = Ok tt /\ rows (db (snd out)) = without id (rows (db w))
  else fst out = Fail (Wrap "audit log not found" (New "audit log not found"))
       /\ snd out = w.
Proof.
  intros Hid F. apply String.eqb_neq in Hid.
  unfold AuditServiceByID.DeleteAuditLog. rewrite Hid.
  unfold AuditRepositoryByID.GetByID, AuditRepositoryByID.Delete, bind, try,
    AuditRepositoryByID.Exec.
  destruct w as [[rs ss fs] e lg st sn]. cbn [db faults rows stmts] in *.
  subst fs. cbn [AuditRepositoryByID.run SQL.param nth_error tl].
  change (SQL.is_id (VText id)) with (has_id id).
  destruct (existsb (has_id id) rs) eqn:X.
  - destruct (List.filter (has_id id) rs) as [|a l] eqn:Fl.
    + apply filter_has_id_nil in Fl. congruence.
    + cbn [fst snd with_db db faults rows stmts tl ret fail
           AuditRepositoryByID.run SQL.param nth_error].
      change (SQL.is_id (VText id)) with (has_id id). rewrite Fl.
      cbn [List.length]. 
      destruct (Z.eqb_spec (Z.of_nat (S (List.length l))) 0); [lia|].
      cbn. repeat split.
  - apply filter_has_id_nil in X. rewrite X. cbn. repeat split.
Qed.

(** X8.  [DeleteAuditLog] of an id that some row has, when the database
    does not fail, succeeds and removes the rows of that id and no other
    row: what remains is the table without them, in the same order. *)
Theorem X8_delete_removes_the_rows_of_the_id_only :
  forall s id w,
    id <> "" -> faults (db w) = [] ->
    existsb (has_id id) (rows (db w)) = true ->
    let out := AuditServiceByID.DeleteAuditLog s id w in
    fst out = Ok tt /\
    rows (db (snd out)) = without id (rows (db w)) /\
    (forall r, In r (rows (db (snd out))) <->
               In r (rows (db w)) /\ AuditLog.ID r <> id).
Proof.
  intros s id w Hid F X out.
  destruct (DeleteAuditLog_eq s id w Hid F) as (_ & H). fold out in H.
  rewrite X in H. destruct H as (O & R).
  split; [exact O|]. split; [exact R|].
  intros r. rewrite R. unfold without. rewrite filter_In.
  unfold has_id. rewrite negb_true_iff, String.eqb_neq. reflexivity.
Qed.

Lemma X8_witness_delete_id_3 :
  let out := AuditServiceByID.DeleteAuditLog Sample.service "id-3"
               Sample2.world in
  fst out = Ok tt /\
  rows (db (snd out)) = [Sample2.r1; Sample2.r2].
Proof.
  destruct (X8_delete_removes_the_rows_of_the_id_only Sample.service "id-3"
              Sample2.world) as (O & R & _);
    [discriminate | reflexivity | reflexivity |].
  split; [exact O | exact R].
Defined.

(** X9.  [DeleteAuditLog] of an id that no row has, when the database does
    not fail, fails with the not-found error of the existence check and
    leaves the world as it is.  Hence after any [DeleteAuditLog] of an id
    a second one of the same id fails in that way. *)
Theorem X9_delete_of_absent_id_and_second_delete_fail :
  forall s id w,
    id <> "" -> faults (db w) = [] ->
    let not_found :=
      Fail (Wrap "audit log not found" (New "audit log not found")) in
    (existsb (has_id id) (rows (db w)) = false ->
       AuditServiceByID.DeleteAuditLog s id w = (not_found, w)) /\
    (let w1 := snd (AuditServiceByID.DeleteAuditLog s id w) in
     AuditServiceByID.DeleteAuditLog s id w1 = (not_found, w1)).
Proof.
  intros s id w Hid F not_found.
  assert (A : forall w0, faults (db w0) = [] ->
            existsb (has_id id) (rows (db w0)) = false ->
            AuditServiceByID.DeleteAuditLog s id w0 = (not_found, w0)).
  { intros w0 F0 X0.
    destruct (DeleteAuditLog_eq s id w0 Hid F0) as (_ & H).
    rewrite X0 in H. destruct H as (O & W).
    destruct (AuditServiceByID.DeleteAuditLog s id w0) as [r0 w0'].
    cbn [fst snd] in O, W. now subst. }
  split; [now apply A|].
  intros w1.
  destruct (DeleteAuditLog_eq s id w Hid F) as (F1 & H). fold w1 in F1, H.
  apply A; [exact F1|].
  destruct (existsb (has_id id) (rows (db w))) eqn:X.
  - destruct H as (_ & R). rewrite R. apply without_has_none.
  - destruct H as (_ & W). rewrite W. exact X.
Qed.

Lemma X9_witness_delete_twice :
  let w1 := snd (AuditServiceByID.DeleteAuditLog Sample.service "id-3"
                   Sample2.world) in
  fst (AuditServiceByID.DeleteAuditLog Sample.service "id-3" Sample2.world)
    = Ok tt /\
  fst (AuditServiceByID.DeleteAuditLog Sample.service "id-3" w1) =
    Fail (Wrap "audit log not found" (New "audit log not found")).
Proof.
  intros w1.
  destruct (X9_delete_of_absent_id_and_second_delete_fail Sample.service
              "id-3" Sample2.world) as (_ & T);
    [discriminate | reflexivity |].
  cbv zeta in T. fold w1 in T. split; [reflexivity|]. now rewrite T.
Defined.

(** X10.  When the driver fails the existence check of [DeleteAuditLog],
    the failure comes back wrapped as "audit log not found"; the DELETE
    is not sent (one statement only was attempted) and the table is
    unchanged. *)
Theorem X10_delete_reports_a_failed_lookup_as_not_found :
  forall s id w msg,
    id <> "" -> next_fault w = Some msg ->
    let out := AuditServiceByID.DeleteAuditLog s id w in
    fst out = Fail (Wrap "audit log not found"
                      (Wrap "failed to get audit log" (New msg))) /\
    Err.Error_ (Wrap "audit log not found"
                  (Wrap "failed to get audit log" (New msg))) =
      "audit log not found: failed to get audit log: " ++ msg /\
    rows (db (snd out)) = rows (db w) /\
    faults (db (snd out)) = tl (faults (db w)) /\
    logs (snd out) = logs w.
Proof.
  intros s id w msg Hid F out. apply String.eqb_neq in Hid.
  unfold out, AuditServiceByID.DeleteAuditLog. rewrite Hid.
  unfold AuditRepositoryByID.GetByID, bind, try, AuditRepositoryByID.Exec.
  unfold next_fault in F.
  destruct w as [[rs ss fs] e lg st sn]. cbn [db faults rows stmts] in *.
  destruct fs as [|[m|] fs]; try discriminate. injection F as ->.
  cbn. repeat split.
Qed.

Lemma X10_witness_connection_lost :
  fst (AuditServiceByID.DeleteAuditLog Sample.service "id-3"
         Sample2.world_down) =
    Fail (Wrap "audit log not found"
            (Wrap "failed to get audit log" (New "connection lost"))) /\
  rows (db (snd (AuditServiceByID.DeleteAuditLog Sample.service "id-3"
                   Sample2.world_down))) = [Sample2.r1; Sample2.r2; Sample2.r3].
Proof.
  destruct (X10_delete_reports_a_failed_lookup_as_not_found Sample.service
              "id-3" Sample2.world_down "connection lost")
    as (O & _ & R & _); [discriminate | reflexivity |].
  split; [exact O | exact R].
Defined.

(** X11.  [GetAuditLogByID], when the database does not fail: with a row
    of the id in the table it returns such a row; with
    none it fails with "failed to get audit log: audit log not found"
    and logs it.  The table is unchanged either way. *)
Theorem X11_get_by_id_finds_the_row_or_reports_not_found :
  forall s id w,
    id <> "" -> faults (db w) = [] ->
    let out := AuditServiceByID.GetAuditLogByID s id w in
    rows (db (snd out)) = rows (db w) /\
    (forall r, fst out = Ok r ->
       In r (rows (db w)) /\ AuditLog.ID r = id) /\
    (existsb (has_id id) (rows (db w)) = true -> exists r, fst out = Ok r) /\
    (existsb (has_id id) (rows (db w)) = false ->
       let e := Wrap "failed to get audit log" (New "audit log not found") in
       fst out = Fail e /\
       logs (snd out) =
         (logs w ++ [mkLog ErrorLevel "Failed to get audit log"
                       (Some (New "audit log not found"))])%list).
Proof.
  intros s id w Hid F out. apply String.eqb_neq in Hid.
  unfold out, AuditServiceByID.GetAuditLogByID. rewrite Hid.
  unfold AuditRepositoryByID.GetByID, bind, try, AuditRepositoryByID.Exec.
  destruct w as [[rs ss fs] e lg st sn]. cbn [db faults rows stmts] in *.
  subst fs. cbn [AuditRepositoryByID.run SQL.param nth_error tl].
  change (SQL.is_id (VText id)) with (has_id id).
  destruct (List.filter (has_id id) rs) as [|a l] eqn:Fl.
  - pose proof (proj1 (filter_has_id_nil id rs) Fl) as X.
    cbn. rewrite X.
    split; [reflexivity|]. split; [intros r H; discriminate H|].
    split; [discriminate|]. intros _. repeat split.
  - assert (Ia : In a (List.filter (has_id id) rs)) by (rewrite Fl; now left).
    apply filter_In in Ia. destruct Ia as [Ia Ha].
    assert (X : existsb (has_id id) rs = true).
    { apply existsb_exists. now exists a. }
    cbn. rewrite X.
    split; [reflexivity|]. split.
    + intros r H. injection H as <-.
      split; [exact Ia | now apply String.eqb_eq in Ha].
    + split; [intros _; now exists a | discriminate].
Qed.

Lemma X11_witness_get_id_2 :
  fst (AuditServiceByID.GetAuditLogByID Sample.service "id-2" Sample2.world)
    = Ok Sample2.r2 /\
  AuditLog.ID Sample2.r2 = "id-2" /\
  fst (AuditServiceByID.GetAuditLogByID Sample.service "id-9" Sample2.world)
    = Fail (Wrap "failed to get audit log" (New "audit log not found")).
Proof.
  destruct (X11_get_by_id_finds_the_row_or_reports_not_found Sample.service
              "id-2" Sample2.world) as (_ & G & _);
    [discriminate | reflexivity |].
  destruct (X11_get_by_id_finds_the_row_or_reports_not_found Sample.service
              "id-9" Sample2.world) as (_ & _ & _ & N);
    [discriminate | reflexivity |].
  split; [reflexivity|].
  split; [exact (proj2 (G Sample2.r2 eq_refl))|].
  exact (proj1 (N eq_refl)).
Defined.

(** *** The status update through the service *)

Lemma UpdateStatus_fault id req w msg :
  next_fault w = Some msg ->
  fst (AuditRepository.UpdateStatus id req w) =
    Fail (Wrap "failed to update audit log status" (New msg)) /\
  rows (db (snd (AuditRepository.UpdateStatus id req w))) = rows (db w).
Proof.
  intros F. unfold next_fault in F.
  unfold AuditRepository.UpdateStatus.
  destruct req as [status data meta].
  destruct w as [[rs ss fs] e lg st sn]. cbn [db faults rows] in *.
  destruct fs as [|[m|] fs]; try discriminate. injection F as ->.
  destruct data, meta; cbn; split; reflexivity.
Qed.

Lemma UpdateAuditLogStatus_valid s id req w :
  id <> "" -> UpdateStatusRequest.Status req <> "" ->
  status_rejected s (UpdateStatusRequest.Status req) = false ->
  AuditService.UpdateAuditLogStatus s id req w =
    match AuditRepository.UpdateStatus id req w with
    | (Fail err, w1) =>
        (Fail (Wrap "failed to update audit log status" err),
         with_logs w1 (logs w1 ++
           [mkLog ErrorLevel "Failed to update audit log status"
              (Some err)])%list)
    | (Ok _, w1) =>
        (Ok tt,
         with_logs w1 (logs w1 ++
           [mkLog InfoLevel "Audit log status updated successfully"
              None])%list)
    end.
Proof.
  intros Hid Hst R. apply String.eqb_neq in Hid, Hst.
  unfold AuditService.UpdateAuditLogStatus. rewrite Hid, Hst.
  unfold status_rejected in R. rewrite R.
  unfold bind, try.
  destruct (AuditRepository.UpdateStatus id req w) as [[[]|err] w1];
    reflexivity.
Qed.

(** X12.  [UpdateAuditLogStatus] with a non-empty id and status, when the
    driver does not fail the statement: a status outside an enabled
    vocabulary is refused with the invalid-status error before any
    statement; otherwise the call succeeds exactly when a row has the id,
    and then the rows of the id are partially updated; with no such row
    it fails with "failed to update audit log status: audit log not
    found", and the table is unchanged. *)
Theorem X12_update_status_through_the_service :
  forall s id req w,
    id <> "" -> UpdateStatusRequest.Status req <> "" ->
    next_fault w = None ->
    let status := UpdateStatusRequest.Status req in
    let out := AuditService.UpdateAuditLogStatus s id req w in
    let now := clock (env w) (tick (env w)) in
    (status_rejected s status = true ->
       fst out = Fail (AuditService.invalid_status s status) /\
       db (snd out) = db w) /\
    (status_rejected s status = false ->
       (existsb (has_id id) (rows (db w)) = true ->
          fst out = Ok tt /\
          rows (db (snd out)) =
            map (fun r => if has_id id r then partial_update now req r else r)
              (rows (db w))) /\
       (existsb (has_id id) (rows (db w)) = false ->
          let e := Wrap "failed to update audit log status"
                     (New "audit log not found") in
          fst out = Fail e /\ rows (db (snd out)) = rows (db w))).
Proof.
  intros s id req w Hid Hst F status out now. split.
  - intros R. unfold out, AuditService.UpdateAuditLogStatus.
    apply String.eqb_neq in Hid, Hst. rewrite Hid, Hst.
    unfold status_rejected in R. fold status. rewrite R.
    split; reflexivity.
  - intros R. unfold out.
    rewrite (UpdateAuditLogStatus_valid s id req w Hid Hst R).
    destruct (UpdateStatus_eq id req w F) as [Rw O]. fold now in Rw.
    destruct (AuditRepository.UpdateStatus id req w) as [[[]|err] w1];
      cbn [fst snd] in Rw, O |- *; split; intros X; rewrite X in O;
      try discriminate O.
    + split; [reflexivity | exact Rw].
    + injection O as ->. repeat split.
      cbn [db with_logs]. rewrite Rw. now apply map_no_match.
Qed.

Lemma X12_witness_update_id_1 :
  let out := AuditService.UpdateAuditLogStatus Sample.service "id-1"
               (UpdateStatusRequest.mk "completed" None None) Sample2.world in
  fst out = Ok tt /\
  rows (db (snd out)) =
    [partial_update 1000%Z (UpdateStatusRequest.mk "completed" None None)
       Sample2.r1; Sample2.r2; Sample2.r3].
Proof.
  destruct (X12_update_status_through_the_service Sample.service "id-1"
              (UpdateStatusRequest.mk "completed" None None) Sample2.world)
    as (_ & H); [discriminate | discriminate | reflexivity |].
  exact (proj1 (H eq_refl) eq_refl).
Defined.

(** *** What the service keeps true of the table *)

Lemma status_accepted_In s status :
  AuditConfig.Enabled (Config.Audit (AuditService.config s)) = true ->
  status_rejected s status = false ->
  In status (AuditConfig.StatusValues (Config.Audit (AuditService.config s))).
Proof.
  intros E R. unfold status_rejected, AuditConfig.IsValidStatus in R.
  rewrite E in R. cbn in R. apply negb_false_iff in R. now apply mem_In.
Qed.

Lemma CreateAuditLog_rows s req w :
  let out := AuditService.CreateAuditLog s req w in
  rows (db (snd out)) = rows (db w) \/
  exists r, fst out = Ok r /\
            rows (db (snd out)) = (rows (db w) ++ [r])%list.
Proof.
  cbv zeta.
  destruct (AuditService.CreateAuditLog s req w) as [[r|e] w'] eqn:E.
  - right. exists r. split; [reflexivity|].
    now destruct (CreateAuditLog_Ok_inv _ _ _ _ _ E) as (_ & _ & _ & _ & ?).
  - left. cbn [snd].
    destruct (Validate.Struct req) as [|fe errs] eqn:V.
    2:{ rewrite CreateAuditLog_invalid in E by (rewrite V; discriminate).
        injection E as _ <-. reflexivity. }
    rewrite (CreateAuditLog_valid _ _ _ V) in E. cbv zeta in E.
    destruct (status_rejected s _); [injection E as _ <-; reflexivity|].
    destruct (next_fault w) as [msg|] eqn:F.
    + destruct (Create_fault (AuditService.new_AuditLog req
                  (AuditService.resolve_status s req)) w msg F)
        as (w1 & E1 & R1 & _).
      rewrite E1 in E. injection E as _ <-. exact R1.
    + destruct (Create_ok (AuditService.new_AuditLog req
                  (AuditService.resolve_status s req)) w F) as (w1 & E1 & _).
      rewrite E1 in E. destruct (AuditService.notificationService s);
        discriminate E.
Qed.

Lemma UpdateAuditLogStatus_rows s id req w :
  let out := AuditService.UpdateAuditLogStatus s id req w in
  rows (db (snd out)) = rows (db w) \/
  (fst out = Ok tt /\
   status_rejected s (UpdateStatusRequest.Status req) = false /\
   rows (db (snd out)) =
     map (fun r => if has_id id r
                   then partial_update (clock (env w) (tick (env w))) req r
                   else r) (rows (db w))).
Proof.
  cbv zeta.
  destruct (String.eqb_spec id "") as [->|Hid].
  { left. reflexivity. }
  destruct (String.eqb_spec (UpdateStatusRequest.Status req) "") as [E|Hst].
  { left. unfold AuditService.UpdateAuditLogStatus.
    apply String.eqb_neq in Hid. now rewrite Hid, E. }
  destruct (status_rejected s (UpdateStatusRequest.Status req)) eqn:R.
  { left. unfold AuditService.UpdateAuditLogStatus.
    apply String.eqb_neq in Hid, Hst. rewrite Hid, Hst.
    unfold status_rejected in R. now rewrite R. }
  rewrite (UpdateAuditLogStatus_valid s id req w Hid Hst R).
  destruct (next_fault w) as [msg|] eqn:F.
  - left. destruct (UpdateStatus_fault id req w msg F) as [O Rw].
    destruct (AuditRepository.UpdateStatus id req w) as [[[]|err] w1];
      cbn [fst snd] in O, Rw |- *; [discriminate | exact Rw].
  - destruct (UpdateStatus_eq id req w F) as [Rw O].
    destruct (AuditRepository.UpdateStatus id req w) as [[[]|err] w1];
      cbn [fst snd] in O, Rw |- *.
    + right. repeat split. exact Rw.
    + left. cbn [db with_logs]. rewrite Rw.
      destruct (existsb (has_id id) (rows (db w))) eqn:X;
        [discriminate | now apply map_no_match].
Qed.

(** X13.  With the vocabulary enabled, if every row of the table carries
    a status of the vocabulary, so does every row after a
    [CreateAuditLog] and after an [UpdateAuditLogStatus], whatever the
    request and whether the call succeeds or fails. *)
Theorem X13_statuses_stay_in_the_vocabulary :
  forall s w,
    AuditConfig.Enabled (Config.Audit (AuditService.config s)) = true ->
    statuses_valid s (rows (db w)) ->
    (forall req,
       statuses_valid s
         (rows (db (snd (AuditService.CreateAuditLog s req w))))) /\
    (forall id req,
       statuses_valid s
         (rows (db (snd (AuditService.UpdateAuditLogStatus s id req w))))).
Proof.
  intros s w En Inv. split.
  - intros req.
    destruct (CreateAuditLog_rows s req w) as [R | (r & O & R)]; rewrite R;
      [exact Inv|].
    intros x Hx. apply in_app_or in Hx. destruct Hx as [Hx | [<- | []]];
      [now apply Inv|].
    destruct (AuditService.CreateAuditLog s req w) as [res w'] eqn:E.
    cbn [fst] in O. subst res.
    destruct (CreateAuditLog_Ok_inv _ _ _ _ _ E) as (_ & Rj & _ & -> & _).
    cbn [created AuditService.new_AuditLog AuditLog.Status].
    now apply status_accepted_In.
  - intros id req.
    destruct (UpdateAuditLogStatus_rows s id req w) as [R | (_ & Rj & R)];
      rewrite R; [exact Inv|].
    intros x Hx. apply in_map_iff in Hx. destruct Hx as (r & <- & Hr).
    destruct (has_id id r); [|now apply Inv].
    cbn [partial_update AuditLog.Status]. now apply status_accepted_In.
Qed.

Lemma X13_witness_sample_table :
  statuses_valid Sample.service
    (rows (db (snd (AuditService.CreateAuditLog Sample.service
                      Sample.request_POST Sample2.world)))) /\
  statuses_valid Sample.service
    (rows (db (snd (AuditService.UpdateAuditLogStatus Sample.service "id-1"
                      (UpdateStatusRequest.mk "archived" None None)
                      Sample2.world)))).
Proof.
  assert (I : statuses_valid Sample.service (rows (db Sample2.world))).
  { intros r [<- | [<- | [<- | []]]]; cbn; tauto. }
  destruct (X13_statuses_stay_in_the_vocabulary Sample.service Sample2.world
              eq_refl I) as (C & U).
  split; [apply C | apply U].
Defined.

Lemma GetByID_rows id w :
  rows (db (snd (AuditRepositoryByID.GetByID id w))) = rows (db w).
Proof.
  unfold AuditRepositoryByID.GetByID, bind, try, AuditRepositoryByID.Exec.
  destruct w as [[rs ss fs] en lg st sn]. cbn [db faults rows stmts].
  destruct fs as [|[m|] fs];
    cbn [AuditRepositoryByID.run SQL.param nth_error tl]; try reflexivity;
    destruct (List.filter (SQL.is_id (VText id)) rs); reflexivity.
Qed.

Lemma Delete_rows id w :
  let out := AuditRepositoryByID.Delete id w in
  (fst out = Ok tt /\ rows (db (snd out)) = without id (rows (db w))) \/
  (exists e, fst out = Fail e /\ rows (db (snd out)) = rows (db w)).
Proof.
  cbv zeta.
  unfold AuditRepositoryByID.Delete, bind, try, AuditRepositoryByID.Exec.
  destruct w as [[rs ss fs] en lg st sn]. cbn [db faults rows stmts].
  change (SQL.is_id (VText id)) with (has_id id).
  assert (K : List.filter (AuditRepositoryByID.keep_others (VText id)) rs =
              without id rs) by reflexivity.
  destruct fs as [|[m|] fs];
    cbn [AuditRepositoryByID.run SQL.param nth_error tl fst snd with_db db
         rows];
    change (SQL.is_id (VText id)) with (has_id id);
    try (right; eexists; split; reflexivity);
    (destruct (Z.eqb_spec
                 (Z.of_nat (List.length (List.filter (has_id id) rs))) 0)
       as [Z0|Z0];
     [ right; eexists; split; [reflexivity|];
       cbn [fst snd fail with_db db rows]; rewrite K;
       apply without_no_match; now apply filter_length_zero
     | left; split; [reflexivity | cbn [snd ret with_db db rows]; exact K] ]).
Qed.

Lemma DeleteAuditLog_rows s id w :
  let out := AuditServiceByID.DeleteAuditLog s id w in
  (fst out = Ok tt /\ rows (db (snd out)) = without id (rows (db w))) \/
  (exists e, fst out = Fail e /\ rows (db (snd out)) = rows (db w)).
Proof.
  cbv zeta. unfold AuditServiceByID.DeleteAuditLog.
  destruct (String.eqb id ""); [right; eexists; split; reflexivity|].
  unfold bind, try.
  pose proof (GetByID_rows id w) as G.
  destruct (AuditRepositoryByID.GetByID id w) as [[a|e] w1]; cbn [snd] in G.
  2:{ right. eexists. split; [reflexivity | exact G]. }
  pose proof (Delete_rows id w1) as D. cbv zeta in D.
  destruct (AuditRepositoryByID.Delete id w1) as [[[]|e] w2];
    unfold bind, Sys.logInfo, Sys.logError, ret, fail;
    cbn [fst snd] in D |- *.
  - left. destruct D as [(_ & R) | (e & O & _)]; [|discriminate].
    split; [reflexivity|]. cbn [db with_logs]. now rewrite R, G.
  - right. destruct D as [(O & _) | (e' & _ & R)]; [discriminate|].
    eexists. split; [reflexivity|]. cbn [db with_logs]. now rewrite R, G.
Qed.

(** X14.  A call of [CreateAuditLog], [UpdateAuditLogStatus] or
    [DeleteAuditLog] that returns an error has not changed the table,
    whatever made it fail: a refused request, a failure of the driver or
    a missing row. *)
Theorem X14_a_failed_call_leaves_the_table_unchanged :
  forall s w e,
    (forall req,
       fst (AuditService.CreateAuditLog s req w) = Fail e ->
       rows (db (snd (AuditService.CreateAuditLog s req w))) = rows (db w)) /\
    (forall id req,
       fst (AuditService.UpdateAuditLogStatus s id req w) = Fail e ->
       rows (db (snd (AuditService.UpdateAuditLogStatus s id req w))) =
         rows (db w)) /\
    (forall id,
       fst (AuditServiceByID.DeleteAuditLog s id w) = Fail e ->
       rows (db (snd (AuditServiceByID.DeleteAuditLog s id w))) = rows (db w)).
Proof.
  intros s w e. split; [|split].
  - intros req H.
    destruct (CreateAuditLog_rows s req w) as [R | (r & O & _)];
      [exact R | congruence].
  - intros id req H.
    destruct (UpdateAuditLogStatus_rows s id req w) as [R | (O & _)];
      [exact R | congruence].
  - intros id H.
    destruct (DeleteAuditLog_rows s id w) as [(O & _) | (e' & _ & R)];
      [congruence | exact R].
Qed.

Lemma X14_witness_connection_lost :
  rows (db (snd (AuditService.CreateAuditLog Sample.service
                   Sample.request_POST Sample2.world_down))) =
    [Sample2.r1; Sample2.r2; Sample2.r3] /\
  rows (db (snd (AuditService.UpdateAuditLogStatus Sample.service "id-1"
                   (UpdateStatusRequest.mk "archived" None None)
                   Sample2.world_down))) =
    [Sample2.r1; Sample2.r2; Sample2.r3].
Proof.
  destruct (X14_a_failed_call_leaves_the_table_unchanged Sample.service
              Sample2.world_down
              (Wrap "failed to create audit log"
                 (Wrap "failed to create audit log" (New "connection lost"))))
    as (C & _).
  destruct (X14_a_failed_call_leaves_the_table_unchanged Sample.service
              Sample2.world_down
              (Wrap "failed to update audit log status"
                 (Wrap "failed to update audit log status"
                    (New "connection lost"))))
    as (_ & U & _).
  split; [exact (C Sample.request_POST eq_refl)|].
  exact (U "id-1" (UpdateStatusRequest.mk "archived" None None) eq_refl).
Defined.

(** X15.  A record [CreateAuditLog] persists satisfies the CHECK
    constraints of the table on [method] and [environment]; its tenant,
    user, resource and event are not empty and its [ip] parses. *)
Theorem X15_persisted_record_satisfies_the_table_constraints :
  forall s req w r w',
    AuditService.CreateAuditLog s req w = (Ok r, w') ->
    checks r = true /\
    GoNet.ParseIP (AuditLog.IP r) = true /\
    AuditLog.TenantID r <> "" /\ AuditLog.UserID r <> "" /\
    AuditLog.Resource r <> "" /\ AuditLog.Event r <> "".
Proof.
  intros s req w r w' H.
  destruct (CreateAuditLog_Ok_inv _ _ _ _ _ H) as (V & _ & _ & -> & _).
  destruct (Struct_nil _ V) as (Hm & Hip & Hen & Ht & Hu & Hr & He).
  unfold checks.
  cbn [created AuditService.new_AuditLog AuditLog.Method AuditLog.Environment
       AuditLog.IP AuditLog.TenantID AuditLog.UserID AuditLog.Resource
       AuditLog.Event].
  rewrite (methods_upper _ (proj1 (mem_In _ _) Hm)).
  change ["GET"; "POST"; "PUT"; "DELETE"; "PATCH"] with Validate.methods.
  change ["development"; "staging"; "production"] with Validate.environments.
  rewrite Hm, Hen. auto 10.
Qed.

Lemma X15_witness_POST :
  checks Sample.record_POST = true /\
  GoNet.ParseIP (AuditLog.IP Sample.record_POST) = true /\
  AuditLog.TenantID Sample.record_POST <> "" /\
  AuditLog.UserID Sample.record_POST <> "" /\
  AuditLog.Resource Sample.record_POST <> "" /\
  AuditLog.Event Sample.record_POST <> "".
Proof.
  exact (X15_persisted_record_satisfies_the_table_constraints Sample.service
           Sample.request_POST Sample.world Sample.record_POST
           (snd (AuditService.CreateAuditLog Sample.service
                   Sample.request_POST Sample.world)) eq_refl).
Defined.

(** *** Statistics and listing through the service *)

Lemma filter_length_le {A} (f g : A -> bool) l :
  (forall x, f x = true -> g x = true) ->
  List.length (List.filter f l) <= List.length (List.filter g l).
Proof.
  intros H. induction l as [|a l IH]; cbn; [lia|].
  destruct (f a) eqn:Fa.
  - rewrite (H a Fa). cbn. lia.
  - destruct (g a); cbn; lia.
Qed.

(** X16.  Statistics that [GetAuditLogStats] returns count the rows of the
    tenant and period: [total_logs] all of them, [error_count] those
    whose status is the configured error status; so [error_count] never
    exceeds [total_logs]. *)
Theorem X16_error_count_is_at_most_total_logs :
  forall s tenantID startDate endDate w stats,
    fst (AuditService.GetAuditLogStats s tenantID startDate endDate w)
      = Ok stats ->
    AuditService.total_logs stats =
      count_matching (stats_filter tenantID startDate endDate) (rows (db w)) /\
    AuditService.error_count stats =
      count_matching (stats_error_filter s tenantID startDate endDate)
        (rows (db w)) /\
    (0 <= AuditService.error_count stats <= AuditService.total_logs stats)%Z /\
    AuditService.tenant_id stats = tenantID.
Proof.
  intros s tenantID startDate endDate w stats.
  unfold AuditService.GetAuditLogStats.
  fold (stats_filter tenantID startDate endDate).
  fold (stats_error_filter s tenantID startDate endDate).
  unfold bind, try.
  pose proof (List_Ok (stats_filter tenantID startDate endDate) w) as L1.
  pose proof (List_rows (stats_filter tenantID startDate endDate) w) as R1.
  destruct (AuditRepository.List_ (stats_filter tenantID startDate endDate) w)
    as [[res1|e1] w1]; cbn [fst snd] in L1, R1 |- *; [|discriminate].
  destruct (L1 res1 eq_refl) as (_ & _ & _ & T1 & _).
  pose proof (List_Ok (stats_error_filter s tenantID startDate endDate) w1)
    as L2.
  destruct (AuditRepository.List_
              (stats_error_filter s tenantID startDate endDate) w1)
    as [[res2|e2] w2]; cbn [fst snd] in L2 |- *; [|discriminate].
  destruct (L2 res2 eq_refl) as (_ & _ & _ & T2 & _).
  intros H. injection H as <-.
  cbn [AuditService.total_logs AuditService.error_count
       AuditService.tenant_id].
  unfold selection in T1, T2. rewrite length_order_desc in T1, T2.
  rewrite R1 in T2. unfold count_matching.
  split; [exact T1|]. split; [exact T2|]. split; [|reflexivity].
  rewrite T1, T2. split; [lia|]. apply inj_le.
  apply filter_length_le. intros r.
  unfold matches, stats_error_filter, stats_filter, field_ok.
  cbn [AuditLogFilter.TenantID AuditLogFilter.UserID AuditLogFilter.Resource
       AuditLogFilter.Event AuditLogFilter.Method AuditLogFilter.Status
       AuditLogFilter.Environment AuditLogFilter.StartDate
       AuditLogFilter.EndDate].
  rewrite !andb_true_iff. cbn [String.eqb orb]. tauto.
Qed.

Lemma X16_witness_tenant_t1 :
  let stats := AuditService.mkStats 2 1 0%Z 0%Z "t1" in
  fst (AuditService.GetAuditLogStats Sample.service "t1" 0%Z 0%Z
         Sample2.world) = Ok stats /\
  (0 <= AuditService.error_count stats <= AuditService.total_logs stats)%Z.
Proof.
  intros stats.
  destruct (X16_error_count_is_at_most_total_logs Sample.service "t1" 0%Z 0%Z
              Sample2.world stats eq_refl) as (_ & _ & B & _).
  split; [reflexivity | exact B].
Defined.

Lemma matches_paginate f r :
  matches (AuditService.paginate f) r = matches f r.
Proof.
  unfold AuditService.paginate.
  destruct (Z.leb _ 0), (Z.ltb 1000 _), (Z.ltb _ 0); reflexivity.
Qed.

Lemma ListAuditLogs_page s f w res :
  fst (AuditService.ListAuditLogs s f w) = Ok res ->
  PaginatedResponse.Total res = count_matching f (rows (db w)) /\
  PaginatedResponse.Limit res =
    AuditLogFilter.Limit (AuditService.paginate f) /\
  PaginatedResponse.Offset res =
    AuditLogFilter.Offset (AuditService.paginate f) /\
  (1 <= PaginatedResponse.Limit res <= 1000)%Z /\
  (0 <= PaginatedResponse.Offset res)%Z /\
  (Z.of_nat (List.length (PaginatedResponse.Data res))
     <= PaginatedResponse.Limit res)%Z /\
  (forall r, In r (PaginatedResponse.Data res) ->
             In r (rows (db w)) /\ matches f r = true).
Proof.
  unfold AuditService.ListAuditLogs.
  destruct (_ && _ && _); [discriminate|].
  unfold bind, try.
  pose proof (List_Ok (AuditService.paginate f) w) as L.
  destruct (AuditRepository.List_ (AuditService.paginate f) w)
    as [[res1|e1] w1]; cbn [fst snd] in L |- *; [|discriminate].
  intros H. injection H as <-.
  destruct (L res1 eq_refl) as (_ & _ & D & T & Li & Of & _).
  pose proof (paginate_Limit f) as PL. pose proof (paginate_Offset f) as PO.
  assert (BL : (1 <= AuditLogFilter.Limit (AuditService.paginate f) <= 1000)%Z).
  { rewrite PL. destruct (Z.leb_spec (AuditLogFilter.Limit f) 0); [lia|].
    destruct (Z.ltb_spec 1000 (AuditLogFilter.Limit f)); lia. }
  assert (BO : (0 <= AuditLogFilter.Offset (AuditService.paginate f))%Z).
  { rewrite PO. destruct (Z.ltb_spec (AuditLogFilter.Offset f) 0); lia. }
  assert (Len : (Z.of_nat (List.length (PaginatedResponse.Data res1))
                 <= AuditLogFilter.Limit (AuditService.paginate f))%Z).
  { rewrite D, length_firstn. lia. }
  split.
  { rewrite T. unfold selection, count_matching.
    rewrite length_order_desc.
    now rewrite (filter_agree _ _ _ (matches_paginate f)). }
  split; [exact Li|]. split; [exact Of|].
  rewrite Li, Of. split; [exact BL|]. split; [exact BO|].
  split; [exact Len|].
  intros r Hr. rewrite D in Hr. apply In_firstn, In_skipn in Hr.
  unfold selection in Hr. apply (proj1 (In_order_desc _ _)) in Hr.
  apply (proj1 (filter_In _ _ _)) in Hr. now rewrite matches_paginate in Hr.
Qed.

(** X17.  A response of [ListAuditLogs] reports as total the number of rows
    the caller's filter selects, the clamping of limit and offset leaving
    the selection alone; its page has at most 1000 rows, all of them rows
    of the table that the filter selects, and its limit is between 1 and
    1000 and its offset not negative, whatever limit and offset were
    asked for. *)
Theorem X17_list_response_bounds :
  forall s f w res,
    fst (AuditService.ListAuditLogs s f w) = Ok res ->
    PaginatedResponse.Total res = count_matching f (rows (db w)) /\
    (1 <= PaginatedResponse.Limit res <= 1000)%Z /\
    (0 <= PaginatedResponse.Offset res)%Z /\
    (Z.of_nat (List.length (PaginatedResponse.Data res))
       <= PaginatedResponse.Limit res)%Z /\
    List.length (PaginatedResponse.Data res) <= 1000 /\
    (forall r, In r (PaginatedResponse.Data res) ->
               In r (rows (db w)) /\ matches f r = true).
Proof.
  intros s f w res H.
  destruct (ListAuditLogs_page s f w res H) as (T & _ & _ & L & O & N & M).
  repeat split; try assumption; try lia; now apply M.
Qed.

Lemma X17_witness_huge_limit :
  let res := PaginatedResponse.mk [Sample2.r2; Sample2.r3; Sample2.r1] 3
               1000 0 false in
  fst (AuditService.ListAuditLogs Sample.service
         (Sample2.everything 5000000 (-7)) Sample2.world) = Ok res /\
  (1 <= PaginatedResponse.Limit res <= 1000)%Z.
Proof.
  intros res.
  destruct (X17_list_response_bounds Sample.service
              (Sample2.everything 5000000 (-7)) Sample2.world res eq_refl)
    as (_ & B & _).
  split; [reflexivity | exact B].
Defined.

Lemma ListAuditLogs_inverted s f w :
  AuditService.ListAuditLogs s f w =
    if inverted_range f
    then (Fail (New "start date cannot be after end date"), w)
    else
      match AuditRepository.List_ (AuditService.paginate f) w with
      | (Fail err, w1) =>
          (Fail (Wrap "failed to list audit logs" err),
           with_logs w1 (logs w1 ++
             [mkLog ErrorLevel "Failed to list audit logs" (Some err)])%list)
      | (Ok result, w1) =>
          (Ok result,
           with_logs w1 (logs w1 ++
             [mkLog InfoLevel "Audit logs retrieved successfully"
                None])%list)
      end.
Proof.
  assert (IR : negb (GoTime.IsZero (AuditLogFilter.StartDate
                                      (AuditService.paginate f))) &&
               negb (GoTime.IsZero (AuditLogFilter.EndDate
                                      (AuditService.paginate f))) &&
               GoTime.After (AuditLogFilter.StartDate (AuditService.paginate f))
                 (AuditLogFilter.EndDate (AuditService.paginate f)) =
               inverted_range f).
  { unfold inverted_range, AuditService.paginate.
    destruct (Z.leb _ 0), (Z.ltb 1000 _), (Z.ltb _ 0); reflexivity. }
  unfold AuditService.ListAuditLogs. rewrite IR.
  destruct (inverted_range f); [reflexivity|].
  unfold bind, try.
  destruct (AuditRepository.List_ (AuditService.paginate f) w)
    as [[res|e] w1]; reflexivity.
Qed.

Lemma inverted_range_true f :
  AuditLogFilter.StartDate f <> 0%Z -> AuditLogFilter.EndDate f <> 0%Z ->
  (AuditLogFilter.EndDate f < AuditLogFilter.StartDate f)%Z ->
  inverted_range f = true.
Proof.
  intros S0 E0 Lt. unfold inverted_range, GoTime.IsZero, GoTime.After.
  apply Z.eqb_neq in S0, E0. apply Z.ltb_lt in Lt.
  now rewrite S0, E0, Lt.
Qed.

(** X18.  [ListAuditLogs] refuses a filter whose two dates are given with
    the start after the end: it returns "start date cannot be after end
    date" and leaves the world untouched, no statement being attempted
    and nothing logged.  A filter with equal dates, or with one date
    only, is never refused in this way. *)
Theorem X18_inverted_date_range_is_refused_untouched :
  forall s f w,
    let start := AuditLogFilter.StartDate f in
    let end_ := AuditLogFilter.EndDate f in
    (start <> 0%Z -> end_ <> 0%Z -> (end_ < start)%Z ->
       AuditService.ListAuditLogs s f w =
         (Fail (New "start date cannot be after end date"), w)) /\
    ((start = 0%Z \/ end_ = 0%Z \/ (start <= end_)%Z) ->
       fst (AuditService.ListAuditLogs s f w) <>
         Fail (New "start date cannot be after end date")).
Proof.
  intros s f w start end_. rewrite ListAuditLogs_inverted. split.
  - intros S0 E0 Lt. now rewrite (inverted_range_true f S0 E0 Lt).
  - intros H.
    assert (I : inverted_range f = false).
    { unfold inverted_range, GoTime.IsZero, GoTime.After. fold start end_.
      destruct (Z.eqb_spec start 0); [reflexivity|].
      destruct (Z.eqb_spec end_ 0); [reflexivity|].
      destruct (Z.ltb_spec end_ start); [lia | reflexivity]. }
    rewrite I.
    destruct (AuditRepository.List_ (AuditService.paginate f) w)
      as [[res|e] w1]; cbn; discriminate.
Qed.

Lemma X18_witness_inverted :
  AuditService.ListAuditLogs Sample.service
    (AuditLogFilter.mk "" "" "" "" "" "" "" 300%Z 100%Z 10 0) Sample2.world =
    (Fail (New "start date cannot be after end date"), Sample2.world) /\
  fst (AuditService.ListAuditLogs Sample.service
         (AuditLogFilter.mk "" "" "" "" "" "" "" 200%Z 200%Z 10 0)
         Sample2.world) =
    Ok (PaginatedResponse.mk [Sample2.r3] 1 10 0 false).
Proof.
  destruct (X18_inverted_date_range_is_refused_untouched Sample.service
              (AuditLogFilter.mk "" "" "" "" "" "" "" 300%Z 100%Z 10 0)
              Sample2.world) as (A & _).
  split; [|reflexivity].
  apply A; [discriminate | discriminate | reflexivity].
Defined.

(** *** The result of the notification fan-out *)

Lemma channel_body_result ns a ch w :
  fst (NotificationService.channel_body ns a ch w) =
    match channel_error ns a ch with
    | Some e => Fail e
    | None => Ok tt
    end.
Proof.
  destruct ch; cbn [NotificationService.channel_body channel_error].
  - unfold NotificationService.sendEmailNotification.
    destruct (NotificationService.emailSender ns) as [send|]; [|reflexivity].
    cbv zeta. unfold bind. rewrite email_loop_eq. cbn [fst snd].
    destruct (first_failure _ _) as [[r err]|]; reflexivity.
  - unfold NotificationService.sendSlackNotification.
    destruct (NotificationService.slackSender ns) as [send|]; [|reflexivity].
    cbv zeta. unfold bind, Sys.deliver.
    destruct (send _ _) as [err|]; reflexivity.
  - unfold NotificationService.sendWebhookNotification.
    destruct (NotificationService.webhookSender ns) as [send|]; [|reflexivity].
    cbv zeta. unfold bind. rewrite webhook_loop_eq. cbn [fst snd].
    destruct (first_failure _ _) as [[r err]|]; reflexivity.
Qed.

Lemma collect_result ns a chs w :
  fst (NotificationService.collect ns a chs w) = Ok (failures ns a chs).
Proof.
  revert w. induction chs as [|ch chs IH]; intros w; [reflexivity|].
  cbn [NotificationService.collect failures flat_map].
  fold (failures ns a chs).
  unfold bind at 1. unfold try.
  pose proof (channel_body_result ns a ch w) as R.
  destruct (NotificationService.channel_body ns a ch w) as [[u|e] w1];
    cbn [fst snd] in R |- *;
    destruct (channel_error ns a ch) as [e'|]; try discriminate.
  - apply IH.
  - injection R as ->. unfold bind, Sys.logError. cbn [fst snd].
    match goal with
    | |- context [NotificationService.collect ns a chs ?w0] =>
        specialize (IH w0);
        destruct (NotificationService.collect ns a chs w0) as [[l|e2] w3]
    end; cbn [fst] in IH; [|discriminate].
    injection IH as ->. reflexivity.
Qed.

Lemma SendNotification_result ns sched a w :
  fst (NotificationService.SendNotification ns sched a w) =
    match failures ns a (List.filter (NotificationService.fires ns a)
                           (NotificationService.order sched)) with
    | [] => Ok tt
    | (_ :: _) as msgs =>
        Fail (New ("notification errors: " ++ GoStrings.Join msgs "; "))
    end.
Proof.
  unfold NotificationService.SendNotification.
  destruct (NotificationService.shouldSendNotification ns a) eqn:S;
    cbn [negb].
  2:{ rewrite shouldSend_fires in S.
      apply orb_false_iff in S. destruct S as [S W].
      apply orb_false_iff in S. destruct S as [E S].
      destruct sched; cbn [NotificationService.order List.filter];
        rewrite E, S, W; reflexivity. }
  unfold bind, NotificationService.start_if.
  set (chs := List.filter (NotificationService.fires ns a)
                (NotificationService.order sched)).
  destruct (NotificationService.fires ns a Email),
           (NotificationService.fires ns a Slack),
           (NotificationService.fires ns a Webhook);
  unfold Sys.go, ret; cbn [fst snd];
  match goal with
  | |- context [NotificationService.collect ns a chs ?w0] =>
      pose proof (collect_result ns a chs w0) as C;
      destruct (NotificationService.collect ns a chs w0) as [[l|e] w2];
      cbn [fst snd] in C |- *; [|discriminate];
      injection C as ->; destruct (failures ns a chs); reflexivity
  end.
Qed.

Lemma failures_nil ns a chs :
  failures ns a chs = [] <->
  forall ch, In ch chs -> channel_error ns a ch = None.
Proof.
  induction chs as [|c chs IH]; cbn [failures flat_map].
  - split; [intros _ ch []|reflexivity].
  - fold (failures ns a chs). split.
    + intros H. apply app_eq_nil in H. destruct H as [H1 H2].
      intros ch [<-|I].
      * destruct (channel_error ns a c); [discriminate|reflexivity].
      * now apply (proj1 IH).
    + intros H. rewrite (H c (or_introl eq_refl)). cbn [app].
      apply IH. intros ch I. apply H. now right.
Qed.

Lemma In_order sched ch : In ch (NotificationService.order sched).
Proof. destruct sched, ch; cbn; tauto. Qed.

Lemma failures_In ns a chs ch e :
  In ch chs -> channel_error ns a ch = Some e ->
  In (Err.Error_ (Wrap (NotificationService.channel_failed ch) e))
     (failures ns a chs).
Proof.
  intros I E. unfold failures. apply in_flat_map. exists ch.
  split; [exact I|]. rewrite E. now left.
Qed.

(** X19.  [SendNotification] returns nil exactly when every channel whose
    predicate holds succeeds, whatever the order in which the goroutines
    run; otherwise its error is "notification errors: " followed by the
    texts of the failing channels joined with "; ", one text for each
    channel that fails. *)
Theorem X19_fanout_succeeds_iff_every_fired_channel_succeeds :
  forall ns sched a w,
    let chs := List.filter (NotificationService.fires ns a)
                 (NotificationService.order sched) in
    (fst (NotificationService.SendNotification ns sched a w) = Ok tt <->
     forall ch, NotificationService.fires ns a ch = true ->
                channel_error ns a ch = None) /\
    (forall e,
       fst (NotificationService.SendNotification ns sched a w) = Fail e ->
       e = New ("notification errors: " ++
                GoStrings.Join (failures ns a chs) "; ") /\
       List.length (failures ns a chs) =
         List.length (List.filter
                        (fun ch => match channel_error ns a ch with
                                   | Some _ => true
                                   | None => false
                                   end) chs)).
Proof.
  intros ns sched a w chs. rewrite SendNotification_result. fold chs.
  split.
  - split.
    + intros H ch F.
      assert (N : failures ns a chs = [])
        by (destruct (failures ns a chs); [reflexivity|discriminate]).
      apply (proj1 (failures_nil ns a chs) N).
      apply filter_In. split; [apply In_order | exact F].
    + intros H.
      assert (N : failures ns a chs = []).
      { apply failures_nil. intros ch I. apply filter_In in I.
        apply H, I. }
      now rewrite N.
  - intros e H. split.
    + destruct (failures ns a chs); [discriminate|]. now injection H as <-.
    + clear H. induction chs as [|c l IH]; [reflexivity|].
      cbn [failures flat_map List.filter]. fold (failures ns a l).
      destruct (channel_error ns a c); cbn [app List.length]; now rewrite IH.
Qed.

(** X20.  When a channel's predicate holds and its sender is nil,
    [SendNotification] fails, and among the joined texts is the
    channel's "... notification failed: ... sender not configured". *)
Theorem X20_fired_channel_without_sender_fails_the_fanout :
  forall ns sched a w ch,
    NotificationService.fires ns a ch = true ->
    match ch with
    | Email => NotificationService.emailSender ns = None
    | Slack => NotificationService.slackSender ns = None
    | Webhook => NotificationService.webhookSender ns = None
    end ->
    exists msgs,
      fst (NotificationService.SendNotification ns sched a w) =
        Fail (New ("notification errors: " ++ GoStrings.Join msgs "; ")) /\
      In (match ch with
          | Email => "email notification failed: email sender not configured"
          | Slack => "slack notification failed: slack sender not configured"
          | Webhook =>
              "webhook notification failed: webhook sender not configured"
          end) msgs.
Proof.
  intros ns sched a w ch F N.
  rewrite SendNotification_result.
  set (chs := List.filter (NotificationService.fires ns a)
                (NotificationService.order sched)).
  assert (I : In ch chs)
    by (apply filter_In; split; [apply In_order | exact F]).
  assert (E : exists e, channel_error ns a ch = Some e /\
              Err.Error_ (Wrap (NotificationService.channel_failed ch) e) =
              match ch with
              | Email =>
                  "email notification failed: email sender not configured"
              | Slack =>
                  "slack notification failed: slack sender not configured"
              | Webhook =>
                  "webhook notification failed: webhook sender not configured"
              end).
  { destruct ch; cbn [channel_error]; rewrite N; eexists;
      (split; [reflexivity|reflexivity]). }
  destruct E as (e & E & T).
  pose proof (failures_In ns a chs ch e I E) as M. rewrite T in M.
  exists (failures ns a chs). split; [|exact M].
  destruct (failures ns a chs); [destruct M | reflexivity].
Qed.

Lemma X20_witness_no_slack_sender :
  NotificationService.fires Sample2.notifier_no_slack Sample.record_deleted
    Slack = true /\
  exists msgs,
    fst (NotificationService.SendNotification Sample2.notifier_no_slack
           NotificationService.WSE Sample.record_deleted Sample.world) =
      Fail (New ("notification errors: " ++ GoStrings.Join msgs "; ")) /\
    In "slack notification failed: slack sender not configured" msgs.
Proof.
  split; [reflexivity|].
  exact (X20_fired_channel_without_sender_fails_the_fanout
           Sample2.notifier_no_slack NotificationService.WSE
           Sample.record_deleted Sample.world Slack eq_refl eq_refl).
Defined.

(** *** The handlers *)

Lemma str_app_assoc (a b c : string) : (a ++ b) ++ c = a ++ b ++ c.
Proof. induction a as [|x a IH]; cbn; [reflexivity | now rewrite IH]. Qed.

Lemma Contains_app_r pre s sub :
  GoStrings.Contains s sub = true ->
  GoStrings.Contains (pre ++ s) sub = true.
Proof.
  rewrite !Contains_iff. intros (a & b & ->).
  exists (pre ++ a), b. now rewrite str_app_assoc.
Qed.

Lemma Contains_app_l s post sub :
  GoStrings.Contains s sub = true ->
  GoStrings.Contains (s ++ post) sub = true.
Proof.
  rewrite !Contains_iff. intros (a & b & ->).
  exists a, (b ++ post). now rewrite !str_app_assoc.
Qed.

Lemma CreateAuditLog_Fail_rows s req w e w' :
  AuditService.CreateAuditLog s req w = (Fail e, w') ->
  rows (db w') = rows (db w).
Proof.
  intros E. pose proof (CreateAuditLog_rows s req w) as R. cbv zeta in R.
  rewrite E in R. cbn [fst snd] in R.
  destruct R as [R | (r & X & _)]; [exact R | discriminate X].
Qed.

(** X21.  The create handler answers a bound request that the service
    refuses, because a field fails its validation tags or because the
    status is outside the vocabulary, with 500 and the error "Failed to
    create audit log", and the table is unchanged. *)
Theorem X21_create_handler_answers_a_refused_request_with_500 :
  forall h c req w,
    Gin.ShouldBindJSON c = Ok req ->
    Validate.Struct (AuditHandler.withClientIP req (Gin.ClientIP c)) <> [] \/
    status_rejected h
      (AuditService.resolve_status h
         (AuditHandler.withClientIP req (Gin.ClientIP c))) = true ->
    let out := AuditHandler.CreateAuditLog h c w in
    (exists message,
       fst out = Ok (mkResponse 500
                       (ErrorResponse "Failed to create audit log" message
                          500))) /\
    rows (db (snd out)) = rows (db w).
Proof.
  intros h c req w B R out. unfold out, AuditHandler.CreateAuditLog.
  rewrite B. unfold bind, try.
  destruct (AuditService.CreateAuditLog h
              (AuditHandler.withClientIP req (Gin.ClientIP c)) w)
    as [[a|e] w1] eqn:E.
  - destruct (CreateAuditLog_Ok_inv _ _ _ _ _ E) as (V & S & _).
    destruct R as [R|R]; [contradiction | congruence].
  - split; [eexists; reflexivity|].
    cbn [fst snd]. unfold Sys.logError, respond_error, ret. cbn [fst snd].
    cbn [with_logs db]. exact (CreateAuditLog_Fail_rows _ _ _ _ _ E).
Qed.

Lemma X21_witness_lowercase_method :
  let out := AuditHandler.CreateAuditLog Sample.service
               (Sample2.post Sample.request_post) Sample2.world in
  (exists message,
     fst out = Ok (mkResponse 500
                     (ErrorResponse "Failed to create audit log" message
                        500))) /\
  rows (db (snd out)) = rows (db Sample2.world).
Proof.
  apply (X21_create_handler_answers_a_refused_request_with_500 Sample.service
           (Sample2.post Sample.request_post) Sample.request_post
           Sample2.world eq_refl).
  left. vm_compute. discriminate.
Defined.



(** X23.  The list handler answers a request one of whose parameters
    [start_date], [end_date], [limit] and [offset] is given and does not
    parse with 400, and so does the statistics handler a request that
    lacks [tenant_id], [start_date] or [end_date] or one of whose dates
    does not parse.  Both leave the world untouched: the service is not
    called, nothing is logged and no statement is attempted. *)
Theorem X23_handlers_refuse_malformed_parameters_untouched :
  forall (T : Type) (parseTime : string -> option Time) h (c : Gin.Context T)
         w,
    (malformed parseTime c = true ->
     exists error message,
       AuditHandler.ListAuditLogs parseTime h c w =
         (Ok (mkResponse 400 (ErrorResponse error message 400)), w)) /\
    (Gin.Query c "tenant_id" = "" \/
     Gin.Query c "start_date" = "" \/ Gin.Query c "end_date" = "" \/
     parseTime (Gin.Query c "start_date") = None \/
     parseTime (Gin.Query c "end_date") = None ->
     exists error message,
       AuditHandler.GetAuditLogStats parseTime h c w =
         (Ok (mkResponse 400 (ErrorResponse error message 400)), w)).
Proof.
  intros T parseTime h c w. split.
  - intros M.
    unfold malformed, unparsed in M. unfold AuditHandler.ListAuditLogs.
    destruct (String.eqb (Gin.Query c "start_date") "");
      [|destruct (parseTime (Gin.Query c "start_date"));
        [|eexists; eexists; reflexivity]];
    (destruct (String.eqb (Gin.Query c "end_date") "");
      [|destruct (parseTime (Gin.Query c "end_date"));
        [|eexists; eexists; reflexivity]]);
    (destruct (String.eqb (Gin.Query c "limit") "");
      [|destruct (GoStrconv.Atoi (Gin.Query c "limit"));
        [|eexists; eexists; reflexivity]]);
    (destruct (String.eqb (Gin.Query c "offset") "");
      [|destruct (GoStrconv.Atoi (Gin.Query c "offset"));
        [|eexists; eexists; reflexivity]]);
    discriminate M.
  - intros M. unfold AuditHandler.GetAuditLogStats.
    destruct (String.eqb_spec (Gin.Query c "tenant_id") "") as [E1|E1];
      [eexists; eexists; reflexivity|].
    destruct (String.eqb_spec (Gin.Query c "start_date") "") as [E2|E2];
      [eexists; eexists; reflexivity|].
    destruct (String.eqb_spec (Gin.Query c "end_date") "") as [E3|E3];
      [eexists; eexists; reflexivity|].
    cbn [orb].
    destruct (parseTime (Gin.Query c "start_date")) as [t1|];
      [|eexists; eexists; reflexivity].
    destruct (parseTime (Gin.Query c "end_date")) as [t2|];
      [|eexists; eexists; reflexivity].
    destruct M as [M|[M|[M|[M|M]]]]; congruence.
Qed.

Lemma X23_witness_limit_ten_x :
  (exists error message,
     AuditHandler.ListAuditLogs Sample2.parseTime Sample.service
       (Sample2.get [("tenant_id", "t1"); ("limit", "10x")]) Sample2.world =
       (Ok (mkResponse 400 (ErrorResponse error message 400)),
        Sample2.world)) /\
  (exists error message,
     AuditHandler.GetAuditLogStats Sample2.parseTime Sample.service
       (Sample2.get [("tenant_id", "t1");
                     ("start_date", "2024-01-01T00:00:00Z")])
       Sample2.world =
       (Ok (mkResponse 400 (ErrorResponse error message 400)),
        Sample2.world)).
Proof.
  split.
  - exact (proj1 (X23_handlers_refuse_malformed_parameters_untouched unit
                    Sample2.parseTime Sample.service
                    (Sample2.get [("tenant_id", "t1"); ("limit", "10x")])
                    Sample2.world) eq_refl).
  - exact (proj2 (X23_handlers_refuse_malformed_parameters_untouched unit
                    Sample2.parseTime Sample.service
                    (Sample2.get [("tenant_id", "t1");
                                  ("start_date", "2024-01-01T00:00:00Z")])
                    Sample2.world) (or_intror (or_intror (or_introl eq_refl)))).
Defined.

Lemma matches_fields f r :
  matches f r = true ->
  matches (AuditLogFilter.mk (AuditLogFilter.TenantID f)
             (AuditLogFilter.UserID f) (AuditLogFilter.Resource f)
             (AuditLogFilter.Event f) (AuditLogFilter.Method f)
             (AuditLogFilter.Status f) (AuditLogFilter.Environment f)
             0%Z 0%Z 0%Z 0%Z) r = true.
Proof.
  unfold matches.
  cbn [AuditLogFilter.TenantID AuditLogFilter.UserID AuditLogFilter.Resource
       AuditLogFilter.Event AuditLogFilter.Method AuditLogFilter.Status
       AuditLogFilter.Environment AuditLogFilter.StartDate
       AuditLogFilter.EndDate].
  change (GoTime.IsZero 0%Z) with true. cbn [orb].
  rewrite !andb_true_iff. tauto.
Qed.

(** X24.  When the list handler answers 200, the body is a page whose
    limit is between 1 and 1000, and 50 when no [limit] was given, whose
    offset is not negative, and 0 when no [offset] was given, which has
    no more rows than its limit, and all of whose rows are rows of the
    table that agree with every field the request gives. *)
Theorem X24_list_handler_page_is_bounded_and_selected :
  forall (T : Type) (parseTime : string -> option Time) h (c : Gin.Context T)
         w resp,
    fst (AuditHandler.ListAuditLogs parseTime h c w) = Ok resp ->
    code resp = 200%Z ->
    exists page,
      body resp = PageBody page /\
      (1 <= PaginatedResponse.Limit page <= 1000)%Z /\
      (0 <= PaginatedResponse.Offset page)%Z /\
      (Gin.Query c "limit" = "" -> PaginatedResponse.Limit page = 50%Z) /\
      (Gin.Query c "offset" = "" -> PaginatedResponse.Offset page = 0%Z) /\
      (Z.of_nat (List.length (PaginatedResponse.Data page))
         <= PaginatedResponse.Limit page)%Z /\
      (forall r, In r (PaginatedResponse.Data page) ->
                 In r (rows (db w)) /\ matches (asked_fields c) r = true).
Proof.
  intros T parseTime h c w resp. unfold AuditHandler.ListAuditLogs.
  destruct (if String.eqb (Gin.Query c "start_date") "" then _ else _)
    as [startDate|]; [|intros H; injection H as <-; discriminate].
  destruct (if String.eqb (Gin.Query c "end_date") "" then _ else _)
    as [endDate|]; [|intros H; injection H as <-; discriminate].
  destruct (if String.eqb (Gin.Query c "limit") "" then _ else _)
    as [limit|] eqn:EL; [|intros H; injection H as <-; discriminate].
  destruct (if String.eqb (Gin.Query c "offset") "" then _ else _)
    as [offset|] eqn:EO; [|intros H; injection H as <-; discriminate].
  unfold bind, try.
  match goal with
  | |- context [AuditService.ListAuditLogs h ?f0 w] =>
      set (f := f0);
      pose proof (ListAuditLogs_page h f w) as P;
      destruct (AuditService.ListAuditLogs h f w) as [[page|e] w1]
  end; cbn [fst snd] in P |- *.
  2:{ unfold Sys.logError, respond_error, ret. cbn [fst].
      intros H; injection H as <-; discriminate. }
  unfold ret. cbn [fst]. intros H; injection H as <-. intros _.
  destruct (P page eq_refl) as (_ & Li & Of & BL & BO & Len & Sel).
  exists page. split; [reflexivity|]. split; [exact BL|]. split; [exact BO|].
  split; [|split; [|split; [exact Len|]]].
  - intros Q. rewrite Q in EL. cbn in EL. injection EL as <-.
    rewrite Li, paginate_Limit. reflexivity.
  - intros Q. rewrite Q in EO. cbn in EO. injection EO as <-.
    rewrite Of, paginate_Offset. reflexivity.
  - intros r Hr. destruct (Sel r Hr) as [I M]. split; [exact I|].
    exact (matches_fields f r M).
Qed.

Lemma X24_witness_tenant_t1 :
  exists page,
    body (mkResponse 200 (PageBody Sample2.of_t1_default)) = PageBody page /\
    (1 <= PaginatedResponse.Limit page <= 1000)%Z.
Proof.
  destruct (X24_list_handler_page_is_bounded_and_selected unit
              Sample2.parseTime Sample.service
              (Sample2.get [("tenant_id", "t1")]) Sample2.world
              (mkResponse 200 (PageBody Sample2.of_t1_default))
              eq_refl eq_refl) as (page & B & L & _).
  exists page. exact (conj B L).
Defined.

(** X25.  The list handler answers a request whose two dates parse, with
    the start after the end, with 500 and the message "start date cannot
    be after end date"; the database is not touched. *)
Theorem X25_list_handler_answers_an_inverted_range_with_500 :
  forall (T : Type) (parseTime : string -> option Time) h (c : Gin.Context T)
         w start end_,
    Gin.Query c "start_date" <> "" -> Gin.Query c "end_date" <> "" ->
    parseTime (Gin.Query c "start_date") = Some start ->
    parseTime (Gin.Query c "end_date") = Some end_ ->
    start <> 0%Z -> end_ <> 0%Z -> (end_ < start)%Z ->
    unparsed GoStrconv.Atoi (Gin.Query c "limit") = false ->
    unparsed GoStrconv.Atoi (Gin.Query c "offset") = false ->
    let out := AuditHandler.ListAuditLogs parseTime h c w in
    fst out =
      Ok (mkResponse 500
            (ErrorResponse "Failed to retrieve audit logs"
               "start date cannot be after end date" 500)) /\
    db (snd out) = db w.
Proof.
  intros T parseTime h c w start end_ Hs He Ps Pe S0 E0 Lt UL UO out.
  unfold out, AuditHandler.ListAuditLogs.
  apply String.eqb_neq in Hs, He. rewrite Hs, He, Ps, Pe.
  unfold unparsed in UL, UO.
  destruct (String.eqb (Gin.Query c "limit") "");
    [|destruct (GoStrconv.Atoi (Gin.Query c "limit")); [|discriminate UL]];
  (destruct (String.eqb (Gin.Query c "offset") "");
    [|destruct (GoStrconv.Atoi (Gin.Query c "offset")); [|discriminate UO]]);
  unfold bind, try;
  rewrite ListAuditLogs_inverted;
  rewrite inverted_range_true by assumption;
  split; reflexivity.
Qed.

Lemma X25_witness_march_to_january :
  let out := AuditHandler.ListAuditLogs Sample2.parseTime Sample.service
               (Sample2.get [("start_date", "2024-03-01T00:00:00Z");
                             ("end_date", "2024-01-01T00:00:00Z")])
               Sample2.world in
  fst out =
    Ok (mkResponse 500
          (ErrorResponse "Failed to retrieve audit logs"
             "start date cannot be after end date" 500)) /\
  db (snd out) = db Sample2.world.
Proof.
  apply (X25_list_handler_answers_an_inverted_range_with_500 unit
           Sample2.parseTime Sample.service
           (Sample2.get [("start_date", "2024-03-01T00:00:00Z");
                         ("end_date", "2024-01-01T00:00:00Z")])
           Sample2.world 300%Z 100%Z);
    first [reflexivity | discriminate].
Defined.

Lemma invalid_status_text s status :
  Err.Error_ (AuditService.invalid_status s status) =
    "invalid status" ++ " '" ++ status ++ "', must be one of: " ++
    GoStrings.Join
      (AuditConfig.StatusValues (Config.Audit (AuditService.config s))) ", ".
Proof. reflexivity. Qed.

(** X26.  The status handler, for a request with an id and a bound body,
    when the driver does not fail the statement: an empty status is
    answered with 500; a status outside the vocabulary with 400, unless
    the error text contains "not found", as it does when the status
    itself does, and then with 404; an accepted status with 200 when a
    row has the id and with 404 when none has.  Whenever the answer is
    not 200 the table is unchanged. *)
Theorem X26_status_handler_maps_errors_by_their_text :
  forall h c req w,
    Gin.Param c "id" <> "" ->
    Gin.ShouldBindJSON c = Ok req ->
    next_fault w = None ->
    let id := Gin.Param c "id" in
    let status := UpdateAuditLogStatusRequest.Status req in
    let invalid := Err.Error_ (AuditService.invalid_status h status) in
    let out := AuditHandler.UpdateAuditLogStatus h c w in
    (status = "" ->
       fst out =
         Ok (mkResponse 500
               (ErrorResponse "Failed to update audit log status"
                  "status is required" 500))) /\
    (status <> "" -> status_rejected h status = true ->
       (GoStrings.Contains invalid "not found" = false ->
          fst out = Ok (mkResponse 400
                          (ErrorResponse "Invalid status" invalid 400))) /\
       (GoStrings.Contains status "not found" = true ->
          fst out = Ok (mkResponse 404
                          (ErrorResponse "Audit log not found" invalid
                             404)))) /\
    (status <> "" -> status_rejected h status = false ->
       (existsb (has_id id) (rows (db w)) = true ->
          fst out =
            Ok (mkResponse 200
                  (UpdatedBody "Audit log status updated successfully" id
                     status))) /\
       (existsb (has_id id) (rows (db w)) = false ->
          fst out =
            Ok (mkResponse 404
                  (ErrorResponse "Audit log not found"
                     "failed to update audit log status: audit log not found"
                     404)))) /\
    (forall resp, fst out = Ok resp -> code resp <> 200%Z ->
                  rows (db (snd out)) = rows (db w)).
Proof.
  intros h c req w Hid B F id status invalid out.
  assert (Hid' : String.eqb id "" = false) by now apply String.eqb_neq.
  unfold out, AuditHandler.UpdateAuditLogStatus. fold id. rewrite Hid', B.
  set (updateReq := UpdateStatusRequest.mk _ _ _).
  assert (St : UpdateStatusRequest.Status updateReq = status) by reflexivity.
  unfold bind, try.
  split; [|split; [|split]].
  - intros E.
    assert (S : AuditService.UpdateAuditLogStatus h id updateReq w =
                (Fail (New "status is required"), w)).
    { unfold AuditService.UpdateAuditLogStatus. now rewrite Hid', St, E. }
    rewrite S. reflexivity.
  - intros Hst R.
    assert (S : fst (AuditService.UpdateAuditLogStatus h id updateReq w) =
                Fail (AuditService.invalid_status h status)).
    { unfold AuditService.UpdateAuditLogStatus. rewrite Hid', St.
      apply String.eqb_neq in Hst. rewrite Hst.
      unfold status_rejected in R. rewrite R. reflexivity. }
    destruct (AuditService.UpdateAuditLogStatus h id updateReq w)
      as [[u|e] w1]; cbn [fst snd] in S |- *; [discriminate|].
    injection S as ->. fold invalid.
    assert (I : GoStrings.Contains invalid "invalid status" = true).
    { unfold invalid. rewrite invalid_status_text.
      apply Contains_app_l. reflexivity. }
    split.
    + intros N. rewrite N, I. reflexivity.
    + intros N.
      assert (C : GoStrings.Contains invalid "not found" = true).
      { unfold invalid. rewrite invalid_status_text.
        apply Contains_app_r, Contains_app_r, Contains_app_l. exact N. }
      rewrite C. reflexivity.
  - intros Hst R.
    assert (Hid2 : id <> "") by exact Hid.
    assert (Hst2 : UpdateStatusRequest.Status updateReq <> "")
      by (rewrite St; exact Hst).
    assert (R2 : status_rejected h (UpdateStatusRequest.Status updateReq)
                 = false) by (rewrite St; exact R).
    rewrite (UpdateAuditLogStatus_valid h id updateReq w Hid2 Hst2 R2).
    destruct (UpdateStatus_eq id updateReq w F) as [_ O].
    destruct (AuditRepository.UpdateStatus id updateReq w) as [[[]|err] w1];
      cbn [fst snd] in O |- *; split; intros X; rewrite X in O;
      try discriminate O.
    + reflexivity.
    + injection O as ->. reflexivity.
  - intros resp.
    pose proof (UpdateAuditLogStatus_rows h id updateReq w) as Rw.
    cbv zeta in Rw.
    destruct (AuditService.UpdateAuditLogStatus h id updateReq w)
      as [[u|e] w1]; cbn [fst snd] in Rw |- *.
    + unfold ret. cbn [fst]. intros H. injection H as <-. intros N. now elim N.
    + destruct Rw as [Rw | (X & _)]; [|discriminate X]. intros _ _.
      destruct (GoStrings.Contains (Err.Error_ e) "not found");
        [exact Rw|].
      destruct (GoStrings.Contains (Err.Error_ e) "invalid status");
        exact Rw.
Qed.

Lemma X26_witness_status_not_found :
  fst (AuditHandler.UpdateAuditLogStatus Sample.service
         (Sample2.put_status "id-1" "not found") Sample2.world) =
    Ok (mkResponse 404
          (ErrorResponse "Audit log not found"
             (Err.Error_
                (AuditService.invalid_status Sample.service "not found"))
             404)) /\
  fst (AuditHandler.UpdateAuditLogStatus Sample.service
         (Sample2.put_status "id-1" "") Sample2.world) =
    Ok (mkResponse 500
          (ErrorResponse "Failed to update audit log status"
             "status is required" 500)).
Proof.
  destruct (X26_status_handler_maps_errors_by_their_text Sample.service
              (Sample2.put_status "id-1" "not found")
              (UpdateAuditLogStatusRequest.mk "not found" None None)
              Sample2.world) as (_ & A & _);
    [discriminate | reflexivity | reflexivity |].
  destruct (X26_status_handler_maps_errors_by_their_text Sample.service
              (Sample2.put_status "id-1" "")
              (UpdateAuditLogStatusRequest.mk "" None None)
              Sample2.world) as (E & _);
    [discriminate | reflexivity | reflexivity |].
  split.
  - refine (proj2 (A _ eq_refl) eq_refl). discriminate.
  - exact (E eq_refl).
Defined.

(** X27.  When the driver fails the statement, the handlers that act on
    the record of an id answer 404, never 500: [GetAuditLog] with "Audit
    log not found" and [DeleteAuditLog] with "Failed to delete audit
    log", the driver's text at the end of the message; the table is
    unchanged. *)
Theorem X27_by_id_handlers_answer_a_database_failure_with_404 :
  forall (T : Type) h (c : Gin.Context T) w msg,
    Gin.Param c "id" <> "" ->
    next_fault w = Some msg ->
    let get := AuditHandler.GetAuditLog h c w in
    let del := AuditHandler.DeleteAuditLog h c w in
    fst get =
      Ok (mkResponse 404
            (ErrorResponse "Audit log not found"
               ("failed to get audit log: failed to get audit log: " ++ msg)
               404)) /\
    fst del =
      Ok (mkResponse 404
            (ErrorResponse "Failed to delete audit log"
               ("audit log not found: failed to get audit log: " ++ msg)
               404)) /\
    rows (db (snd get)) = rows (db w) /\
    rows (db (snd del)) = rows (db w).
Proof.
  intros T h c w msg Hid F get del.
  apply String.eqb_neq in Hid. unfold next_fault in F.
  unfold get, del, AuditHandler.GetAuditLog, AuditHandler.DeleteAuditLog,
    AuditServiceByID.GetAuditLogByID, AuditServiceByID.DeleteAuditLog.
  rewrite Hid.
  unfold AuditRepositoryByID.GetByID, bind, try, AuditRepositoryByID.Exec.
  destruct w as [[rs ss fs] e lg st sn]. cbn [db faults rows stmts] in *.
  destruct fs as [|[m|] fs]; try discriminate. injection F as ->.
  repeat split.
Qed.

Lemma X27_witness_connection_lost :
  fst (AuditHandler.DeleteAuditLog Sample.service (Sample2.on_id "id-1")
         Sample2.world_down) =
    Ok (mkResponse 404
          (ErrorResponse "Failed to delete audit log"
             "audit log not found: failed to get audit log: connection lost"
             404)) /\
  rows (db (snd (AuditHandler.DeleteAuditLog Sample.service
                   (Sample2.on_id "id-1") Sample2.world_down))) =
    [Sample2.r1; Sample2.r2; Sample2.r3].
Proof.
  destruct (X27_by_id_handlers_answer_a_database_failure_with_404 unit
              Sample.service (Sample2.on_id "id-1") Sample2.world_down
              "connection lost") as (_ & D & _ & R);
    [discriminate | reflexivity |].
  exact (conj D R).
Defined.

(** *** The authentication middleware *)

Lemma try_api_key_accepts am c :
  accepts (AuthMiddleware.try_api_key am c) =
  accepts (AuthMiddleware.APIKeyAuth am c).
Proof.
  unfold AuthMiddleware.try_api_key, AuthMiddleware.APIKeyAuth.
  destruct (String.eqb (AuthMiddleware.apiKey c) ""); [reflexivity|].
  destruct (GoStrings.mem _ _); reflexivity.
Qed.

(** X28.  [OptionalAuth] lets a request through exactly when [JWTAuth] or
    [APIKeyAuth] would, and otherwise answers 401.  [APIKeyAuth] lets a
    request through exactly when its key, which is the header [X-API-Key]
    or, only if that is empty, the query parameter [api_key], is not
    empty and is one of the configured keys: a wrong header is not
    repaired by a right query parameter, and an empty configured key
    admits no one. *)
Theorem X28_optional_auth_accepts_what_either_scheme_accepts :
  forall (Parse : string -> string -> Result JWT.Token) am c,
    accepts (AuthMiddleware.OptionalAuth Parse am c) =
      accepts (AuthMiddleware.JWTAuth Parse am c) ||
      accepts (AuthMiddleware.APIKeyAuth am c) /\
    (accepts (AuthMiddleware.APIKeyAuth am c) = true <->
       AuthMiddleware.apiKey c <> "" /\
       In (AuthMiddleware.apiKey c) (AuthConfig.APIKeys am)) /\
    (AuthContext.GetHeader c "X-API-Key" <> "" ->
       AuthMiddleware.apiKey c = AuthContext.GetHeader c "X-API-Key") /\
    (accepts (AuthMiddleware.OptionalAuth Parse am c) = false ->
       AuthMiddleware.OptionalAuth Parse am c =
         (Abort 401 "Valid authentication is required (JWT token or API key)",
          ["No valid authentication provided"])).
Proof.
  intros Parse am c. split; [|split; [|split]].
  - unfold AuthMiddleware.OptionalAuth, AuthMiddleware.JWTAuth.
    destruct (GoStrings.HasPrefix _ _); cbn [negb];
      [|now rewrite try_api_key_accepts].
    destruct (Parse _ _) as [token|e]; [|now rewrite try_api_key_accepts].
    destruct (JWT.Valid token); cbn [negb];
      [|now rewrite try_api_key_accepts].
    destruct (JWT.Claims token); reflexivity.
  - unfold AuthMiddleware.APIKeyAuth.
    destruct (String.eqb_spec (AuthMiddleware.apiKey c) "") as [E|E].
    + split; [discriminate | tauto].
    + destruct (GoStrings.mem _ _) eqn:M; cbn [negb]; unfold accepts;
        cbn [fst]; rewrite <- mem_In, M; split;
        try tauto; try discriminate; intros [_ X]; discriminate X.
  - intros H. unfold AuthMiddleware.apiKey.
    apply String.eqb_neq in H.
    change AuthMiddleware.apiKeyHeader with "X-API-Key". now rewrite H.
  - unfold AuthMiddleware.OptionalAuth.
    assert (K : accepts (AuthMiddleware.try_api_key am c) = false ->
                AuthMiddleware.try_api_key am c =
                (Abort 401
                   "Valid authentication is required (JWT token or API key)",
                 ["No valid authentication provided"])).
    { unfold AuthMiddleware.try_api_key.
      destruct (_ && _); [discriminate | reflexivity]. }
    destruct (GoStrings.HasPrefix _ _); [|exact K].
    destruct (Parse _ _) as [token|e]; [|exact K].
    destruct (JWT.Valid token); [|exact K].
    destruct (JWT.Claims token); discriminate.
Qed.

Lemma Get_Set_other c k v k' :
  String.eqb k k' = false ->
  AuthContext.Get (AuthContext.Set_ c k v) k' = AuthContext.Get c k'.
Proof.
  intros H. unfold AuthContext.Get, AuthContext.Set_.
  cbn [AuthContext.Keys List.find fst]. now rewrite H.
Qed.

(** X29.  A request that [OptionalAuth] lets through on its API key,
    [JWTAuth] refusing it, carries the mark "api_key" and neither tenant
    nor roles: [RequireTenant] and [RequireRole] answer it with 403,
    whatever tenant or role they require. *)
Theorem X29_api_key_requests_carry_no_tenant_and_no_roles :
  forall (Parse : string -> string -> Result JWT.Token) am c c' tenant role,
    AuthContext.Keys c = [] ->
    accepts (AuthMiddleware.JWTAuth Parse am c) = false ->
    fst (AuthMiddleware.OptionalAuth Parse am c) = Next c' ->
    AuthContext.Get c' "auth_type" = Some (JString "api_key") /\
    AuthMiddleware.RequireTenant tenant c' =
      (Abort 403 "Tenant information not available", []) /\
    AuthMiddleware.RequireRole role c' =
      (Abort 403 "Role information not available", []).
Proof.
  intros Parse am c c' tenant role K J O.
  assert (T : fst (AuthMiddleware.try_api_key am c) = Next c').
  { revert J O. unfold AuthMiddleware.OptionalAuth, AuthMiddleware.JWTAuth.
    destruct (GoStrings.HasPrefix _ _); cbn [negb]; [|intros _ O; exact O].
    destruct (Parse _ _) as [token|e]; [|intros _ O; exact O].
    destruct (JWT.Valid token); cbn [negb]; [|intros _ O; exact O].
    destruct (JWT.Claims token); discriminate. }
  unfold AuthMiddleware.try_api_key in T.
  destruct (_ && _); [|discriminate T]. cbn [fst] in T. injection T as <-.
  split; [reflexivity|].
  unfold AuthMiddleware.RequireTenant, AuthMiddleware.RequireRole.
  rewrite !Get_Set_other by reflexivity.
  unfold AuthContext.Get. rewrite K. cbn [List.find].
  split; reflexivity.
Qed.

Lemma X29_witness_key_1 :
  let c := Sample2.headers [("X-API-Key", "key-1")] in
  let c' := AuthContext.Set_ c "auth_type" (JString "api_key") in
  AuthMiddleware.RequireTenant "t1" c' =
    (Abort 403 "Tenant information not available", []) /\
  AuthMiddleware.RequireRole "admin" c' =
    (Abort 403 "Role information not available", []).
Proof.
  intros c c'.
  exact (proj2 (X29_api_key_requests_carry_no_tenant_and_no_roles
                  Sample2.parseToken Sample2.auth c c' "t1" "admin"
                  eq_refl eq_refl eq_refl)).
Defined.

(** X30.  A request that [JWTAuth] lets through has its tenant taken from
    the claim [tenant_id] of the token.  [RequireTenant] then lets it
    through when that claim is the required tenant, answers 403 when it
    is another string, and panics when the token has no such claim or the
    claim is not a string. *)
Theorem X30_tenant_check_after_jwt :
  forall (Parse : string -> string -> Result JWT.Token) am c c' token claims
         tenant,
    GoStrings.HasPrefix (AuthContext.GetHeader c "Authorization") "Bearer "
      = true ->
    Parse (AuthMiddleware.TrimPrefix (AuthContext.GetHeader c "Authorization")
             "Bearer ") (AuthConfig.JWTSecret am) = Ok token ->
    JWT.Valid token = true ->
    JWT.Claims token = Some claims ->
    fst (AuthMiddleware.JWTAuth Parse am c) = Next c' ->
    AuthContext.Get c' "tenant_id" = Some (JWT.claim claims "tenant_id") /\
    fst (AuthMiddleware.RequireTenant tenant c') =
      match JWT.claim claims "tenant_id" with
      | JString t =>
          if String.eqb t tenant then Next c'
          else Abort 403 "Access denied for this tenant"
      | _ => Panic
      end /\
    (List.find (fun p => String.eqb (fst p) "tenant_id") claims = None ->
     fst (AuthMiddleware.RequireTenant tenant c') = Panic).
Proof.
  intros Parse am c c' token claims tenant H P V C.
  unfold AuthMiddleware.JWTAuth.
  change AuthMiddleware.authorizationHeader with "Authorization".
  change AuthMiddleware.bearerPrefix with "Bearer ".
  rewrite H, P, V, C. cbn [negb fst]. intros N. injection N as <-.
  assert (G : AuthContext.Get (AuthMiddleware.set_claims c claims) "tenant_id"
              = Some (JWT.claim claims "tenant_id")) by reflexivity.
  split; [exact G|].
  assert (R : fst (AuthMiddleware.RequireTenant tenant
                     (AuthMiddleware.set_claims c claims)) =
              match JWT.claim claims "tenant_id" with
              | JString t =>
                  if String.eqb t tenant
                  then Next (AuthMiddleware.set_claims c claims)
                  else Abort 403 "Access denied for this tenant"
              | _ => Panic
              end).
  { unfold AuthMiddleware.RequireTenant. rewrite G.
    destruct (JWT.claim claims "tenant_id"); try reflexivity.
    destruct (String.eqb s tenant); reflexivity. }
  split; [exact R|].
  intros A. rewrite R. unfold JWT.claim. now rewrite A.
Qed.

Lemma X30_witness_token_without_tenant :
  let c := Sample2.headers [("Authorization", "Bearer good")] in
  let claims := [("sub", JString "u1"); ("roles", JArray [JString "admin"])] in
  fst (AuthMiddleware.JWTAuth Sample2.parseToken Sample2.auth c) =
    Next (AuthMiddleware.set_claims c claims) /\
  fst (AuthMiddleware.RequireTenant "t1" (AuthMiddleware.set_claims c claims))
    = Panic.
Proof.
  intros c claims. split; [reflexivity|].
  exact (proj2 (proj2 (X30_tenant_check_after_jwt Sample2.parseToken
                         Sample2.auth c (AuthMiddleware.set_claims c claims)
                         (JWT.mkToken true (Some claims)) claims "t1"
                         eq_refl eq_refl eq_refl eq_refl eq_refl)) eq_refl).
Defined.
